(** * chat_ws: the minechat listener and sender

  A shallow embedding of [listen-minechat.py] and [send-minechat.py].
  Both scripts are sequential programs whose only interesting behaviour is
  the order of their I/O actions, so every coroutine is embedded as a
  computation in a small state / exception / output monad: the state holds
  the program's variables and the files, exceptions are Python exceptions,
  and the output is the list of I/O events performed, in order.

  What the outside world does (which connection attempts succeed, what the
  server sends, what the operator types, what the clock shows, whether a
  file can be opened, read and written) is an input of the model. *)

From Stdlib Require Import String Ascii List Bool Arith NArith ZArith Lia.
From Stdlib Require Import DecimalString.
Import ListNotations.

Local Open Scope string_scope.
Local Open Scope list_scope.

(* ================================================================== *)
(** * Python values used by the scripts *)
(* ================================================================== *)

(** A Python [str] is represented by its UTF-8 encoding, a Rocq [string]. *)
Module PyStr.

Definition nl : string := String (ascii_of_nat 10) EmptyString.

Definition one_byte_space (a : N) : bool :=
  ((9 <=? a) && (a <=? 13) || (28 <=? a) && (a <=? 32))%N.

Definition two_byte_space (a b : N) : bool :=
  ((a =? 0xC2) && ((b =? 0x85) || (b =? 0xA0)))%N.

Definition three_byte_space (a b c : N) : bool :=
  ((a =? 0xE1) && (b =? 0x9A) && (c =? 0x80)
   || (a =? 0xE2) && (b =? 0x80)
      && ((0x80 <=? c) && (c <=? 0x8A) || (c =? 0xA8) || (c =? 0xA9) || (c =? 0xAF))
   || (a =? 0xE2) && (b =? 0x81) && (c =? 0x9F)
   || (a =? 0xE3) && (b =? 0x80) && (c =? 0x80))%N.

(** Drops the white space code points (the ones [str.isspace] accepts) a
    byte sequence starts with. *)
Fixpoint lstrip_bytes (l : list N) : list N :=
  match l with
  | [] => []
  | a :: t =>
      if one_byte_space a then lstrip_bytes t
      else match t with
           | [] => l
           | b :: t' =>
               if two_byte_space a b then lstrip_bytes t'
               else match t' with
                    | [] => l
                    | c :: t'' =>
                        if three_byte_space a b c then lstrip_bytes t'' else l
                    end
           end
  end.

(** The same on the reversed sequence: the last byte comes first. *)
Fixpoint lstrip_rev_bytes (l : list N) : list N :=
  match l with
  | [] => []
  | c :: t =>
      if one_byte_space c then lstrip_rev_bytes t
      else match t with
           | [] => l
           | b :: t' =>
               if two_byte_space b c then lstrip_rev_bytes t'
               else match t' with
                    | [] => l
                    | a :: t'' =>
                        if three_byte_space a b c then lstrip_rev_bytes t'' else l
                    end
           end
  end.

Definition bytes_of (s : string) : list N :=
  map N_of_ascii (list_ascii_of_string s).

Definition of_bytes (l : list N) : string :=
  string_of_list_ascii (map ascii_of_N l).

(** [str.lstrip()], [str.rstrip()] and [str.strip()]. *)
Definition lstrip (s : string) : string := of_bytes (lstrip_bytes (bytes_of s)).

Definition rstrip (s : string) : string :=
  of_bytes (rev (lstrip_rev_bytes (rev (bytes_of s)))).

Definition strip (s : string) : string := lstrip (rstrip s).

(** Truth value of a [str]: non-empty. *)
Definition truthy (s : string) : bool :=
  match s with EmptyString => false | String _ _ => true end.

(** [str(n)] for an [int]. *)
Definition of_int (z : Z) : string := NilZero.string_of_int (Z.to_int z).

Definition of_nat (n : nat) : string := of_int (Z.of_nat n).

(** ** Reading a text file

    A file holds bytes.  A file opened in text mode with [encoding='utf-8']
    is decoded strictly when it is read, and the line ends of the three
    conventions become line feeds. *)

Definition is_continuation (b : N) : bool := ((0x80 <=? b) && (b <=? 0xBF))%N.

(** The first sequence of bytes that is not UTF-8, as the decoder reports it:
    where it starts, where it ends (exclusive), and why.  [pos] is the
    position of the head of [l]. *)
Fixpoint decode_error (l : list N) (pos : nat) : option (nat * nat * string) :=
  match l with
  | [] => None
  | ch :: t =>
      if (ch <? 0x80)%N then decode_error t (S pos)
      else if (ch <? 0xC2)%N then Some (pos, pos + 1, "invalid start byte")
      else if (ch <? 0xE0)%N then
        match t with
        | [] => Some (pos, pos + 1, "unexpected end of data")
        | ch2 :: t2 =>
            if is_continuation ch2 then decode_error t2 (pos + 2)
            else Some (pos, pos + 1, "invalid continuation byte")
        end
      else if (ch <? 0xF0)%N then
        match t with
        | [] => Some (pos, pos + 1, "unexpected end of data")
        | ch2 :: t2 =>
            if negb (is_continuation ch2)
               || (if (ch2 <? 0xA0)%N then (ch =? 0xE0)%N else (ch =? 0xED)%N)
            then Some (pos, pos + 1, "invalid continuation byte")
            else
              match t2 with
              | [] => Some (pos, pos + 2, "unexpected end of data")
              | ch3 :: t3 =>
                  if is_continuation ch3 then decode_error t3 (pos + 3)
                  else Some (pos, pos + 2, "invalid continuation byte")
              end
        end
      else if (ch <? 0xF5)%N then
        match t with
        | [] => Some (pos, pos + 1, "unexpected end of data")
        | ch2 :: t2 =>
            if negb (is_continuation ch2)
               || (if (ch2 <? 0x90)%N then (ch =? 0xF0)%N else (ch =? 0xF4)%N)
            then Some (pos, pos + 1, "invalid continuation byte")
            else
              match t2 with
              | [] => Some (pos, pos + 2, "unexpected end of data")
              | ch3 :: t3 =>
                  if negb (is_continuation ch3)
                  then Some (pos, pos + 2, "invalid continuation byte")
                  else
                    match t3 with
                    | [] => Some (pos, pos + 3, "unexpected end of data")
                    | ch4 :: t4 =>
                        if is_continuation ch4 then decode_error t4 (pos + 4)
                        else Some (pos, pos + 3, "invalid continuation byte")
                    end
              end
        end
      else Some (pos, pos + 1, "invalid start byte")
  end.

Definition hex_digit (n : N) : string :=
  String (ascii_of_N (if (n <? 10)%N then 48 + n else 87 + n)) EmptyString.

(** [format(b, '02x')] for a byte. *)
Definition hex_byte (b : N) : string :=
  (hex_digit (b / 16) ++ hex_digit (b mod 16))%string.

(** [str(e)] for the [UnicodeDecodeError] of a byte sequence that is not
    UTF-8, if it is not. *)
Definition utf8_error (s : string) : option string :=
  match decode_error (bytes_of s) 0 with
  | None => None
  | Some (first, last, reason) =>
      Some (if (last =? S first)%nat
            then ("'utf-8' codec can't decode byte 0x"
                    ++ hex_byte (nth first (bytes_of s) 0%N)
                    ++ " in position " ++ of_nat first ++ ": " ++ reason)%string
            else ("'utf-8' codec can't decode bytes in position "
                    ++ of_nat first ++ "-" ++ of_nat (last - 1) ++ ": " ++ reason)%string)
  end.

(** The bytes are the UTF-8 encoding of a [str]. *)
Definition is_utf8 (s : string) : bool :=
  match utf8_error s with None => true | Some _ => false end.

Definition cr : ascii := ascii_of_nat 13.
Definition lf : ascii := ascii_of_nat 10.

(** Universal newlines: a carriage return, followed by a line feed or not,
    is read as one line feed. *)
Fixpoint universal_newlines (s : string) : string :=
  match s with
  | EmptyString => EmptyString
  | String a t =>
      if Ascii.eqb a cr then
        match t with
        | EmptyString => String lf EmptyString
        | String b t' =>
            if Ascii.eqb b lf then String lf (universal_newlines t')
            else String lf (universal_newlines t)
        end
      else String a (universal_newlines t)
  end.

End PyStr.

(** ** Exceptions *)

(** The exception classes the two scripts can meet, with the hierarchy of
    Python 3.11 and later, where [asyncio.TimeoutError] is the built-in
    [TimeoutError]. *)
Inductive exn_class : Type :=
| BaseException | Exception
| KeyboardInterrupt | SystemExit | CancelledError
| OSError | ConnectionError | ConnectionRefusedError | ConnectionResetError
| TimeoutError
| EOFError | IncompleteReadError
| ValueError | JSONDecodeError | UnicodeDecodeError
| LookupError | KeyError | TypeError | RuntimeError.

Definition exn_class_eqb (a b : exn_class) : bool :=
match a, b with
| BaseException, BaseException | Exception, Exception
| KeyboardInterrupt, KeyboardInterrupt | SystemExit, SystemExit
| CancelledError, CancelledError | OSError, OSError
| ConnectionError, ConnectionError
| ConnectionRefusedError, ConnectionRefusedError
| ConnectionResetError, ConnectionResetError
| TimeoutError, TimeoutError | EOFError, EOFError
| IncompleteReadError, IncompleteReadError | ValueError, ValueError
| JSONDecodeError, JSONDecodeError | UnicodeDecodeError, UnicodeDecodeError
| LookupError, LookupError | KeyError, KeyError | TypeError, TypeError
| RuntimeError, RuntimeError => true
| _, _ => false
end.

(** The direct base class. *)
Definition base_of (c : exn_class) : option exn_class :=
match c with
| BaseException => None
| Exception | KeyboardInterrupt | SystemExit | CancelledError => Some BaseException
| OSError | EOFError | ValueError | LookupError | TypeError | RuntimeError =>
    Some Exception
| ConnectionError | TimeoutError => Some OSError
| ConnectionRefusedError | ConnectionResetError => Some ConnectionError
| IncompleteReadError => Some EOFError
| JSONDecodeError | UnicodeDecodeError => Some ValueError
| KeyError => Some LookupError
end.

Fixpoint issubclass_fuel (fuel : nat) (c d : exn_class) : bool :=
exn_class_eqb c d ||
match fuel with
| O => false
| S f => match base_of c with
         | Some b => issubclass_fuel f b d
         | None => false
         end
end.

(** The hierarchy is four levels deep. *)
Definition issubclass (c d : exn_class) : bool := issubclass_fuel 4 c d.

(** Bytes received from a socket either are the UTF-8 encoding of a text, or
    they are not; in the second case [lossy] is what decoding with
    [errors='ignore'] keeps of them. *)
Inductive wire : Type :=
| Utf8 (text : string)
| NotUtf8 (lossy : string).

(** [b == b''] *)
Definition wire_empty (b : wire) : bool :=
match b with
| Utf8 EmptyString => true
| _ => false
end.

(** [b.decode('utf-8', errors='ignore')] *)
Definition decode_ignore (b : wire) : string :=
match b with
| Utf8 s => s
| NotUtf8 s => s
end.

(** An exception object: its class, [str(e)], and the [partial] attribute
    (meaningful for [IncompleteReadError] only). *)
Record exn : Type := mkExn {
  e_class : exn_class;
  e_str : string;
  e_partial : wire
}.

Definition new_exn (c : exn_class) (msg : string) : exn := mkExn c msg (Utf8 "").

Definition isinstance (e : exn) (c : exn_class) : bool := issubclass (e_class e) c.

(** ** JSON values, as [json.loads] builds them *)

#[local] Set Warnings "-register-all".

Inductive json : Type :=
| JNull
| JBool (b : bool)
| JInt (z : Z)
| JFloat (nonzero : bool)
| JStr (s : string)
| JList (l : list json)
| JDict (d : list (string * json)).

(** A [dict] built by [json.loads] keeps the last value of a repeated key. *)
Fixpoint dict_get (d : list (string * json)) (k : string) : option json :=
match d with
| [] => None
| (k', v) :: rest =>
    match dict_get rest k with
    | Some v' => Some v'
    | None => if String.eqb k' k then Some v else None
    end
end.

(** How the message of a refused argument names the value: by its type,
    and [None] by itself. *)
Definition argument_name (v : json) : string :=
match v with
| JNull => "None"
| JBool _ => "bool"
| JInt _ => "int"
| JFloat _ => "float"
| JStr _ => "str"
| JList _ => "list"
| JDict _ => "dict"
end.

(** Truth value of a Python object. *)
Definition json_truthy (v : json) : bool :=
match v with
| JNull => false
| JBool b => b
| JInt z => negb (Z.eqb z 0)
| JFloat nz => nz
| JStr s => PyStr.truthy s
| JList l => match l with [] => false | _ => true end
| JDict d => match d with [] => false | _ => true end
end.

(** ** Process results *)

Inductive result (A : Type) : Type :=
| Ok (a : A)
| Raise (e : exn).

Arguments Ok {A} a.
Arguments Raise {A} e.

(** How a loop body leaves an iteration. *)
Inductive ctl : Type := Normal | Continue | Break.

(* ================================================================== *)
(** * The outside world *)
(* ================================================================== *)

(** ** I/O events, in the order the program performs them *)

Inductive event : Type :=
| EvPrint (text : string)                       (* print(text) *)
| EvStderr (text : string)                      (* message of parser.error *)
| EvInput (prompt : string)                     (* input(prompt) *)
| EvConnect (attempt : nat) (timeout : option nat) (* open_connection called *)
| EvOpened (c : nat)                            (* ... and transport c returned *)
| EvRead (c : nat)                              (* reader.readline() *)
| EvWrite (c : nat) (data : string)             (* writer.write(data) *)
| EvDrain (c : nat)                             (* writer.drain() *)
| EvIsClosing (c : nat) (closing : bool)        (* writer.is_closing() *)
| EvClose (c : nat)                             (* writer.close() *)
| EvSleep (seconds : nat).                      (* asyncio.sleep(seconds) *)

(** ** What the environment answers *)

Record datetime : Type := mkDatetime {
  dt_year : nat; dt_month : nat; dt_day : nat; dt_hour : nat; dt_minute : nat
}.

(** One [readline()] on a connection: bytes, or an exception. *)
Inductive read_event : Type :=
| Line (b : wire)
| ReadError (e : exn).

(** What a connection will do: the answers to successive [readline()] calls
    (after them the stream is at end of file), the outcomes of successive
    [drain()] calls (after them every drain succeeds), and whether the
    transport is found closing by itself when the program asks. *)
Record conn_script : Type := mkScript {
  cs_incoming : list read_event;
  cs_drain : list (option exn);
  cs_lost : bool
}.

Inductive attempt : Type :=
| Connected (s : conn_script)
| ConnectFails (e : exn).

(** One [input()] call. *)
Inductive input_event : Type :=
| Typed (s : string)
| InputError (e : exn).

(** The clock at the n-th [datetime.now()], the message of the [OSError]
    that makes the n-th operation on a file fail, if it fails (the
    operations are the opens, the reads, and the writes of data, each with
    the flush that follows it), and the outcome of the n-th connection
    attempt. *)
Record env : Type := mkEnv {
  now : nat -> datetime;
  fs_error : nat -> option string;
  net : nat -> attempt
}.

(** ** The state of the world *)

Record transport : Type := mkTransport {
  t_incoming : list read_event;
  t_drain : list (option exn);
  t_lost : bool;
  t_closed : bool       (* writer.close() was called *)
}.

Record world : Type := mkWorld {
  w_clock : nat;                       (* datetime.now() calls so far *)
  w_opens : nat;                       (* file operations attempted so far *)
  w_attempts : nat;                    (* connection attempts so far *)
  w_conns : list transport;            (* transports, by number *)
  w_files : string -> option string;   (* content of each existing file *)
  w_stdin : list input_event           (* what the operator will type *)
}.

Definition set_clock (w : world) (n : nat) : world :=
mkWorld n (w_opens w) (w_attempts w) (w_conns w) (w_files w) (w_stdin w).

Definition set_opens (w : world) (n : nat) : world :=
mkWorld (w_clock w) n (w_attempts w) (w_conns w) (w_files w) (w_stdin w).

Definition set_attempts (w : world) (n : nat) : world :=
mkWorld (w_clock w) (w_opens w) n (w_conns w) (w_files w) (w_stdin w).

Definition set_conns (w : world) (l : list transport) : world :=
mkWorld (w_clock w) (w_opens w) (w_attempts w) l (w_files w) (w_stdin w).

Definition set_files (w : world) (f : string -> option string) : world :=
mkWorld (w_clock w) (w_opens w) (w_attempts w) (w_conns w) f (w_stdin w).

Definition set_stdin (w : world) (l : list input_event) : world :=
mkWorld (w_clock w) (w_opens w) (w_attempts w) (w_conns w) (w_files w) l.

Definition file_put (f : string -> option string) (path content : string)
  : string -> option string :=
fun p => if String.eqb p path then Some content else f p.

Fixpoint conn_update (l : list transport) (c : nat) (f : transport -> transport)
  : list transport :=
match l, c with
| [], _ => []
| t :: rest, O => f t :: rest
| t :: rest, S c' => t :: conn_update rest c' f
end.

Definition dead_transport : transport := mkTransport [] [] true true.

Definition conn_get (w : world) (c : nat) : transport :=
nth c (w_conns w) dead_transport.

(** Transports opened and neither closed by the program nor found closing. *)
Definition transport_open (t : transport) : bool :=
negb (t_closed t || t_lost t).

(* ================================================================== *)
(** * The monad of the embedding *)
(* ================================================================== *)

(** A program state is the world plus the program's own variables [L]. *)
Record state (L : Type) : Type := mkState {
  st_world : world;
  st_vars : L
}.

Arguments mkState {L} _ _.
Arguments st_world {L} _.
Arguments st_vars {L} _.

Definition M (L A : Type) : Type := state L -> result A * state L * list event.

Definition ret {L A} (a : A) : M L A := fun s => (Ok a, s, []).

Definition raise {L A} (e : exn) : M L A := fun s => (Raise e, s, []).

Definition bind {L A B} (m : M L A) (k : A -> M L B) : M L B :=
fun s =>
  match m s with
  | (Ok a, s1, ev1) =>
      match k a s1 with
      | (r, s2, ev2) => (r, s2, ev1 ++ ev2)
      end
  | (Raise e, s1, ev1) => (Raise e, s1, ev1)
  end.

Declare Scope py_scope.
Delimit Scope py_scope with py.

Notation "x <- m ;; k" := (bind m (fun x => k))
  (at level 61, m at next level, right associativity) : py_scope.
Notation "m ;; k" := (bind m (fun _ => k))
  (at level 61, right associativity) : py_scope.

Local Open Scope py_scope.

(** [try: m  except ...: ...]: [handler e] is the body of the first clause
    that matches [e], if any. *)
Definition try_except {L A} (m : M L A) (handler : exn -> option (M L A)) : M L A :=
fun s =>
  match m s with
  | (Ok a, s1, ev1) => (Ok a, s1, ev1)
  | (Raise e, s1, ev1) =>
      match handler e with
      | Some h =>
          match h s1 with
          | (r, s2, ev2) => (r, s2, ev1 ++ ev2)
          end
      | None => (Raise e, s1, ev1)
      end
  end.

(** [try: m  finally: f]: [f] runs whatever [m] does; an exception of [f]
    replaces the outcome of [m]. *)
Definition try_finally {L A} (m : M L A) (f : M L unit) : M L A :=
fun s =>
  match m s with
  | (r, s1, ev1) =>
      match f s1 with
      | (Ok _, s2, ev2) => (r, s2, ev1 ++ ev2)
      | (Raise e, s2, ev2) => (Raise e, s2, ev1 ++ ev2)
      end
  end.

Definition emit {L} (e : event) : M L unit := fun s => (Ok tt, s, [e]).

Definition get_world {L} : M L world := fun s => (Ok (st_world s), s, []).

Definition put_world {L} (w : world) : M L unit :=
fun s => (Ok tt, mkState w (st_vars s), []).

Definition get_vars {L} : M L L := fun s => (Ok (st_vars s), s, []).

Definition put_vars {L} (v : L) : M L unit :=
fun s => (Ok tt, mkState (st_world s) v, []).

(** The three components of a run. *)
Definition outcome {L A} (x : result A * state L * list event) : result A := fst (fst x).
Definition final {L A} (x : result A * state L * list event) : state L := snd (fst x).
Definition events {L A} (x : result A * state L * list event) : list event := snd x.

(* ================================================================== *)
(** * The library calls both scripts make *)
(* ================================================================== *)

Section Primitives.

Context {L : Type}.
Variable en : env.

(** [print(text)] *)
Definition print (text : string) : M L unit := emit (EvPrint text).

(** [datetime.datetime.now()] *)
Definition datetime_now : M L datetime :=
  w <- get_world ;;
  put_world (set_clock w (S (w_clock w))) ;;
  ret (now en (w_clock w)).

(** [await asyncio.sleep(seconds)] *)
Definition sleep (seconds : nat) : M L unit := emit (EvSleep seconds).

(** [await asyncio.open_connection(host, port)], under
    [asyncio.wait_for(..., timeout)] when [timeout] is given.  The reader and
    the writer it returns are the two ends of one transport, named by its
    number. *)
Definition open_connection (timeout : option nat) : M L nat :=
  w <- get_world ;;
  emit (EvConnect (w_attempts w) timeout) ;;
  put_world (set_attempts w (S (w_attempts w))) ;;
  match net en (w_attempts w) with
  | ConnectFails e => raise e
  | Connected s =>
      w1 <- get_world ;;
      let c := length (w_conns w1) in
      put_world (set_conns w1
        (w_conns w1 ++ [mkTransport (cs_incoming s) (cs_drain s) (cs_lost s) false])) ;;
      emit (EvOpened c) ;;
      ret c
  end.

(** [await reader.readline()]: the next line, [b''] at end of file. *)
Definition readline (c : nat) : M L wire :=
  emit (EvRead c) ;;
  w <- get_world ;;
  match t_incoming (conn_get w c) with
  | [] => ret (Utf8 "")
  | ev :: rest =>
      put_world (set_conns w (conn_update (w_conns w) c
        (fun t => mkTransport rest (t_drain t) (t_lost t) (t_closed t)))) ;;
      match ev with
      | Line b => ret b
      | ReadError e => raise e
      end
  end.

(** [writer.write(data)] *)
Definition write (c : nat) (data : string) : M L unit := emit (EvWrite c data).

(** [await writer.drain()] *)
Definition drain (c : nat) : M L unit :=
  emit (EvDrain c) ;;
  w <- get_world ;;
  match t_drain (conn_get w c) with
  | [] => ret tt
  | o :: rest =>
      put_world (set_conns w (conn_update (w_conns w) c
        (fun t => mkTransport (t_incoming t) rest (t_lost t) (t_closed t)))) ;;
      match o with
      | None => ret tt
      | Some e => raise e
      end
  end.

(** [writer.is_closing()] *)
Definition is_closing (c : nat) : M L bool :=
  w <- get_world ;;
  let closing := negb (transport_open (conn_get w c)) in
  emit (EvIsClosing c closing) ;;
  ret closing.

(** [writer.close()] *)
Definition close (c : nat) : M L unit :=
  emit (EvClose c) ;;
  w <- get_world ;;
  put_world (set_conns w (conn_update (w_conns w) c
    (fun t => mkTransport (t_incoming t) (t_drain t) (t_lost t) true))).

(** [await writer.wait_closed()]; taken to return normally, as the
    transport contract of both scripts expects. *)
Definition wait_closed (c : nat) : M L unit := ret tt.

(** [input(prompt)]; at the end of the input it raises [EOFError]. *)
Definition input (prompt : string) : M L string :=
  emit (EvInput prompt) ;;
  w <- get_world ;;
  match w_stdin w with
  | [] => raise (new_exn EOFError "EOF when reading a line")
  | ev :: rest =>
      put_world (set_stdin w rest) ;;
      match ev with
      | Typed s => ret s
      | InputError e => raise e
      end
  end.

(** [os.path.exists(path)] *)
Definition path_exists (path : string) : M L bool :=
  w <- get_world ;;
  ret (match w_files w path with Some _ => true | None => false end).

(** An operation on a file (an open, a read, a write of data): it fails with
    an [OSError] when the environment says so. *)
Definition file_attempt : M L unit :=
  w <- get_world ;;
  put_world (set_opens w (S (w_opens w))) ;;
  match fs_error en (w_opens w) with
  | Some msg => raise (new_exn OSError msg)
  | None => ret tt
  end.

(** Entering [aiofiles.open(path, 'w', encoding='utf-8')]: the file is
    created or truncated. *)
Definition open_w (path : string) : M L unit :=
  file_attempt ;;
  w <- get_world ;;
  put_world (set_files w (file_put (w_files w) path "")).

(** Mode ['a'] creates the file when it is missing. *)
Definition open_a (path : string) : M L unit :=
  file_attempt ;;
  w <- get_world ;;
  match w_files w path with
  | Some _ => ret tt
  | None => put_world (set_files w (file_put (w_files w) path ""))
  end.

(** Mode ['r'] needs the file. *)
Definition open_r (path : string) : M L unit :=
  file_attempt ;;
  w <- get_world ;;
  match w_files w path with
  | Some _ => ret tt
  | None => raise (new_exn OSError "No such file or directory")
  end.

(** [await f.write(data)] on a file opened for writing or appending,
    together with the flush that leaving the [async with] block performs.
    Writing the empty string sends nothing to the file.  Any other write can
    fail as the environment says, and a write that fails leaves the file as
    the open left it.  The text reaches the file as it is: a [str] is
    represented by its UTF-8 encoding, and the line end of the platform is
    taken to be the line feed. *)
Definition f_write (path data : string) : M L unit :=
  if PyStr.truthy data then
    file_attempt ;;
    w <- get_world ;;
    let old := match w_files w path with Some s => s | None => "" end in
    put_world (set_files w (file_put (w_files w) path (old ++ data)))
  else ret tt.

(** [await f.read()] on a file opened for reading in text mode: the whole
    content, decoded strictly ([UnicodeDecodeError] when the bytes are not
    UTF-8), with universal newlines. *)
Definition f_read (path : string) : M L string :=
  file_attempt ;;
  w <- get_world ;;
  let raw := match w_files w path with Some s => s | None => "" end in
  match PyStr.utf8_error raw with
  | Some msg => raise (new_exn UnicodeDecodeError msg)
  | None => ret (PyStr.universal_newlines raw)
  end.

End Primitives.

(** ** Library functions taken as parameters *)

(** [int(s)], [json.loads(s)] ([None] stands for [ValueError], respectively
    [json.JSONDecodeError]) and [repr(v)], which is also [str(v)] for a value
    that is not a [str]. *)
Record pylib : Type := mkLib {
  py_int : string -> option Z;
  json_loads : string -> option json;
  py_repr : json -> string
}.

(** [str(v)], as an f-string formats [v]. *)
Definition py_str (lib : pylib) (v : json) : string :=
match v with
| JStr s => s
| _ => py_repr lib v
end.

(** [str(e)] for the [ValueError] of [int(text)]. *)
Definition invalid_literal (lib : pylib) (text : string) : string :=
  "invalid literal for int() with base 10: " ++ py_repr lib (JStr text).

(** The command line and the process environment. *)
Record cmdline : Type := mkCmdline {
  flag_host : option string;
  flag_port : option string;
  flag_file : option string;      (* --history, respectively --hash-file *)
  environ : string -> option string
}.

(** [os.getenv(name, default)] *)
Definition getenv (cl : cmdline) (name default : string) : string :=
match environ cl name with
| Some v => v
| None => default
end.

(** What [parse_arguments] returns. *)
Record args : Type := mkArgs {
  a_host : string;
  a_port : Z;
  a_file : string
}.

(** [parser.error(message)]: the message goes to standard error and the
    process exits with status 2. *)
Definition parser_error {L A} (message : string) : M L A :=
  emit (EvStderr message) ;;
  raise (new_exn SystemExit "2").

(** [strftime("[%d.%m.%y %H:%M]")] *)
Definition digit (n : nat) : string := String (ascii_of_nat (48 + n mod 10)) EmptyString.

Definition two_digits (n : nat) : string := digit (n / 10) ++ digit n.

Definition strftime_log (dt : datetime) : string :=
  "[" ++ two_digits (dt_day dt) ++ "." ++ two_digits (dt_month dt) ++ "."
      ++ two_digits (dt_year dt mod 100) ++ " "
      ++ two_digits (dt_hour dt) ++ ":" ++ two_digits (dt_minute dt) ++ "]".

(* ================================================================== *)
(** * listen-minechat.py *)
(* ================================================================== *)

Module Listener.

(** The variables [reader] and [writer] of [minechat_client]; they keep their
    value from one iteration of the loop to the next. *)
Record vars : Type := mkVars {
  reader : option nat;
  writer : option nat
}.

Definition Mv : Type -> Type := M vars.

Section Client.

Variable en : env.
Variable lib : pylib.

(** [ChatLogger.ensure_log_file] *)
Definition ensure_log_file (log_file : string) : Mv unit :=
  ex <- path_exists log_file ;;
  if negb ex then
    open_w en log_file ;;
    f_write en log_file ""
  else ret tt.

(** [ChatLogger.log_message] *)
Definition log_message (log_file message : string) : Mv unit :=
  dt <- datetime_now en ;;
  let timestamp := strftime_log dt in
  let log_entry := (timestamp ++ " " ++ message)%string in
  print log_entry ;;
  try_except
    (open_a en log_file ;;
     f_write en log_file (log_entry ++ PyStr.nl))
    (fun e =>
       if isinstance e Exception
       then Some (print ("Ошибка записи в файл: " ++ e_str e))
       else None).

(** [parse_arguments]: the defaults are computed while the arguments are
    declared, the command line is parsed, then the three values are checked. *)
Definition parse_arguments (cl : cmdline) : Mv args :=
  let host_default := getenv cl "MINECHAT_HOST" "" in
  port_default <-
    match py_int lib (getenv cl "MINECHAT_PORT" "0") with
    | Some z => ret z
    | None => raise (new_exn ValueError (invalid_literal lib (getenv cl "MINECHAT_PORT" "0")))
    end ;;
  let history_default := getenv cl "MINECHAT_HISTORY" "" in
  let host := match flag_host cl with Some h => h | None => host_default end in
  port <-
    match flag_port cl with
    | Some p =>
        match py_int lib p with
        | Some z => ret z
        | None =>
            parser_error ("argument --port: invalid int value: " ++ py_repr lib (JStr p))
        end
    | None => ret port_default
    end ;;
  let history := match flag_file cl with Some h => h | None => history_default end in
  (if negb (PyStr.truthy host)
   then parser_error "Хост обязателен. Используйте --host или переменную MINECHAT_HOST"
   else ret tt) ;;
  (if Z.eqb port 0
   then parser_error "Порт обязателен. Используйте --port или переменную MINECHAT_PORT"
   else ret tt) ;;
  (if negb (PyStr.truthy history)
   then parser_error
     "Файл истории обязателен. Используйте --history или переменную MINECHAT_HISTORY"
   else ret tt) ;;
  ret (mkArgs host port history).

Variable host : string.
Variable port : Z.
Variable history_file : string.

Definition endpoint : string := host ++ ":" ++ PyStr.of_int port.

(** [async for line in reader: ...]: [__anext__] reads a line and stops the
    iteration on [b''].  Every turn takes one element of the connection's
    pending input, so [fuel] one more than their number is enough. *)
Fixpoint async_for (fuel : nat) (c : nat) (message_count : nat) : Mv nat :=
  match fuel with
  | O => ret message_count
  | S fuel' =>
      line <- readline c ;;
      if wire_empty line then ret message_count
      else
        let message := PyStr.rstrip (decode_ignore line) in
        if PyStr.truthy message
        then log_message history_file message ;;
             async_for fuel' c (S message_count)
        else async_for fuel' c message_count
  end.

(** The [except] clauses of the loop, in the order of the source. *)
Definition handler (e : exn) : option (Mv ctl) :=
  if isinstance e TimeoutError then Some (
    log_message history_file ("Таймаут подключения к " ++ endpoint) ;;
    log_message history_file "Попытка переподключения через 5 секунд..." ;;
    sleep 5 ;;
    ret Continue)
  else if isinstance e IncompleteReadError then Some (
    log_message history_file
      ("Неполное чтение: " ++ decode_ignore (e_partial e)) ;;
    ret Normal)
  else if isinstance e ConnectionRefusedError || isinstance e OSError then Some (
    log_message history_file ("Ошибка подключения: " ++ e_str e) ;;
    log_message history_file "Попытка переподключения через 5 секунд..." ;;
    sleep 5 ;;
    ret Continue)
  else if isinstance e ConnectionError || isinstance e OSError then Some (
    log_message history_file ("Потеряно соединение: " ++ e_str e) ;;
    log_message history_file "Попытка переподключения через 5 секунд..." ;;
    sleep 5 ;;
    ret Continue)
  else if isinstance e Exception then Some (
    log_message history_file ("Неожиданная ошибка: " ++ e_str e) ;;
    log_message history_file "Попытка переподключения через 5 секунд..." ;;
    sleep 5 ;;
    ret Continue)
  else None.

(** The [finally] clause. *)
Definition finally_clause : Mv unit :=
  v <- get_vars ;;
  match writer v with
  | None => ret tt
  | Some wr =>
      closing <- is_closing wr ;;
      if negb closing then
        log_message history_file "Закрытие соединения..." ;;
        close wr ;;
        wait_closed wr
      else ret tt
  end.

(** The [try] block. *)
Definition try_block : Mv ctl :=
  log_message history_file ("Подключение к " ++ endpoint ++ "...") ;;
  c <- open_connection en (Some 10) ;;
  put_vars (mkVars (Some c) (Some c)) ;;
  log_message history_file ("Соединение установлено с " ++ endpoint) ;;
  w <- get_world ;;
  message_count <- async_for (S (length (t_incoming (conn_get w c)))) c 0 ;;
  (if Nat.eqb message_count 0
   then log_message history_file "Соединение закрыто сервером без отправки данных"
   else ret tt) ;;
  ret Normal.

(** One turn of [while True]. *)
Definition iteration : Mv ctl :=
  try_finally (try_except try_block handler) finally_clause.

(** [n] turns of [while True].  Nothing in the body leaves the loop, so the
    loop ends only by an exception; [Ok] after [n] turns means that it is
    about to start turn [n + 1]. *)
Fixpoint reconnect_loop (n : nat) : Mv unit :=
  match n with
  | O => ret tt
  | S n' => iteration ;; reconnect_loop n'
  end.

End Client.

(** [minechat_client(host, port, history_file)], followed for [n] turns of
    its loop. *)
Definition minechat_client (en : env) (n : nat) (host : string) (port : Z)
    (history_file : string) : Mv unit :=
  ensure_log_file en history_file ;;
  put_vars (mkVars None None) ;;
  reconnect_loop en host port history_file n.

(** [main()], with the loop followed for [n] turns. *)
Definition main (en : env) (lib : pylib) (n : nat) (cl : cmdline) : Mv unit :=
  a <- parse_arguments lib cl ;;
  print "Запуск слушателя чата:" ;;
  print ("  Хост: " ++ a_host a) ;;
  print ("  Порт: " ++ PyStr.of_int (a_port a)) ;;
  print ("  Файл истории: " ++ a_file a) ;;
  print "Нажмите Ctrl+C для завершения" ;;
  print "==================================================" ;;
  try_except
    (minechat_client en n (a_host a) (a_port a) (a_file a))
    (fun e =>
       if isinstance e KeyboardInterrupt
       then Some (print (PyStr.nl ++ "Программа завершена пользователем"))
       else if isinstance e Exception
       then Some (print ("Критическая ошибка: " ++ e_str e))
       else None).

End Listener.

(* ================================================================== *)
(** * send-minechat.py *)
(* ================================================================== *)

Module Sender.

(** The attributes [account_hash] and [nickname] of [MinechatSender] ([JNull]
    is [None]), and the variable [writer] of [interactive_mode], which exists
    only once [connect_and_auth] has returned. *)
Record vars : Type := mkVars {
  account_hash : json;
  nickname : json;
  writer : option nat
}.

Definition Mv : Type -> Type := M vars.

Definition set_account_hash (h : json) : Mv unit :=
  v <- get_vars ;; put_vars (mkVars h (nickname v) (writer v)).

Definition set_nickname (n : json) : Mv unit :=
  v <- get_vars ;; put_vars (mkVars (account_hash v) n (writer v)).

Definition set_writer (c : nat) : Mv unit :=
  v <- get_vars ;; put_vars (mkVars (account_hash v) (nickname v) (Some c)).

(** [b.decode('utf-8')] *)
Definition decode (b : wire) : Mv string :=
  match b with
  | Utf8 s => ret s
  | NotUtf8 _ =>
      raise (new_exn UnicodeDecodeError "'utf-8' codec can't decode bytes")
  end.

(** [v[key]] for a string [key] *)
Definition getitem (v : json) (key : string) : Mv json :=
  match v with
  | JDict d =>
      match dict_get d key with
      | Some x => ret x
      | None => raise (new_exn KeyError ("'" ++ key ++ "'"))
      end
  | JList _ =>
      raise (new_exn TypeError "list indices must be integers or slices, not str")
  | JStr _ =>
      raise (new_exn TypeError "string indices must be integers, not 'str'")
  | JNull => raise (new_exn TypeError "'NoneType' object is not subscriptable")
  | JBool _ => raise (new_exn TypeError "'bool' object is not subscriptable")
  | JInt _ => raise (new_exn TypeError "'int' object is not subscriptable")
  | JFloat _ => raise (new_exn TypeError "'float' object is not subscriptable")
  end.

Section Client.

Variable en : env.
Variable lib : pylib.

(** [json.loads(s)] *)
Definition loads (s : string) : Mv json :=
  match json_loads lib s with
  | Some v => ret v
  | None => raise (new_exn JSONDecodeError "Expecting value")
  end.

(** [parse_arguments] *)
Definition parse_arguments (cl : cmdline) : Mv args :=
  let host_default := getenv cl "MINECHAT_HOST_WRITER" "" in
  port_default <-
    match py_int lib (getenv cl "MINECHAT_PORT" "0") with
    | Some z => ret z
    | None => raise (new_exn ValueError (invalid_literal lib (getenv cl "MINECHAT_PORT" "0")))
    end ;;
  let hash_default := getenv cl "MINECHAT_HASH" "" in
  let host := match flag_host cl with Some h => h | None => host_default end in
  port <-
    match flag_port cl with
    | Some p =>
        match py_int lib p with
        | Some z => ret z
        | None =>
            parser_error ("argument --port: invalid int value: " ++ py_repr lib (JStr p))
        end
    | None => ret port_default
    end ;;
  let hash_file := match flag_file cl with Some h => h | None => hash_default end in
  (if negb (PyStr.truthy host)
   then parser_error "Хост обязателен. Используйте --host или переменную MINECHAT_HOST"
   else ret tt) ;;
  (if Z.eqb port 0
   then parser_error "Порт обязателен. Используйте --port или переменную MINECHAT_PORT"
   else ret tt) ;;
  (if negb (PyStr.truthy hash_file)
   then parser_error
     "Файл hash обязателен. Используйте --hash-file или переменную MINECHAT_HASH"
   else ret tt) ;;
  ret (mkArgs host port hash_file).

Variable host : string.
Variable port : Z.
Variable hash_file : string.

(** [load_hash] *)
Definition load_hash : Mv bool :=
  try_except
    (ex <- path_exists hash_file ;;
     if ex then
       open_r en hash_file ;;
       content <- f_read en hash_file ;;
       if PyStr.truthy (PyStr.strip content) then
         set_account_hash (JStr (PyStr.strip content)) ;;
         print ("Загружен hash: " ++ PyStr.strip content) ;;
         ret true
       else ret false
     else ret false)
    (fun e =>
       if isinstance e Exception
       then Some (print ("Ошибка загрузки hash: " ++ e_str e) ;; ret false)
       else None).

(** [save_hash]: the file is opened (and so emptied) before the value is
    written, and [write] accepts a [str] only. *)
Definition save_hash (hash_value : json) : Mv unit :=
  try_except
    (open_w en hash_file ;;
     match hash_value with
     | JStr s => f_write en hash_file s
     | v =>
         raise (new_exn TypeError ("write() argument must be str, not " ++ argument_name v))
     end ;;
     print ("Hash сохранен в " ++ hash_file))
    (fun e =>
       if isinstance e Exception
       then Some (print ("Ошибка сохранения hash: " ++ e_str e))
       else None).

(** [register_account] *)
Definition register_account (c : nat) : Mv (json * json) :=
  print "Регистрация нового аккаунта..." ;;
  greeting <- readline c ;;
  g <- decode greeting ;;
  print (PyStr.strip g) ;;
  write c PyStr.nl ;;
  drain c ;;
  nickname_prompt <- readline c ;;
  p <- decode nickname_prompt ;;
  print (PyStr.strip p) ;;
  typed <- input "Введите никнейм: " ;;
  let nickname := PyStr.strip typed in
  let nickname := if negb (PyStr.truthy nickname) then "Anonymous" else nickname in
  write c (nickname ++ PyStr.nl) ;;
  drain c ;;
  response <- readline c ;;
  r <- decode response ;;
  account_data <- loads (PyStr.strip r) ;;
  account_hash <- getitem account_data "account_hash" ;;
  nickname <- getitem account_data "nickname" ;;
  print ("Аккаунт создан: " ++ py_str lib nickname) ;;
  print ("Hash: " ++ py_str lib account_hash) ;;
  save_hash account_hash ;;
  ret (account_hash, nickname).

(** [login_with_hash] *)
Definition login_with_hash (c : nat) : Mv bool :=
  print "Авторизация с существующим hash..." ;;
  greeting <- readline c ;;
  g <- decode greeting ;;
  print (PyStr.strip g) ;;
  v <- get_vars ;;
  write c (py_str lib (account_hash v) ++ PyStr.nl) ;;
  drain c ;;
  response <- readline c ;;
  try_except
    (r <- decode response ;;
     account_data <- loads (PyStr.strip r) ;;
     n <- getitem account_data "nickname" ;;
     set_nickname n ;;
     print ("Авторизация успешна: " ++ py_str lib n) ;;
     ret true)
    (fun e =>
       if isinstance e JSONDecodeError
       then Some (print "Ошибка авторизации, возможно hash неверный" ;; ret false)
       else None).

(** [connect_and_auth]; the transport number it returns stands for the pair
    [(reader, writer)]. *)
Definition connect_and_auth : Mv nat :=
  print ("Подключение к " ++ host ++ ":" ++ PyStr.of_int port ++ "...") ;;
  c <- open_connection en None ;;
  print "Соединение установлено" ;;
  v <- get_vars ;;
  logged_in <-
    (if json_truthy (account_hash v) then login_with_hash c else ret false) ;;
  if logged_in then ret c
  else
    close c ;;
    wait_closed c ;;
    print "Переподключение для регистрации..." ;;
    c2 <- open_connection en None ;;
    registered <- register_account c2 ;;
    set_account_hash (fst registered) ;;
    set_nickname (snd registered) ;;
    ret c2.

(** [send_message] *)
Definition send_message (c : nat) (message : string) : Mv unit :=
  write c (message ++ PyStr.nl) ;;
  drain c ;;
  response <- readline c ;;
  r <- decode response ;;
  print (PyStr.strip r).

(** One turn of the [while True] of [interactive_mode]. *)
Definition message_turn (c : nat) : Mv ctl :=
  try_except
    (typed <- input "> " ;;
     let message := PyStr.strip typed in
     if negb (PyStr.truthy message) then ret Break
     else
       send_message c message ;;
       ret Normal)
    (fun e =>
       if isinstance e KeyboardInterrupt then Some (ret Break)
       else if isinstance e Exception
       then Some (print ("Ошибка отправки сообщения: " ++ e_str e) ;; ret Break)
       else None).

(** The [while True] of [interactive_mode].  Every turn either leaves the
    loop or takes one element of the operator's input, and at the end of the
    input [input()] raises; [fuel] one more than the pending input is enough. *)
Fixpoint message_loop (fuel : nat) (c : nat) : Mv unit :=
  match fuel with
  | O => ret tt
  | S fuel' =>
      how <- message_turn c ;;
      match how with
      | Break => ret tt
      | _ => message_loop fuel' c
      end
  end.

(** [interactive_mode], after the handshake: the welcome line, the banner
    and the exchange of messages. *)
Definition exchange (c : nat) : Mv unit :=
  welcome <- readline c ;;
  wl <- decode welcome ;;
  print (PyStr.strip wl) ;;
  print (PyStr.nl ++ "Добро пожаловать в чат!") ;;
  print "Введите сообщение и нажмите Enter для отправки" ;;
  print "Введите пустую строку для завершения" ;;
  print "==================================================" ;;
  w <- get_world ;;
  message_loop (S (length (w_stdin w))) c.

(** The [finally] clause of [interactive_mode]. *)
Definition finally_clause : Mv unit :=
  v <- get_vars ;;
  match writer v with
  | Some wr =>
      closing <- is_closing wr ;;
      if negb closing then close wr ;; wait_closed wr else ret tt
  | None => ret tt
  end ;;
  print "Соединение закрыто".

(** [interactive_mode] *)
Definition interactive_mode : Mv unit :=
  try_finally
    (try_except
       (c <- connect_and_auth ;;
        set_writer c ;;
        exchange c)
       (fun e =>
          if isinstance e Exception
          then Some (print ("Ошибка подключения: " ++ e_str e))
          else None))
    finally_clause.

End Client.

(** [main()] *)
Definition main (en : env) (lib : pylib) (cl : cmdline) : Mv unit :=
  a <- parse_arguments lib cl ;;
  print "Запуск отправителя сообщений:" ;;
  print ("  Хост: " ++ a_host a) ;;
  print ("  Порт: " ++ PyStr.of_int (a_port a)) ;;
  print ("  Файл hash: " ++ a_file a) ;;
  print "==================================================" ;;
  put_vars (mkVars JNull JNull None) ;;
  load_hash en (a_file a) ;;
  interactive_mode en lib (a_host a) (a_port a) (a_file a).

(** The [if __name__ == "__main__"] block. *)
Definition script (en : env) (lib : pylib) (cl : cmdline) : Mv unit :=
  try_except
    (main en lib cl)
    (fun e =>
       if isinstance e KeyboardInterrupt
       then Some (print (PyStr.nl ++ "Программа завершена пользователем"))
       else if isinstance e Exception
       then Some (print ("Критическая ошибка: " ++ e_str e) ;;
                  raise (new_exn SystemExit "1"))
       else None).

End Sender.

(* ================================================================== *)
(** * An instance of the library functions *)
(* ================================================================== *)

(** The theorems below hold for whatever [int], [json.loads] and [repr] do.
    To run the scripts on concrete inputs, this instance reads decimal
    integers written with ASCII digits, and the JSON texts made of [null],
    [true], [false], integers, strings without escapes, arrays and objects;
    in a quoted string it takes the characters outside ASCII to be
    printable. *)
Module Basic.

Definition is_digit (a : ascii) : bool :=
  let n := nat_of_ascii a in (48 <=? n)%nat && (n <=? 57)%nat.

Fixpoint digits_value (acc : Z) (l : list ascii) : option Z :=
  match l with
  | [] => Some acc
  | a :: rest =>
      if is_digit a
      then digits_value (10 * acc + Z.of_nat (nat_of_ascii a - 48)) rest
      else None
  end.

(** Decimal digits, with single underscores between them. *)
Fixpoint literal_value (acc : Z) (l : list ascii) : option Z :=
  match l with
  | [] => Some acc
  | a :: rest =>
      if is_digit a
      then literal_value (10 * acc + Z.of_nat (nat_of_ascii a - 48)) rest
      else if Ascii.eqb a "_"%char
      then if is_digit (hd " "%char rest) then literal_value acc rest else None
      else None
  end.

Definition unsigned_literal (l : list ascii) : option Z :=
  if is_digit (hd " "%char l) then literal_value 0 l else None.

(** [int(s)]: white space around, an optional sign, then ASCII digits with
    single underscores between them. *)
Definition int_of_string (s : string) : option Z :=
  match list_ascii_of_string (PyStr.strip s) with
  | "-"%char :: rest => option_map Z.opp (unsigned_literal rest)
  | "+"%char :: rest => unsigned_literal rest
  | l => unsigned_literal l
  end.

Definition is_json_ws (a : ascii) : bool :=
  let n := nat_of_ascii a in
  (n =? 32)%nat || (n =? 9)%nat || (n =? 10)%nat || (n =? 13)%nat.

Fixpoint skip_ws (l : list ascii) : list ascii :=
  match l with
  | a :: rest => if is_json_ws a then skip_ws rest else l
  | [] => []
  end.

Definition dquote : ascii := ascii_of_nat 34.

(** The characters of a string up to its closing quote. *)
Fixpoint string_body (l : list ascii) : option (string * list ascii) :=
  match l with
  | [] => None
  | a :: rest =>
      if Ascii.eqb a dquote then Some (EmptyString, rest)
      else if Ascii.eqb a "\"%char then None
      else if (nat_of_ascii a <? 32)%nat then None
      else match string_body rest with
           | Some (s, r) => Some (String a s, r)
           | None => None
           end
  end.

Fixpoint span_digits (l : list ascii) : list ascii * list ascii :=
  match l with
  | a :: rest =>
      if is_digit a
      then let (d, r) := span_digits rest in (a :: d, r)
      else ([], l)
  | [] => ([], [])
  end.

(** An integer: [0] or a non-zero digit followed by digits; a fraction or an
    exponent after it is outside this instance. *)
Definition integer (l : list ascii) : option (Z * list ascii) :=
  let (d, r) := span_digits l in
  match d with
  | [] => None
  | "0"%char :: _ :: _ => None
  | _ =>
      match r with
      | "."%char :: _ | "e"%char :: _ | "E"%char :: _ => None
      | _ => match digits_value 0 d with
             | Some z => Some (z, r)
             | None => None
             end
      end
  end.

Fixpoint value (fuel : nat) (l : list ascii) : option (json * list ascii) :=
  match fuel with
  | O => None
  | S f =>
      match skip_ws l with
      | "n"%char :: "u"%char :: "l"%char :: "l"%char :: r => Some (JNull, r)
      | "t"%char :: "r"%char :: "u"%char :: "e"%char :: r => Some (JBool true, r)
      | "f"%char :: "a"%char :: "l"%char :: "s"%char :: "e"%char :: r =>
          Some (JBool false, r)
      | "034"%char :: r =>
          match string_body r with
          | Some (s, r') => Some (JStr s, r')
          | None => None
          end
      | "["%char :: r =>
          match skip_ws r with
          | "]"%char :: r' => Some (JList [], r')
          | _ => elements f r []
          end
      | "{"%char :: r =>
          match skip_ws r with
          | "}"%char :: r' => Some (JDict [], r')
          | _ => members f r []
          end
      | "-"%char :: r =>
          match integer r with
          | Some (z, r') => Some (JInt (- z), r')
          | None => None
          end
      | r =>
          match integer r with
          | Some (z, r') => Some (JInt z, r')
          | None => None
          end
      end
  end
with elements (fuel : nat) (l : list ascii) (acc : list json)
  : option (json * list ascii) :=
  match fuel with
  | O => None
  | S f =>
      match value f l with
      | Some (v, r) =>
          match skip_ws r with
          | ","%char :: r' => elements f r' (v :: acc)
          | "]"%char :: r' => Some (JList (rev (v :: acc)), r')
          | _ => None
          end
      | None => None
      end
  end
with members (fuel : nat) (l : list ascii) (acc : list (string * json))
  : option (json * list ascii) :=
  match fuel with
  | O => None
  | S f =>
      match skip_ws l with
      | "034"%char :: r =>
          match string_body r with
          | Some (k, r1) =>
              match skip_ws r1 with
              | ":"%char :: r2 =>
                  match value f r2 with
                  | Some (v, r3) =>
                      match skip_ws r3 with
                      | ","%char :: r4 => members f r4 ((k, v) :: acc)
                      | "}"%char :: r4 => Some (JDict (rev ((k, v) :: acc)), r4)
                      | _ => None
                      end
                  | None => None
                  end
              | _ => None
              end
          | None => None
          end
      | _ => None
      end
  end.

(** The whole text must be one value. *)
Definition loads (s : string) : option json :=
  let l := list_ascii_of_string s in
  match value (S (length l)) l with
  | Some (v, r) => match skip_ws r with [] => Some v | _ => None end
  | None => None
  end.

Fixpoint has_char (c : ascii) (s : string) : bool :=
  match s with
  | EmptyString => false
  | String a t => Ascii.eqb a c || has_char c t
  end.

Definition squote : ascii := "'"%char.

Definition backslash : string := String (ascii_of_nat 92) EmptyString.

(** One character of a quoted string; the bytes outside ASCII are kept. *)
Definition escape_char (quote a : ascii) : string :=
  let n := N_of_ascii a in
  if Ascii.eqb a quote || (n =? 92)%N then backslash ++ String a EmptyString
  else if (n =? 9)%N then backslash ++ "t"
  else if (n =? 10)%N then backslash ++ "n"
  else if (n =? 13)%N then backslash ++ "r"
  else if (n <? 32)%N || (n =? 127)%N then backslash ++ "x" ++ PyStr.hex_byte n
  else String a EmptyString.

Fixpoint escape (quote : ascii) (s : string) : string :=
  match s with
  | EmptyString => EmptyString
  | String a t => escape_char quote a ++ escape quote t
  end.

(** [repr(s)] for a [str]: between single quotes, or between double quotes
    when it holds a single quote and no double quote. *)
Definition repr_str (s : string) : string :=
  let quote := if has_char squote s && negb (has_char dquote s) then dquote else squote in
  String quote (escape quote s ++ String quote EmptyString).

Fixpoint repr (v : json) : string :=
  match v with
  | JNull => "None"
  | JBool true => "True"
  | JBool false => "False"
  | JInt z => PyStr.of_int z
  | JFloat true => "1.0"
  | JFloat false => "0.0"
  | JStr s => repr_str s
  | JList l => "[" ++ String.concat ", " (map repr l) ++ "]"
  | JDict d =>
      "{" ++ String.concat ", "
               (map (fun kv => (repr_str (fst kv) ++ ": " ++ repr (snd kv))%string) d)
          ++ "}"
  end.

Definition lib : pylib := mkLib int_of_string loads repr.

End Basic.

(* ================================================================== *)
(** * Concrete worlds, for running the scripts *)
(* ================================================================== *)

(** JSON texts are written with [q] for the double quote. *)
Definition q : string := String Basic.dquote EmptyString.

Definition record_text (nickname account_hash : string) : string :=
  "{" ++ q ++ "nickname" ++ q ++ ": " ++ q ++ nickname ++ q ++ ", "
      ++ q ++ "account_hash" ++ q ++ ": " ++ q ++ account_hash ++ q ++ "}".

Module Scenario.

(** The clock stands at 7 March 2026, 09:05. *)
Definition clock : nat -> datetime := fun _ => mkDatetime 2026 3 7 9 5.

(** A server line: the text and its line end. *)
Definition line (text : string) : read_event := Line (Utf8 (text ++ PyStr.nl)).

(** A process that has opened nothing yet. *)
Definition fresh (files : string -> option string) (stdin : list input_event) : world :=
  mkWorld 0 0 0 [] files stdin.

Definition no_files : string -> option string := fun _ => None.

(** A listener that holds transport 0, with the given lines pending. *)
Definition streaming (pending : list read_event) : state Listener.vars :=
  mkState
    (mkWorld 0 0 1 [mkTransport pending [] false false] no_files [])
    (Listener.mkVars (Some 0) (Some 0)).

(** No operation on a file fails; every connection attempt is refused. *)
Definition refusing : env :=
  mkEnv clock (fun _ => None)
        (fun _ => ConnectFails (new_exn ConnectionRefusedError "Connection refused")).

(** No operation on a file fails; the server accepts every connection and
    closes it at once, without sending anything. *)
Definition closing_at_once : env :=
  mkEnv clock (fun _ => None) (fun _ => Connected (mkScript [] [] false)).

(** The first file cannot be opened. *)
Definition disk_full : env :=
  mkEnv clock (fun k => match k with O => Some "No space left on device" | _ => None end)
        (fun _ => ConnectFails (new_exn ConnectionRefusedError "Connection refused")).

Definition listener_start : state Listener.vars :=
  mkState (fresh no_files []) (Listener.mkVars None None).

(** The three lines of the specification: hello, an empty line, world. *)
Definition hello_world : list wire :=
  [Utf8 ("hello" ++ PyStr.nl); Utf8 PyStr.nl; Utf8 ("world" ++ PyStr.nl)].

(** A credential file that holds a token. *)
Definition stored : string -> option string :=
  fun p => if String.eqb p "account.hash" then Some "tok-old" else None.

(** A sender that has loaded nothing yet. *)
Definition sender_start (files : string -> option string) (stdin : list input_event)
  : state Sender.vars :=
  mkState (fresh files stdin) (Sender.mkVars JNull JNull None).

(** A sender that holds transport 0, on which the server will send the given
    lines. *)
Definition chatting (pending : list read_event) (stdin : list input_event)
  : state Sender.vars :=
  mkState
    (mkWorld 0 0 1 [mkTransport pending [] false false] no_files stdin)
    (Sender.mkVars (JStr "tok-old") (JStr "Bob") (Some 0)).

(** The server answers the token by the JSON text [null]. *)
Definition null_reply : conn_script :=
  mkScript [line "Hello %username%! Enter your personal hash or leave it empty.";
            line "null"] [] false.

(** The server answers the token by a text that is not JSON. *)
Definition text_reply : conn_script :=
  mkScript [line "Hello %username%! Enter your personal hash or leave it empty.";
            line "Unknown token"] [] false.

(** The server registers a new account. *)
Definition registrar : conn_script :=
  mkScript [line "Hello %username%! Enter your personal hash or leave it empty.";
            line "Enter preferred nickname below:";
            line (record_text "Bob" "tok-new");
            line "Welcome to chat! Post your message below.";
            line "Message send. Write more."] [] false.

Definition null_server : env :=
  mkEnv clock (fun _ => None)
        (fun k => match k with O => Connected null_reply | _ => Connected registrar end).

Definition text_server : env :=
  mkEnv clock (fun _ => None)
        (fun k => match k with O => Connected text_reply | _ => Connected registrar end).

Definition registering_server : env :=
  mkEnv clock (fun _ => None) (fun _ => Connected registrar).

(** All three settings given by flags; none given at all. *)
Definition sender_flags : cmdline :=
  mkCmdline (Some "chat.example") (Some "5050") (Some "account.hash") (fun _ => None).

Definition no_settings : cmdline := mkCmdline None None None (fun _ => None).

End Scenario.

(** More concrete worlds. *)
Module Worlds.

(** The server sends hello, an empty line and world, then closes. *)
Definition greeting_server : env :=
  mkEnv Scenario.clock (fun _ => None)
        (fun _ => Connected (mkScript (map Line Scenario.hello_world) [] false)).

(** The server knows the stored token. *)
Definition accepting : conn_script :=
  mkScript [Scenario.line "Hello %username%! Enter your personal hash or leave it empty.";
            Scenario.line (record_text "Bob" "tok-old");
            Scenario.line "Welcome to chat! Post your message below."] [] false.

Definition accepting_server : env :=
  mkEnv Scenario.clock (fun _ => None) (fun _ => Connected accepting).

(** A sender that has loaded the stored token. *)
Definition loaded : state Sender.vars :=
  mkState (Scenario.fresh Scenario.stored []) (Sender.mkVars (JStr "tok-old") JNull None).

(** A sender whose transport fails at the first [drain()]. *)
Definition failing_drain : state Sender.vars :=
  mkState
    (mkWorld 0 0 1
       [mkTransport [] [Some (new_exn ConnectionResetError "Connection lost")] false false]
       Scenario.no_files [Typed "hi"; Typed "more"])
    (Sender.mkVars (JStr "tok-old") (JStr "Bob") (Some 0)).

(** A sender at the start of a registration on transport 0. *)
Definition registering : state Sender.vars :=
  mkState
    (mkWorld 0 0 1 [mkTransport (cs_incoming Scenario.registrar) [] false false]
       Scenario.no_files [Typed "Bob"])
    (Sender.mkVars JNull JNull None).

(** All the settings of the listener given by flags. *)
Definition listener_flags : cmdline :=
  mkCmdline (Some "chat.example") (Some "5000") (Some "chat.txt") (fun _ => None).

(** The same with a port variable that is not a number. *)
Definition bad_port_variable : cmdline :=
  mkCmdline (Some "chat.example") (Some "5000") (Some "chat.txt")
            (fun v => if String.eqb v "MINECHAT_PORT" then Some "abc" else None).

(** The server sends hello, then the connection is reset. *)
Definition breaking_server : env :=
  mkEnv Scenario.clock (fun _ => None)
        (fun _ => Connected
           (mkScript [Scenario.line "hello";
                      ReadError (new_exn ConnectionResetError "Connection lost")]
                     [] true)).

(** A token with a carriage return inside and a blank at its end. *)
Definition split_token : string := ("tok" ++ String PyStr.cr "new ")%string.

(** A credential file that holds it. *)
Definition stored_split : string -> option string :=
  fun p => if String.eqb p "account.hash" then Some split_token else None.

(** The history file can be opened, and the first write to it fails: the
    second operation on a file is the one that fails. *)
Definition full_on_write : env :=
  mkEnv Scenario.clock
        (fun k => match k with
                  | 1 => Some "[Errno 28] No space left on device"
                  | _ => None
                  end)
        (fun _ => ConnectFails (new_exn ConnectionRefusedError "Connection refused")).

End Worlds.

(* ================================================================== *)
(** * Vocabulary of the statements *)
(* ================================================================== *)

(** What makes an append of data fail when [k] file operations have been
    attempted: the open, or else the write. *)
Definition append_fault (en : env) (k : nat) : option string :=
  match fs_error en k with
  | Some msg => Some msg
  | None => fs_error en (S k)
  end.

(** The content of a file, empty when the file is missing. *)
Definition content (w : world) (path : string) : string :=
  match w_files w path with
  | Some s => s
  | None => ""
  end.

(** The lines printed, in order. *)
Fixpoint printed (evs : list event) : list string :=
  match evs with
  | [] => []
  | EvPrint t :: rest => t :: printed rest
  | _ :: rest => printed rest
  end.

(** The events that concern connections and delays. *)
Definition is_net (ev : event) : bool :=
  match ev with
  | EvConnect _ _ | EvOpened _ | EvIsClosing _ _ | EvClose _ | EvSleep _ => true
  | _ => false
  end.

Definition net_events (evs : list event) : list event := filter is_net evs.

(** The connection attempts and the delays only. *)
Definition is_pace (ev : event) : bool :=
  match ev with
  | EvConnect _ _ | EvSleep _ => true
  | _ => false
  end.

Definition pace (evs : list event) : list event := filter is_pace evs.

(** The text the listener makes of a line it has read, and the texts it
    keeps. *)
Definition message_of (b : wire) : string := PyStr.rstrip (decode_ignore b).

Definition messages (bs : list wire) : list string :=
  filter PyStr.truthy (map message_of bs).

(** The log entries of successive messages, the first one stamped by the
    [k]-th reading of the clock. *)
Fixpoint log_entries (en : env) (k : nat) (msgs : list string) : list string :=
  match msgs with
  | [] => []
  | m :: rest => (strftime_log (now en k) ++ " " ++ m)%string :: log_entries en (S k) rest
  end.

(** The lines of a file holding the given entries. *)
Fixpoint file_lines (entries : list string) : string :=
  match entries with
  | [] => ""
  | e :: rest => e ++ PyStr.nl ++ file_lines rest
  end.

(** Two states that differ by the clock, the files and the count of files
    opened at most. *)
Definition same_net {L} (s s' : state L) : Prop :=
  st_vars s' = st_vars s /\
  w_attempts (st_world s') = w_attempts (st_world s) /\
  w_conns (st_world s') = w_conns (st_world s) /\
  w_stdin (st_world s') = w_stdin (st_world s).

(** How a turn of the listener's loop ends: the exception raised by the
    connection attempt or by the reading of the stream, if any. *)
Fixpoint stream_error (l : list read_event) : option exn :=
  match l with
  | [] => None
  | Line b :: rest => if wire_empty b then None else stream_error rest
  | ReadError e :: _ => Some e
  end.

(** The lines read before the stream ends. *)
Fixpoint lines_read (l : list read_event) : list wire :=
  match l with
  | Line b :: rest => if wire_empty b then [] else b :: lines_read rest
  | _ => []
  end.

Definition exit_of (a : attempt) : option exn :=
  match a with
  | ConnectFails e => Some e
  | Connected sc => stream_error (cs_incoming sc)
  end.

(** The exits after which the loop goes on: a clean end of the stream, and
    every exception of class [Exception]. *)
Definition recovers (x : option exn) : bool :=
  match x with
  | None => true
  | Some e => isinstance e Exception
  end.

(** The delay the listener takes after an exit. *)
Definition delays (x : option exn) : list event :=
  match x with
  | None => []
  | Some e =>
      if isinstance e IncompleteReadError then []
      else if isinstance e Exception then [EvSleep 5]
      else []
  end.

(** No transport is open; none but [c0] is. *)
Definition none_open (w : world) : Prop :=
  forall c, transport_open (conn_get w c) = false.

Definition only_open (w : world) (c0 : nat) : Prop :=
  forall c, c <> c0 -> transport_open (conn_get w c) = false.

(** What testing and closing a transport amounts to. *)
Definition closing_events (w : world) (c : nat) : list event :=
  if transport_open (conn_get w c)
  then [EvIsClosing c false; EvClose c]
  else [EvIsClosing c true].

(** The connection attempts and the delays of [n] turns of the listener's
    loop, the first of which makes attempt [k]: every turn makes one attempt,
    and the delay that follows depends on how the turn ends. *)
Fixpoint turns_pace (en : env) (k n : nat) : list event :=
  match n with
  | O => []
  | S n' =>
      (EvConnect k (Some 10) :: delays (exit_of (net en k)) ++ turns_pace en (S k) n')%list
  end.

(** Every connection attempt that is followed by another one is followed by
    a delay of 5 first. *)
Fixpoint delayed_retries (p : list event) : bool :=
  match p with
  | [] => true
  | EvConnect _ _ :: rest =>
      match rest with
      | [] => true
      | EvSleep 5 :: _ => delayed_retries rest
      | _ => false
      end
  | _ :: rest => delayed_retries rest
  end.

(** The transports open after some events, a transport counting as open from
    the moment it is returned until it is closed or found closing. *)
Definition drop_conn (c : nat) (open : list nat) : list nat :=
  filter (fun x => negb (Nat.eqb x c)) open.

Definition step_open (open : list nat) (ev : event) : list nat :=
  match ev with
  | EvOpened c => c :: open
  | EvClose c => drop_conn c open
  | EvIsClosing c true => drop_conn c open
  | _ => open
  end.

Fixpoint open_after (open : list nat) (evs : list event) : list nat :=
  match evs with
  | [] => open
  | ev :: rest => open_after (step_open open ev) rest
  end.

(** At most one transport is open at any time, and none is open when a
    connection is attempted. *)
Fixpoint scoped (open : list nat) (evs : list event) : bool :=
  (length open <=? 1)%nat &&
  match evs with
  | [] => true
  | ev :: rest =>
      match ev, open with
      | EvConnect _ _, _ :: _ => false
      | _, _ => scoped (step_open open ev) rest
      end
  end.

(** What the sender does with one line of the operator that is not blank,
    the server answering [ack]: it sends the line stripped, waits for the
    answer and displays it. *)
Definition round_trip (c : nat) (ta : string * string) : list event :=
  [EvInput "> ";
   EvWrite c (PyStr.strip (fst ta) ++ PyStr.nl);
   EvDrain c;
   EvRead c;
   EvPrint (PyStr.strip (snd ta))].

(** The transport an event is about, and the events about transport [c]. *)
Definition conn_of (ev : event) : option nat :=
  match ev with
  | EvOpened c | EvRead c | EvWrite c _ | EvDrain c | EvIsClosing c _ | EvClose c =>
      Some c
  | _ => None
  end.

Definition on_conn (c : nat) (ev : event) : bool :=
  match conn_of ev with
  | Some c' => Nat.eqb c' c
  | None => false
  end.

(** A setting that neither its flag nor its environment variable gives. *)
Definition missing (flag : option string) (cl : cmdline) (variable : string) : Prop :=
  flag = None /\ environ cl variable = None.

(** One of the three settings is missing. *)
Definition unresolved (cl : cmdline) (host_var port_var file_var : string) : Prop :=
  missing (flag_host cl) cl host_var \/
  missing (flag_port cl) cl port_var \/
  missing (flag_file cl) cl file_var.

(** The value of a text setting: the flag when given, else the variable. *)
Definition resolved (flag : option string) (cl : cmdline) (variable : string) : string :=
  match flag with
  | Some v => v
  | None => getenv cl variable ""
  end.

(** Nothing but error reports. *)
Definition is_report (ev : event) : Prop :=
  match ev with
  | EvStderr _ | EvPrint _ => True
  | _ => False
  end.

(** Whether each transport was lost, and whether it was closed. *)
Definition flags (w : world) : list (bool * bool) :=
  map (fun t => (t_lost t, t_closed t)) (w_conns w).

(** The program's variables, the count of connection attempts and the flags
    of the transports are the same. *)
Definition still {L} (s s' : state L) : Prop :=
  st_vars s' = st_vars s /\
  w_attempts (st_world s') = w_attempts (st_world s) /\
  flags (st_world s') = flags (st_world s).

(** No connection is attempted, opened, tested or closed, and nothing sleeps. *)
Definition silent (evs : list event) : Prop := net_events evs = [].

(** Running a sequence whose first part is known. *)
Definition after {L A} (ev1 : list event) (x : result A * state L * list event)
  : result A * state L * list event :=
  match x with
  | (r, s, ev2) => (r, s, (ev1 ++ ev2)%list)
  end.

(** The sender's [writer], the count of connection attempts and the flags of
    the transports are the same. *)
Definition steady (s s' : state Sender.vars) : Prop :=
  Sender.writer (st_vars s') = Sender.writer (st_vars s) /\
  w_attempts (st_world s') = w_attempts (st_world s) /\
  flags (st_world s') = flags (st_world s).

(** The files are the same. *)
Definition unwritten {L} (s s' : state L) : Prop :=
  w_files (st_world s') = w_files (st_world s).

Definition any_events (evs : list event) : Prop := True.

Definition anything {L} (s s' : state L) : Prop := True.

(** A relation [R] between the state before and after a computation, and a
    property [P] of the events it performs. *)
Definition keeps {L A} (R : state L -> state L -> Prop) (P : list event -> Prop)
    (m : M L A) : Prop :=
  forall s, R s (final (m s)) /\ P (events (m s)).

(** A computation that leaves the connections alone. *)
Abbreviation calm m := (keeps still silent m).

Abbreviation quiet m := (keeps steady silent m).

Abbreviation reads_only m := (keeps unwritten any_events m).

(** A computation that has written no file when it ends by an exception. *)
Definition writes_last {A} (m : Sender.Mv A) : Prop :=
  forall s e, outcome (m s) = Raise e -> unwritten s (final (m s)).

(** No event is about transport [c0]. *)
Definition avoids (c0 : nat) (evs : list event) : Prop := filter (on_conn c0) evs = [].

(** The nickname the registration sends for what the operator typed. *)
Definition nickname_sent (typed : string) : string :=
  if negb (PyStr.truthy (PyStr.strip typed)) then "Anonymous" else PyStr.strip typed.

(** The sequel of a computation is told by a relation [J] between the state
    before, the state after and the events performed. *)
Definition tracks {L A} (J : state L -> state L -> list event -> Prop) (m : M L A) : Prop :=
  forall s, J s (final (m s)) (events (m s)).

(** The file [path] has grown by [suffix] and no other file has changed. *)
Definition appended {L} (path : string) (s s' : state L) (suffix : string) : Prop :=
  content (st_world s') path = (content (st_world s) path ++ suffix)%string /\
  forall p, p <> path -> w_files (st_world s') p = w_files (st_world s) p.

(** The file has grown by the lines printed. *)
Definition mirrored {L} (path : string) (s s' : state L) (evs : list event) : Prop :=
  appended path s s' (file_lines (printed evs)).

(** The file has grown, by whatever text. *)
Definition grown {L} (path : string) (s s' : state L) (evs : list event) : Prop :=
  exists suffix, appended path s s' suffix.

(** The events by which a program sends to its peer or asks its operator. *)
Definition outgoing (ev : event) : bool :=
  match ev with
  | EvWrite _ _ | EvDrain _ | EvInput _ => true
  | _ => false
  end.

(** Nothing is sent and nothing is asked. *)
Definition receiving {L} (s s' : state L) (evs : list event) : Prop :=
  filter outgoing evs = [].

(** A step that prints nothing, writes no file and sends nothing. *)
Definition idle {L} (s s' : state L) (evs : list event) : Prop :=
  w_files (st_world s') = w_files (st_world s) /\
  printed evs = [] /\
  filter outgoing evs = [].

(** What the listener reports of the exception that ends a turn. *)
Definition report_of (endpoint : string) (e : exn) : string :=
  if isinstance e TimeoutError then "Таймаут подключения к " ++ endpoint
  else if isinstance e IncompleteReadError
  then "Неполное чтение: " ++ decode_ignore (e_partial e)
  else if isinstance e OSError then "Ошибка подключения: " ++ e_str e
  else "Неожиданная ошибка: " ++ e_str e.

(** The first line printed. *)
Definition first_printed (evs : list event) : option string := hd_error (printed evs).

(** The operator's pending input is the same. *)
Definition same_stdin {L} (s s' : state L) (evs : list event) : Prop :=
  w_stdin (st_world s') = w_stdin (st_world s).

(** The text the port is read from: the flag when given, else the variable. *)
Definition port_text (cl : cmdline) (variable : string) : string :=
  match flag_port cl with
  | Some p => p
  | None => getenv cl variable "0"
  end.

(** The three settings are usable: the port variable, when set, is a number
    (it is read even when the flag is given), the host and the file path are
    not empty, and the port is a number other than zero. *)
Definition usable (lib : pylib) (cl : cmdline) (host_var port_var file_var : string)
    (a : args) : Prop :=
  py_int lib (getenv cl port_var "0") <> None /\
  a_host a = resolved (flag_host cl) cl host_var /\
  PyStr.truthy (a_host a) = true /\
  py_int lib (port_text cl port_var) = Some (a_port a) /\
  a_port a <> 0%Z /\
  a_file a = resolved (flag_file cl) cl file_var /\
  PyStr.truthy (a_file a) = true.

(* ================================================================== *)
(** * Checks of the definitions on concrete values *)
(* ================================================================== *)

Example rstrip_hello : PyStr.rstrip ("hello  " ++ PyStr.nl) = "hello".
Proof. reflexivity. Qed.

Example strip_blank : PyStr.strip "   " = "".
Proof. reflexivity. Qed.

Example strip_inner : PyStr.strip "  a b  " = "a b".
Proof. reflexivity. Qed.

Example of_int_5000 : PyStr.of_int 5000 = "5000".
Proof. reflexivity. Qed.

Example of_int_0 : PyStr.of_int 0 = "0".
Proof. reflexivity. Qed.

Example strftime_log_example :
  strftime_log (mkDatetime 2026 3 7 9 5) = "[07.03.26 09:05]".
Proof. reflexivity. Qed.

Example int_of_string_5000 : Basic.int_of_string "5000" = Some 5000%Z.
Proof. reflexivity. Qed.

Example int_of_string_abc : Basic.int_of_string "abc" = None.
Proof. reflexivity. Qed.

Example int_of_string_signed :
  map Basic.int_of_string ["-1"; "-12"; "+15"; " 42 "; "007"; "1_000"]
  = [Some (-1); Some (-12); Some 15; Some 42; Some 7; Some 1000]%Z.
Proof. reflexivity. Qed.

Example int_of_string_refused :
  map Basic.int_of_string [""; "-"; "+-1"; "- 1"; "1 2"; "_1"; "1_"; "1__0"]
  = [None; None; None; None; None; None; None; None].
Proof. reflexivity. Qed.

Example invalid_literal_abc :
  invalid_literal Basic.lib "abc" = "invalid literal for int() with base 10: 'abc'".
Proof. reflexivity. Qed.

Example repr_quotes :
  Basic.repr_str "it's" = String Basic.dquote ("it's" ++ String Basic.dquote "").
Proof. reflexivity. Qed.

Example universal_newlines_example :
  PyStr.universal_newlines
    (PyStr.of_bytes [97; 13; 10; 98; 13; 99; 10; 13]%N)
  = PyStr.of_bytes [97; 10; 98; 10; 99; 10; 10]%N.
Proof. reflexivity. Qed.

Example utf8_error_none : PyStr.utf8_error "Привет, tok-1" = None.
Proof. reflexivity. Qed.

Example utf8_error_start :
  PyStr.utf8_error (PyStr.of_bytes [116; 255]%N)
  = Some "'utf-8' codec can't decode byte 0xff in position 1: invalid start byte".
Proof. reflexivity. Qed.

Example utf8_error_end :
  PyStr.utf8_error (PyStr.of_bytes [97; 98; 226; 130]%N)
  = Some "'utf-8' codec can't decode bytes in position 2-3: unexpected end of data".
Proof. reflexivity. Qed.

Example utf8_error_surrogate :
  PyStr.utf8_error (PyStr.of_bytes [237; 160; 128]%N)
  = Some "'utf-8' codec can't decode byte 0xed in position 0: invalid continuation byte".
Proof. reflexivity. Qed.

Example loads_null : Basic.loads "null" = Some JNull.
Proof. reflexivity. Qed.

Example loads_garbage : Basic.loads "no such account" = None.
Proof. reflexivity. Qed.

Example loads_record :
  Basic.loads (record_text "Bob" "abc-1")
  = Some (JDict [("nickname", JStr "Bob"); ("account_hash", JStr "abc-1")]).
Proof. reflexivity. Qed.

(** A credential file whose bytes are not UTF-8 is reported and not loaded. *)
Example load_hash_bad_bytes :
  let files := fun p => if String.eqb p "account.hash"
                        then Some (PyStr.of_bytes [116; 111; 107; 255]%N) else None in
  let s := Scenario.sender_start files [] in
  let r := Sender.load_hash Scenario.refusing "account.hash" s in
  outcome r = Ok false /\
  events r = [EvPrint ("Ошибка загрузки hash: 'utf-8' codec can't decode byte 0xff "
                       ++ "in position 3: invalid start byte")] /\
  st_vars (final r) = st_vars s.
Proof. vm_compute. repeat split. Qed.

(** A value that is not a string empties the credential file. *)
Example save_hash_not_a_string :
  let s := Scenario.sender_start Scenario.stored [] in
  let r := Sender.save_hash Scenario.refusing "account.hash" (JInt 5) s in
  outcome r = Ok tt /\
  events r = [EvPrint "Ошибка сохранения hash: write() argument must be str, not int"] /\
  w_files (st_world (final r)) "account.hash" = Some "".
Proof. vm_compute. repeat split. Qed.

(* ================================================================== *)
(** * The listener: lemmas *)
(* ================================================================== *)

Opaque strftime_log PyStr.rstrip PyStr.lstrip PyStr.strip PyStr.of_int
  PyStr.utf8_error PyStr.universal_newlines.

Lemma same_net_refl {L} (s : state L) : same_net s s.
Proof. repeat split. Qed.

Lemma same_net_trans {L} (s1 s2 s3 : state L) :
  same_net s1 s2 -> same_net s2 s3 -> same_net s1 s3.
Proof.
  unfold same_net. intros (A1 & A2 & A3 & A4) (B1 & B2 & B3 & B4).
  repeat split; congruence.
Qed.

Lemma string_app_assoc (a b c : string) : ((a ++ b) ++ c = a ++ (b ++ c))%string.
Proof. induction a as [|x a IH]; simpl; [reflexivity | now rewrite IH]. Qed.

Lemma string_app_nil_r (a : string) : (a ++ "" = a)%string.
Proof. induction a as [|x a IH]; simpl; [reflexivity | now rewrite IH]. Qed.

Lemma append_fault_none (en : env) :
  (forall k, fs_error en k = None) -> forall k, append_fault en k = None.
Proof. intros H k. unfold append_fault. rewrite !H. reflexivity. Qed.

Section ListenerLemmas.

Variable en : env.
Variable history : string.

Lemma truthy_app_r (a b : string) :
  PyStr.truthy b = true -> PyStr.truthy (a ++ b)%string = true.
Proof. destruct a; [trivial | reflexivity]. Qed.

(** What one call of [log_message] does, whatever happens to the file. *)
Lemma log_message_run (m : string) (s : state Listener.vars) :
  exists s' ev,
    Listener.log_message en history m s = (Ok tt, s', ev) /\
    net_events ev = [] /\
    ev = EvPrint (strftime_log (now en (w_clock (st_world s))) ++ " " ++ m)
         :: match append_fault en (w_opens (st_world s)) with
            | Some err => [EvPrint ("Ошибка записи в файл: " ++ err)]
            | None => []
            end /\
    same_net s s' /\
    w_clock (st_world s') = S (w_clock (st_world s)) /\
    w_opens (st_world s') =
      match fs_error en (w_opens (st_world s)) with
      | Some _ => S (w_opens (st_world s))
      | None => S (S (w_opens (st_world s)))
      end /\
    match append_fault en (w_opens (st_world s)) with
    | Some _ =>
        (forall p, content (st_world s') p = content (st_world s) p) /\
        (fs_error en (w_opens (st_world s)) <> None ->
         w_files (st_world s') = w_files (st_world s))
    | None =>
        content (st_world s') history =
          (content (st_world s) history
           ++ (strftime_log (now en (w_clock (st_world s))) ++ " " ++ m) ++ PyStr.nl)%string
    end /\
    (forall p, p <> history -> w_files (st_world s') p = w_files (st_world s) p).
Proof.
  destruct s as [w v].
  unfold append_fault, Listener.log_message, datetime_now, print, open_a, f_write,
    file_attempt, try_except, bind, get_world, put_world, emit, ret, raise. simpl.
  assert (Hput : forall (f : string -> option string) (x : string) (p : string),
            p <> history -> file_put f history x p = f p).
  { intros f x p Hp. unfold file_put.
    destruct (String.eqb p history) eqn:Ep;
      [apply String.eqb_eq in Ep; contradiction | reflexivity]. }
  destruct (fs_error en (w_opens w)) as [err|] eqn:E; simpl.
  - do 2 eexists. split; [reflexivity|]. repeat split.
  - rewrite (truthy_app_r _ PyStr.nl eq_refl).
    destruct (w_files w history) as [old|] eqn:F; simpl;
      destruct (fs_error en (S (w_opens w))) as [err|] eqn:E2; simpl;
      (do 2 eexists; split; [reflexivity|]; repeat split; simpl;
       try (intros H; destruct (H eq_refl));
       try (intros p Hp; rewrite ?Hput by assumption; reflexivity);
       try intros p; unfold content; simpl; unfold file_put;
       rewrite ?String.eqb_refl, ?F; try reflexivity;
       try (destruct (String.eqb p history) eqn:Ep;
            [apply String.eqb_eq in Ep; subst p; rewrite F|]; reflexivity)).
Qed.

End ListenerLemmas.

(* ================================================================== *)
(** * Properties kept by every step of a computation *)
(* ================================================================== *)

(** A relation [R] between the state before and after, and a property [P] of
    the events performed, that hold for a whole computation because they hold
    for its parts. *)
Section Keeps.

Context {L : Type}.
Variable R : state L -> state L -> Prop.
Variable P : list event -> Prop.
Hypothesis R_refl : forall s, R s s.
Hypothesis R_trans : forall s1 s2 s3, R s1 s2 -> R s2 s3 -> R s1 s3.
Hypothesis P_nil : P [].
Hypothesis P_app : forall a b, P a -> P b -> P (a ++ b).

Lemma keeps_ret {A} (a : A) : keeps R P (ret a).
Proof. intros s. split; [apply R_refl | apply P_nil]. Qed.

Lemma keeps_raise {A} (e : exn) : keeps R P (@raise L A e).
Proof. intros s. split; [apply R_refl | apply P_nil]. Qed.

Lemma keeps_get_world : keeps R P get_world.
Proof. intros s. split; [apply R_refl | apply P_nil]. Qed.

Lemma keeps_get_vars : keeps R P get_vars.
Proof. intros s. split; [apply R_refl | apply P_nil]. Qed.

Lemma keeps_bind {A B} (m : M L A) (k : A -> M L B) :
  keeps R P m -> (forall a, keeps R P (k a)) -> keeps R P (bind m k).
Proof.
  intros Hm Hk s. unfold bind, final, events.
  specialize (Hm s). unfold final, events in Hm.
  destruct (m s) as [[[a|e] s1] ev1]; simpl in *.
  - specialize (Hk a s1). unfold final, events in Hk.
    destruct (k a s1) as [[r s2] ev2]; simpl in *.
    destruct Hm, Hk. split; eauto.
  - exact Hm.
Qed.

Lemma keeps_try_except {A} (m : M L A) (handler : exn -> option (M L A)) :
  keeps R P m -> (forall e h, handler e = Some h -> keeps R P h) ->
  keeps R P (try_except m handler).
Proof.
  intros Hm Hh s. unfold try_except, final, events.
  specialize (Hm s). unfold final, events in Hm.
  destruct (m s) as [[[a|e] s1] ev1]; simpl in *.
  - exact Hm.
  - destruct (handler e) as [h|] eqn:E; simpl; [|exact Hm].
    specialize (Hh e h E s1). unfold final, events in Hh.
    destruct (h s1) as [[r s2] ev2]; simpl in *.
    destruct Hm, Hh. split; eauto.
Qed.

Lemma keeps_try_finally {A} (m : M L A) (f : M L unit) :
  keeps R P m -> keeps R P f -> keeps R P (try_finally m f).
Proof.
  intros Hm Hf s. unfold try_finally, final, events.
  specialize (Hm s). unfold final, events in Hm.
  destruct (m s) as [[r s1] ev1]; simpl in *.
  specialize (Hf s1). unfold final, events in Hf.
  destruct (f s1) as [[[u|e] s2] ev2]; simpl in *;
    destruct Hm, Hf; split; eauto.
Qed.

End Keeps.

(** Taking a computation apart, one construct at a time. *)
Ltac keeps_step :=
  match goal with
  | |- keeps _ _ (bind _ _) => apply keeps_bind; [assumption .. | | intro]
  | |- keeps _ _ (ret _) => apply keeps_ret; assumption
  | |- keeps _ _ (raise _) => apply keeps_raise; assumption
  | |- keeps _ _ get_world => apply keeps_get_world; assumption
  | |- keeps _ _ get_vars => apply keeps_get_vars; assumption
  | |- keeps _ _ (try_finally _ _) => apply keeps_try_finally; [assumption .. | | ]
  | |- keeps _ _ (if ?b then _ else _) => destruct b
  | |- keeps _ _ (match ?x with _ => _ end) => destruct x
  end.

(* ================================================================== *)
(** * Steps that leave the connections alone *)
(* ================================================================== *)

Lemma still_refl {L} (s : state L) : still s s.
Proof. repeat split. Qed.

Lemma still_trans {L} (s1 s2 s3 : state L) :
  still s1 s2 -> still s2 s3 -> still s1 s3.
Proof.
  unfold still. intros (A1 & A2 & A3) (B1 & B2 & B3). repeat split; congruence.
Qed.

Lemma silent_nil : silent [].
Proof. reflexivity. Qed.

Lemma net_events_app (a b : list event) :
  net_events (a ++ b) = (net_events a ++ net_events b)%list.
Proof. apply filter_app. Qed.

Lemma silent_app (a b : list event) : silent a -> silent b -> silent (a ++ b).
Proof.
  unfold silent. intros Ha Hb. rewrite net_events_app, Ha, Hb. reflexivity.
Qed.

Lemma flags_conn_update (l : list transport) (c : nat) (f : transport -> transport) :
  (forall t, t_lost (f t) = t_lost t /\ t_closed (f t) = t_closed t) ->
  map (fun t => (t_lost t, t_closed t)) (conn_update l c f)
  = map (fun t => (t_lost t, t_closed t)) l.
Proof.
  intros Hf. revert c. induction l as [|t l IH]; intros c; simpl.
  - destruct c; reflexivity.
  - destruct c as [|c]; simpl.
    + destruct (Hf t) as [-> ->]. reflexivity.
    + rewrite IH. reflexivity.
Qed.

Lemma same_net_still {L} (s s' : state L) : same_net s s' -> still s s'.
Proof.
  intros (A1 & A2 & A3 & A4). repeat split; try assumption.
  unfold flags. now rewrite A3.
Qed.

Ltac calm_step :=
  match goal with
  | |- keeps _ _ (bind _ _) =>
      apply (keeps_bind _ _ still_trans silent_app); [ | intro]
  | |- keeps _ _ (ret _) => apply (keeps_ret _ _ still_refl silent_nil)
  | |- keeps _ _ (raise _) => apply (keeps_raise _ _ still_refl silent_nil)
  | |- keeps _ _ get_world => apply (keeps_get_world _ _ still_refl silent_nil)
  | |- keeps _ _ get_vars => apply (keeps_get_vars _ _ still_refl silent_nil)
  | |- keeps _ _ (try_finally _ _) =>
      apply (keeps_try_finally _ _ still_trans silent_app)
  | |- keeps _ _ (let _ := _ in _) => cbv zeta
  | |- keeps _ _ (if ?b then _ else _) => destruct b
  | |- keeps _ _ (match ?x with _ => _ end) => destruct x
  end.

Section CalmPrimitives.

Context {L : Type}.
Variable en : env.

Lemma calm_print (t : string) : calm (@print L t).
Proof. intros s. repeat split. Qed.

Lemma calm_emit_stderr (t : string) : calm (@emit L (EvStderr t)).
Proof. intros s. repeat split. Qed.

Lemma calm_datetime_now : calm (@datetime_now L en).
Proof. intros s. repeat split. Qed.

Lemma calm_readline (c : nat) : calm (@readline L c).
Proof.
  intros [w v]. unfold readline, bind, emit, get_world, put_world, ret, raise,
    final, events; simpl.
  destruct (t_incoming (conn_get w c)) as [|[b|e] rest]; simpl;
    repeat split; simpl; unfold flags; simpl;
    apply flags_conn_update; intros t; split; reflexivity.
Qed.

Lemma calm_write (c : nat) (d : string) : calm (@write L c d).
Proof. intros s. repeat split. Qed.

Lemma calm_drain (c : nat) : calm (@drain L c).
Proof.
  intros [w v]. unfold drain, bind, emit, get_world, put_world, ret, raise,
    final, events; simpl.
  destruct (t_drain (conn_get w c)) as [|[e|] rest]; simpl;
    repeat split; simpl; unfold flags; simpl;
    apply flags_conn_update; intros t; split; reflexivity.
Qed.

Lemma calm_input (p : string) : calm (@input L p).
Proof.
  intros [w v]. unfold input, bind, emit, get_world, put_world, ret, raise,
    final, events; simpl.
  destruct (w_stdin w) as [|[t|e] rest]; simpl; repeat split.
Qed.

Lemma calm_path_exists (p : string) : calm (@path_exists L p).
Proof. intros s. repeat split. Qed.

Lemma calm_file_attempt : calm (@file_attempt L en).
Proof.
  intros [w v]. unfold file_attempt, bind, get_world, put_world, ret, raise,
    final, events; simpl.
  destruct (fs_error en (w_opens w)); simpl; repeat split.
Qed.

Lemma calm_open_w (p : string) : calm (@open_w L en p).
Proof.
  intros [w v]. unfold open_w, file_attempt, bind, get_world, put_world, ret,
    raise, final, events; simpl.
  destruct (fs_error en (w_opens w)); simpl; repeat split.
Qed.

Lemma calm_open_a (p : string) : calm (@open_a L en p).
Proof.
  intros [w v]. unfold open_a, file_attempt, bind, get_world, put_world, ret,
    raise, final, events; simpl.
  destruct (fs_error en (w_opens w)); simpl; [repeat split|].
  destruct (w_files w p); simpl; repeat split.
Qed.

Lemma calm_open_r (p : string) : calm (@open_r L en p).
Proof.
  intros [w v]. unfold open_r, file_attempt, bind, get_world, put_world, ret,
    raise, final, events; simpl.
  destruct (fs_error en (w_opens w)); simpl; [repeat split|].
  destruct (w_files w p); simpl; repeat split.
Qed.

Lemma calm_f_write (p d : string) : calm (@f_write L en p d).
Proof.
  intros [w v]. unfold f_write, file_attempt, bind, get_world, put_world, ret,
    raise, final, events.
  destruct (PyStr.truthy d); simpl; [|repeat split].
  destruct (fs_error en (w_opens w)); simpl; repeat split.
Qed.

Lemma calm_f_read (p : string) : calm (@f_read L en p).
Proof.
  intros [w v]. unfold f_read, file_attempt, bind, get_world, put_world, ret,
    raise, final, events; simpl.
  destruct (fs_error en (w_opens w)); simpl; [repeat split|].
  destruct (PyStr.utf8_error _); repeat split.
Qed.

End CalmPrimitives.

Create HintDb calm.

#[export] Hint Resolve calm_print calm_emit_stderr calm_datetime_now calm_readline
  calm_write calm_drain calm_input calm_path_exists calm_file_attempt calm_open_w
  calm_open_a calm_open_r calm_f_write calm_f_read : calm.

Ltac calm_auto := repeat (calm_step || (solve [auto with calm])).

(** The clauses of a [try ... except]: which one was taken. *)
Ltac handler_cases H :=
  repeat match type of H with
         | (if ?c then _ else _) = Some _ => destruct c
         | Some _ = Some _ => injection H as H; subst
         | None = Some _ => discriminate H
         end.

Ltac calm_except :=
  match goal with
  | |- keeps _ _ (try_except _ _) =>
      let e := fresh "e" in
      let h := fresh "h" in
      let Hh := fresh "Hh" in
      apply (keeps_try_except _ _ still_trans silent_app);
      [ | intros e h Hh; handler_cases Hh ]
  end.

Ltac calm_all := repeat (calm_step || calm_except || (solve [auto with calm])).

(** The first transport with pending input is in the table. *)
Lemma nth_conn_update (l : list transport) (c : nat) (f : transport -> transport) :
  c < length l ->
  nth c (conn_update l c f) dead_transport = f (nth c l dead_transport).
Proof.
  revert c. induction l as [|t l IH]; intros c Hc; simpl in *; [lia|].
  destruct c as [|c]; simpl; [reflexivity|]. apply IH. lia.
Qed.

Lemma pending_in_table (w : world) (c : nat) (ev : read_event) (rest : list read_event) :
  t_incoming (conn_get w c) = ev :: rest -> c < length (w_conns w).
Proof.
  unfold conn_get. intros H.
  destruct (Nat.lt_ge_cases c (length (w_conns w))) as [Hlt|Hge]; [assumption|].
  rewrite nth_overflow in H by assumption. discriminate H.
Qed.

Section Readline.

Context {L : Type}.

(** [readline] at the end of the stream. *)
Lemma readline_eof (c : nat) (s : state L) :
  t_incoming (conn_get (st_world s) c) = [] ->
  readline c s = (Ok (Utf8 ""), s, [EvRead c]).
Proof.
  intros H. destruct s as [w v]. simpl in H.
  unfold readline, bind, emit, get_world, ret. simpl. rewrite H. reflexivity.
Qed.

(** [readline] with input pending: it takes the first element. *)
Lemma readline_run (c : nat) (s : state L) (ev : read_event) (rest : list read_event) :
  t_incoming (conn_get (st_world s) c) = ev :: rest ->
  exists s',
    readline c s =
      (match ev with Line b => Ok b | ReadError e => Raise e end, s', [EvRead c]) /\
    t_incoming (conn_get (st_world s') c) = rest /\
    t_drain (conn_get (st_world s') c) = t_drain (conn_get (st_world s) c) /\
    st_vars s' = st_vars s /\
    w_clock (st_world s') = w_clock (st_world s) /\
    w_opens (st_world s') = w_opens (st_world s) /\
    w_files (st_world s') = w_files (st_world s) /\
    w_stdin (st_world s') = w_stdin (st_world s).
Proof.
  intros H. destruct s as [w v]. simpl in H.
  pose proof (pending_in_table _ _ _ _ H) as Hc.
  unfold readline, bind, emit, get_world, put_world, ret, raise. simpl. rewrite H.
  destruct ev as [b|e]; simpl;
    (eexists; split; [reflexivity|]; simpl; unfold conn_get; simpl;
     rewrite nth_conn_update by assumption; simpl; repeat split).
Qed.

End Readline.

Section ListenerStream.

Variable en : env.
Variable history : string.

Lemma calm_log_message (m : string) : calm (Listener.log_message en history m).
Proof. unfold Listener.log_message. calm_all. Qed.

Lemma calm_async_for (fuel c count : nat) :
  calm (Listener.async_for en history fuel c count).
Proof.
  revert count. induction fuel as [|fuel IH]; intros count; simpl.
  - calm_all.
  - calm_step; [auto with calm|].
    calm_step; [calm_all|]. calm_step.
    + calm_step; [apply calm_log_message | apply IH].
    + apply IH.
Qed.

(** How the [async for] loop ends: by the first read error, or else with the
    count of the messages of all the lines read. *)
Lemma async_for_outcome (l : list read_event) :
  forall (fuel c count : nat) (s : state Listener.vars),
    t_incoming (conn_get (st_world s) c) = l ->
    length l < fuel ->
    outcome (Listener.async_for en history fuel c count s) =
      match stream_error l with
      | Some e => Raise e
      | None => Ok (count + length (messages (lines_read l)))
      end.
Proof.
  induction l as [|ev rest IH]; intros fuel c count s Hin Hfuel;
    (destruct fuel as [|fuel]; [simpl in Hfuel; lia|]); simpl.
  - unfold bind. rewrite (readline_eof c s Hin). simpl.
    rewrite Nat.add_0_r. reflexivity.
  - destruct (readline_run c s ev rest Hin) as (s1 & Hrun & Hrest & _ & _).
    unfold bind at 1. rewrite Hrun.
    destruct ev as [b|e]; [|reflexivity].
    destruct (wire_empty b) eqn:Hb.
    + simpl. rewrite Nat.add_0_r. reflexivity.
    + unfold messages. simpl. fold (message_of b).
      destruct (PyStr.truthy (message_of b)) eqn:Hm.
      * destruct (log_message_run en history (message_of b) s1)
          as (s2 & ev2 & Hlog & _ & _ & (_ & _ & Hconns & _) & _).
        unfold bind at 1. rewrite Hlog.
        assert (Hin2 : t_incoming (conn_get (st_world s2) c) = rest)
          by (unfold conn_get in *; rewrite Hconns; exact Hrest).
        simpl in Hfuel.
        specialize (IH fuel c (S count) s2 Hin2 ltac:(lia)).
        unfold outcome in *.
        destruct (Listener.async_for en history fuel c (S count) s2)
          as [[r s3] ev3]. simpl in *. rewrite IH.
        destruct (stream_error rest); [reflexivity|].
        fold (messages (lines_read rest)). simpl.
        f_equal. lia.
      * simpl in Hfuel.
        specialize (IH fuel c count s1 Hrest ltac:(lia)).
        unfold outcome in *.
        destruct (Listener.async_for en history fuel c count s1)
          as [[r s3] ev3]. simpl in *. rewrite IH.
        destruct (stream_error rest); reflexivity.
Qed.

End ListenerStream.

(* ================================================================== *)
(** * One turn of the listener's loop *)
(* ================================================================== *)

Lemma still_open {L} (s s' : state L) (c : nat) :
  still s s' ->
  transport_open (conn_get (st_world s') c) = transport_open (conn_get (st_world s) c).
Proof.
  intros (_ & _ & Hf). unfold flags in Hf. unfold transport_open, conn_get.
  pose proof (map_nth (fun t => (t_lost t, t_closed t))
                (w_conns (st_world s')) dead_transport c) as H1.
  pose proof (map_nth (fun t => (t_lost t, t_closed t))
                (w_conns (st_world s)) dead_transport c) as H2.
  cbv beta in H1, H2. rewrite Hf, H2 in H1.
  injection H1 as -> ->. reflexivity.
Qed.

Lemma still_none_open {L} (s s' : state L) :
  still s s' -> none_open (st_world s) -> none_open (st_world s').
Proof. intros H Hn c. rewrite (still_open s s' c H). apply Hn. Qed.

Lemma still_length {L} (s s' : state L) :
  still s s' -> length (w_conns (st_world s')) = length (w_conns (st_world s)).
Proof.
  intros (_ & _ & Hf). unfold flags in Hf.
  rewrite <- (length_map (fun t => (t_lost t, t_closed t)) (w_conns (st_world s'))).
  rewrite Hf. apply length_map.
Qed.

Section OpenConnection.

Context {L : Type}.
Variable en : env.

Lemma open_connection_fails (t : option nat) (s : state L) (e : exn) :
  net en (w_attempts (st_world s)) = ConnectFails e ->
  exists s',
    open_connection en t s = (Raise e, s', [EvConnect (w_attempts (st_world s)) t]) /\
    st_vars s' = st_vars s /\
    w_attempts (st_world s') = S (w_attempts (st_world s)) /\
    w_conns (st_world s') = w_conns (st_world s) /\
    w_files (st_world s') = w_files (st_world s) /\
    w_stdin (st_world s') = w_stdin (st_world s) /\
    w_clock (st_world s') = w_clock (st_world s).
Proof.
  intros H. destruct s as [w v]. simpl in *.
  unfold open_connection, bind, get_world, put_world, emit, ret, raise. simpl.
  rewrite H. simpl. eexists. split; [reflexivity|]. repeat split.
Qed.

Lemma open_connection_succeeds (t : option nat) (s : state L) (sc : conn_script) :
  net en (w_attempts (st_world s)) = Connected sc ->
  exists s',
    open_connection en t s =
      (Ok (length (w_conns (st_world s))), s',
       [EvConnect (w_attempts (st_world s)) t; EvOpened (length (w_conns (st_world s)))]) /\
    st_vars s' = st_vars s /\
    w_attempts (st_world s') = S (w_attempts (st_world s)) /\
    w_conns (st_world s') =
      (w_conns (st_world s)
       ++ [mkTransport (cs_incoming sc) (cs_drain sc) (cs_lost sc) false])%list /\
    w_files (st_world s') = w_files (st_world s) /\
    w_stdin (st_world s') = w_stdin (st_world s) /\
    w_clock (st_world s') = w_clock (st_world s).
Proof.
  intros H. destruct s as [w v]. simpl in *.
  unfold open_connection, bind, get_world, put_world, emit, ret, raise. simpl.
  rewrite H. simpl. eexists. split; [reflexivity|]. repeat split.
Qed.

End OpenConnection.

(** Whether a transport is open can be read off the flags. *)
Lemma open_of_flags (w : world) (c : nat) :
  transport_open (conn_get w c) =
    negb (snd (nth c (flags w) (true, true)) || fst (nth c (flags w) (true, true))).
Proof.
  unfold flags, transport_open, conn_get.
  pose proof (map_nth (fun t => (t_lost t, t_closed t))
                (w_conns w) dead_transport c) as H.
  cbv beta in H. simpl in H. rewrite H. reflexivity.
Qed.

Lemma flags_open (w w' : world) (c : nat) :
  flags w' = flags w ->
  transport_open (conn_get w' c) = transport_open (conn_get w c).
Proof. intros H. rewrite !open_of_flags, H. reflexivity. Qed.

Lemma flags_none_open (w w' : world) :
  flags w' = flags w -> none_open w -> none_open w'.
Proof. intros H Hn c. rewrite (flags_open w w' c H). apply Hn. Qed.

Lemma flags_length (w : world) : length (flags w) = length (w_conns w).
Proof. unfold flags. apply length_map. Qed.

(** After a connection is opened, it is the only one that may be open. *)
Lemma opened_only_open (w w' : world) (lost : bool) :
  flags w' = (flags w ++ [(lost, false)])%list ->
  none_open w ->
  only_open w' (length (w_conns w)) /\
  transport_open (conn_get w' (length (w_conns w))) = negb lost.
Proof.
  intros Hf Hn. split.
  - intros c Hc. rewrite open_of_flags, Hf.
    destruct (Nat.lt_ge_cases c (length (flags w))) as [Hlt|Hge].
    + rewrite app_nth1 by assumption. rewrite <- open_of_flags. apply Hn.
    + rewrite nth_overflow; [reflexivity|].
      rewrite length_app, flags_length in *. simpl. lia.
  - rewrite open_of_flags, Hf, <- flags_length.
    rewrite nth_middle. reflexivity.
Qed.

Lemma nth_conn_update_other (l : list transport) (c c' : nat) (f : transport -> transport) :
  c' <> c -> nth c' (conn_update l c f) dead_transport = nth c' l dead_transport.
Proof.
  revert c c'. induction l as [|t l IH]; intros c c' Hc; simpl.
  - destruct c; reflexivity.
  - destruct c as [|c]; destruct c' as [|c']; simpl; try reflexivity; try lia.
    apply IH. lia.
Qed.

Lemma conn_update_beyond (l : list transport) (c : nat) (f : transport -> transport) :
  length l <= c -> conn_update l c f = l.
Proof.
  revert c. induction l as [|t l IH]; intros c Hc; simpl in *.
  - destruct c; reflexivity.
  - destruct c as [|c]; [lia|]. rewrite IH by lia. reflexivity.
Qed.

(** Closing the only transport that may be open leaves none open. *)
Lemma close_none_open (w : world) (c : nat) :
  only_open w c ->
  none_open (set_conns w (conn_update (w_conns w) c
    (fun t => mkTransport (t_incoming t) (t_drain t) (t_lost t) true))).
Proof.
  intros Ho c'. unfold conn_get. simpl.
  destruct (Nat.eq_dec c' c) as [->|Hne].
  - destruct (Nat.lt_ge_cases c (length (w_conns w))) as [Hlt|Hge].
    + rewrite nth_conn_update by assumption. unfold transport_open. simpl.
      reflexivity.
    + rewrite conn_update_beyond by assumption.
      rewrite nth_overflow by assumption. reflexivity.
  - rewrite nth_conn_update_other by assumption. apply (Ho c' Hne).
Qed.

Section ListenerTurn.

Variable en : env.
Variable host : string.
Variable port : Z.
Variable history : string.

(** Chaining the description of one call of [log_message]. *)
Ltac log_found s' ev H :=
  let Hrun := fresh "Hrun" in
  match goal with
  | |- context [Listener.log_message en history ?m ?s] =>
      destruct (log_message_run en history m s) as (s' & ev & Hrun & H);
      rewrite Hrun
  end.

Ltac log_step s' ev H :=
  first [ log_found s' ev H | unfold bind at 1; log_found s' ev H ].

(** The common end of the clauses that announce a retry. *)
Lemma retry_run (msg : string) (s : state Listener.vars) :
  exists s' ev,
    (Listener.log_message en history msg ;;
     Listener.log_message en history "Попытка переподключения через 5 секунд..." ;;
     sleep 5 ;;
     ret Continue) s = (Ok Continue, s', ev) /\
    net_events ev = [EvSleep 5] /\
    still s s'.
Proof.
  log_step s1 ev1 H1.
  log_step s2 ev2 H2.
  destruct H1 as (N1 & _ & S1 & _). destruct H2 as (N2 & _ & S2 & _).
  unfold bind, sleep, emit, ret. simpl.
  do 2 eexists. split; [reflexivity|]. split.
  - rewrite !net_events_app, N1, N2. reflexivity.
  - apply same_net_still. eapply same_net_trans; eassumption.
Qed.

(** What the [except] clauses do with an exception. *)
Lemma handler_run (e : exn) (s : state Listener.vars) :
  match Listener.handler en host port history e with
  | Some h =>
      exists x s' ev,
        h s = (Ok x, s', ev) /\
        net_events ev = delays (Some e) /\
        still s s' /\
        isinstance e Exception = true
  | None => isinstance e Exception = false
  end.
Proof.
  destruct e as [cls msg part].
  destruct cls; unfold Listener.handler, delays, isinstance; simpl;
    try reflexivity;
    try (edestruct retry_run as (s' & ev & Hrun & Hnet & Hst);
         exists Continue, s', ev; split; [exact Hrun|];
         split; [exact Hnet|]; split; [exact Hst | reflexivity]).
  (* IncompleteReadError *)
  log_step s1 ev1 H1.
  destruct H1 as (N1 & _ & S1 & _).
  unfold ret; simpl.
  exists Normal, s1, (ev1 ++ [])%list. split; [reflexivity|]. split.
  - rewrite net_events_app, N1. reflexivity.
  - split; [apply same_net_still; assumption | reflexivity].
Qed.

(** The [finally] clause tests the transport of [writer] and closes it when
    it is still open. *)
Lemma finally_run (s : state Listener.vars) :
  exists s' ev,
    Listener.finally_clause en history s = (Ok tt, s', ev) /\
    st_vars s' = st_vars s /\
    w_attempts (st_world s') = w_attempts (st_world s) /\
    length (w_conns (st_world s')) = length (w_conns (st_world s)) /\
    net_events ev =
      match Listener.writer (st_vars s) with
      | None => []
      | Some c => closing_events (st_world s) c
      end /\
    (none_open (st_world s) -> none_open (st_world s')) /\
    (forall c, Listener.writer (st_vars s) = Some c ->
               only_open (st_world s) c -> none_open (st_world s')).
Proof.
  unfold Listener.finally_clause, closing_events.
  unfold bind at 1. unfold get_vars at 1.
  destruct (Listener.writer (st_vars s)) as [c|] eqn:W.
  - unfold bind at 1. unfold is_closing, bind, get_world, emit, ret at 1 2. simpl.
    destruct (transport_open (conn_get (st_world s) c)) eqn:O; simpl.
    + log_step s1 ev1 H1.
      destruct H1 as (N1 & _ & (V1 & A1 & C1 & _) & _).
      simpl.
      do 2 eexists. split; [reflexivity|]. simpl.
      split; [assumption|]. split; [assumption|]. split.
      { rewrite <- C1. clear. generalize (w_conns (st_world s1)). intros l.
        revert c. induction l as [|t l IH]; intros c; simpl.
        - destruct c; reflexivity.
        - destruct c; simpl; [reflexivity | now rewrite IH]. }
      split.
      { rewrite !net_events_app, N1. reflexivity. }
      assert (Hclose : only_open (st_world s) c -> none_open
                (set_conns (st_world s1)
                   (conn_update (w_conns (st_world s1)) c
                      (fun t => mkTransport (t_incoming t) (t_drain t) (t_lost t) true)))).
      { intros Ho. apply close_none_open. intros c' Hc'.
        unfold conn_get. rewrite C1. apply (Ho c' Hc'). }
      split.
      * intros Hn. apply Hclose. intros c' _. apply Hn.
      * intros c0 Hc0. injection Hc0 as <-. exact Hclose.
    + unfold ret. do 2 eexists. split; [reflexivity|]. simpl.
      repeat split; try reflexivity; try (intros; assumption).
      intros c0 Hc0 Ho c'. injection Hc0 as <-.
      destruct (Nat.eq_dec c' c) as [->|Hne]; [exact O | apply (Ho c' Hne)].
  - unfold ret. do 2 eexists. split; [reflexivity|]. simpl.
    repeat split; try reflexivity; try (intros; assumption).
    intros c0 Hc0. discriminate Hc0.
Qed.

End ListenerTurn.

Lemma bind_ok {L A B} (m : M L A) (k : A -> M L B) (s s1 : state L) (a : A)
    (ev1 : list event) :
  m s = (Ok a, s1, ev1) -> bind m k s = after ev1 (k a s1).
Proof. intros H. unfold bind, after. rewrite H. reflexivity. Qed.

Lemma bind_raise {L A B} (m : M L A) (k : A -> M L B) (s s1 : state L) (e : exn)
    (ev1 : list event) :
  m s = (Raise e, s1, ev1) -> bind m k s = (Raise e, s1, ev1).
Proof. intros H. unfold bind. rewrite H. reflexivity. Qed.

Lemma run_eta {L A} (x : result A * state L * list event) :
  x = (outcome x, final x, events x).
Proof. destruct x as [[r s] ev]. reflexivity. Qed.

(** Computing the connection events of a list made of known parts. *)
Ltac net_simpl :=
  unfold net_events in *;
  repeat first
    [ rewrite filter_app
    | match goal with
      | H : filter is_net ?e = _ |- context [filter is_net ?e] => rewrite H
      end
    | progress cbn [filter is_net app] ].

Section ListenerTry.

Variable en : env.
Variable host : string.
Variable port : Z.
Variable history : string.

(** The [try] block: a connection attempt, then the stream to its end. *)
Lemma try_block_run (s : state Listener.vars) :
  exists s1 ev,
    Listener.try_block en host port history s =
      (match exit_of (net en (w_attempts (st_world s))) with
       | None => Ok Normal
       | Some e => Raise e
       end, s1, ev) /\
    w_attempts (st_world s1) = S (w_attempts (st_world s)) /\
    match net en (w_attempts (st_world s)) with
    | ConnectFails _ =>
        net_events ev = [EvConnect (w_attempts (st_world s)) (Some 10)] /\
        st_vars s1 = st_vars s /\
        flags (st_world s1) = flags (st_world s)
    | Connected sc =>
        net_events ev =
          [EvConnect (w_attempts (st_world s)) (Some 10);
           EvOpened (length (w_conns (st_world s)))] /\
        st_vars s1 = Listener.mkVars (Some (length (w_conns (st_world s))))
                                     (Some (length (w_conns (st_world s)))) /\
        flags (st_world s1) = (flags (st_world s) ++ [(cs_lost sc, false)])%list
    end.
Proof.
  unfold Listener.try_block.
  destruct (log_message_run en history
              ("Подключение к " ++ Listener.endpoint host port ++ "...") s)
    as (s1 & ev1 & R1 & N1 & _ & (V1 & A1 & C1 & _) & _).
  rewrite (bind_ok _ _ _ _ _ _ R1). cbv beta.
  destruct (net en (w_attempts (st_world s))) as [sc|e] eqn:Hnet; cbn [exit_of].
  - (* the connection is established *)
    rewrite <- A1 in Hnet.
    destruct (open_connection_succeeds en (Some 10) s1 sc Hnet)
      as (s2 & R2 & V2 & A2 & C2 & _).
    rewrite (bind_ok _ _ _ _ _ _ R2). cbv beta.
    set (c := length (w_conns (st_world s1))) in *.
    assert (Hc : c = length (w_conns (st_world s))) by (unfold c; now rewrite C1).
    set (s3 := mkState (st_world s2) (Listener.mkVars (Some c) (Some c))).
    assert (R3 : put_vars (Listener.mkVars (Some c) (Some c)) s2 = (Ok tt, s3, []))
      by reflexivity.
    rewrite (bind_ok _ _ _ _ _ _ R3). cbv beta.
    destruct (log_message_run en history
                ("Соединение установлено с " ++ Listener.endpoint host port) s3)
      as (s4 & ev4 & R4 & N4 & _ & (V4 & A4 & C4 & _) & _).
    rewrite (bind_ok _ _ _ _ _ _ R4). cbv beta.
    assert (R5 : @get_world Listener.vars s4 = (Ok (st_world s4), s4, [])) by reflexivity.
    rewrite (bind_ok _ _ _ _ _ _ R5). cbv beta.
    assert (Hin : t_incoming (conn_get (st_world s4) c) = cs_incoming sc).
    { unfold conn_get. rewrite C4. simpl. rewrite C2. unfold c.
      rewrite nth_middle. reflexivity. }
    rewrite Hin.
    pose proof (async_for_outcome en history (cs_incoming sc)
                  (S (length (cs_incoming sc))) c 0 s4 Hin (Nat.lt_succ_diag_r _)) as Hout.
    destruct (calm_async_for en history (S (length (cs_incoming sc))) c 0 s4)
      as [(V6 & A6 & F6) N6].
    unfold silent, outcome, final, events in Hout, V6, A6, F6, N6.
    destruct (Listener.async_for en history (S (length (cs_incoming sc))) c 0 s4)
      as [[r6 s6] ev6] eqn:R6.
    cbn [fst snd] in Hout, V6, A6, F6, N6.
    assert (Fl : flags (st_world s6) = (flags (st_world s) ++ [(cs_lost sc, false)])%list).
    { rewrite F6. unfold flags. rewrite C4. simpl. rewrite C2, C1, map_app.
      reflexivity. }
    assert (At : w_attempts (st_world s6) = S (w_attempts (st_world s)))
      by (rewrite A6, A4; simpl; rewrite A2, A1; reflexivity).
    subst r6. destruct (stream_error (cs_incoming sc)) as [e|].
    + rewrite (bind_raise _ _ _ _ _ _ R6). simpl.
      do 2 eexists. split; [reflexivity|]. split; [exact At|].
      split; [|split].
      * net_simpl. rewrite A1, Hc. reflexivity.
      * rewrite V6, V4. simpl. rewrite Hc. reflexivity.
      * exact Fl.
    + rewrite (bind_ok _ _ _ _ _ _ R6). cbv beta.
      destruct (Nat.eqb (0 + length (messages (lines_read (cs_incoming sc)))) 0).
      * destruct (log_message_run en history
                    "Соединение закрыто сервером без отправки данных" s6)
          as (s7 & ev7 & R7 & N7 & _ & (V7 & A7 & C7 & _) & _).
        rewrite (bind_ok _ _ _ _ _ _ R7). simpl.
        do 2 eexists. split; [reflexivity|]. split; [now rewrite A7|].
        split; [|split].
        -- net_simpl. rewrite A1, Hc. reflexivity.
        -- rewrite V7, V6, V4. simpl. rewrite Hc. reflexivity.
        -- unfold flags in *. rewrite C7. exact Fl.
      * rewrite (bind_ok _ _ _ _ _ _ eq_refl). simpl.
        do 2 eexists. split; [reflexivity|]. split; [exact At|].
        split; [|split].
        -- net_simpl. rewrite A1, Hc. reflexivity.
        -- rewrite V6, V4. simpl. rewrite Hc. reflexivity.
        -- exact Fl.
  - (* the connection attempt fails *)
    rewrite <- A1 in Hnet.
    destruct (open_connection_fails en (Some 10) s1 e Hnet)
      as (s2 & R2 & V2 & A2 & C2 & _).
    rewrite (bind_raise _ _ _ _ _ _ R2). simpl.
    do 2 eexists. split; [reflexivity|].
    split; [rewrite A2, A1; reflexivity|].
    split; [|split].
    + net_simpl. rewrite A1. reflexivity.
    + now rewrite V2.
    + unfold flags. now rewrite C2, C1.
Qed.

End ListenerTry.

Lemma delays_unhandled (e : exn) :
  isinstance e Exception = false -> delays (Some e) = [].
Proof.
  intros H. unfold delays. rewrite H.
  destruct (isinstance e IncompleteReadError); reflexivity.
Qed.

Lemma opened_flag (w w' : world) (lost : bool) :
  flags w' = (flags w ++ [(lost, false)])%list ->
  transport_open (conn_get w' (length (w_conns w))) = negb lost.
Proof.
  intros Hf. rewrite open_of_flags, Hf, <- flags_length.
  rewrite nth_middle. reflexivity.
Qed.

Lemma closing_events_flags (w w' : world) (c : nat) :
  flags w' = flags w -> closing_events w' c = closing_events w c.
Proof. intros H. unfold closing_events. rewrite (flags_open w w' c H). reflexivity. Qed.

Section ListenerIteration.

Variable en : env.
Variable host : string.
Variable port : Z.
Variable history : string.

(** The [try] block with its [except] clauses. *)
Lemma guarded_run (s : state Listener.vars) :
  exists r s2 ev,
    try_except (Listener.try_block en host port history)
               (Listener.handler en host port history) s = (r, s2, ev) /\
    match exit_of (net en (w_attempts (st_world s))) with
    | None => r = Ok Normal
    | Some e => if isinstance e Exception then exists x, r = Ok x else r = Raise e
    end /\
    w_attempts (st_world s2) = S (w_attempts (st_world s)) /\
    net_events ev =
      ((EvConnect (w_attempts (st_world s)) (Some 10)
        :: match net en (w_attempts (st_world s)) with
           | Connected _ => [EvOpened (length (w_conns (st_world s)))]
           | ConnectFails _ => []
           end)
       ++ delays (exit_of (net en (w_attempts (st_world s)))))%list /\
    match net en (w_attempts (st_world s)) with
    | ConnectFails _ =>
        st_vars s2 = st_vars s /\ flags (st_world s2) = flags (st_world s)
    | Connected sc =>
        st_vars s2 = Listener.mkVars (Some (length (w_conns (st_world s))))
                                     (Some (length (w_conns (st_world s)))) /\
        flags (st_world s2) = (flags (st_world s) ++ [(cs_lost sc, false)])%list
    end.
Proof.
  destruct (try_block_run en host port history s) as (s1 & ev1 & R1 & A1 & H1).
  unfold try_except. rewrite R1.
  destruct (exit_of (net en (w_attempts (st_world s)))) as [e|] eqn:X.
  - pose proof (handler_run en host port history e s1) as Hh.
    destruct (Listener.handler en host port history e) as [h|].
    + destruct Hh as (x & s2 & ev2 & Rh & Nh & (V2 & A2 & F2) & Ex).
      rewrite Rh. exists (Ok x), s2, (ev1 ++ ev2)%list.
      split; [reflexivity|]. rewrite Ex.
      split; [exists x; reflexivity|].
      split; [now rewrite A2|].
      split.
      * rewrite net_events_app, Nh.
        destruct (net en (w_attempts (st_world s)));
          destruct H1 as (-> & _); reflexivity.
      * destruct (net en (w_attempts (st_world s)));
          destruct H1 as (_ & V1 & F1); rewrite V2, F2; split; assumption.
    + exists (Raise e), s1, ev1. split; [reflexivity|]. rewrite Hh.
      split; [reflexivity|]. split; [assumption|].
      rewrite (delays_unhandled e Hh), app_nil_r.
      destruct (net en (w_attempts (st_world s)));
        destruct H1 as (-> & V1 & F1); repeat split; assumption.
  - exists (Ok Normal), s1, ev1. split; [reflexivity|].
    split; [reflexivity|]. split; [assumption|].
    simpl delays. rewrite app_nil_r.
    destruct (net en (w_attempts (st_world s)));
      destruct H1 as (-> & V1 & F1); repeat split; assumption.
Qed.

(** One turn of the loop: the connection events it performs, how it ends,
    and that it leaves no transport open. *)
Lemma iteration_run (s : state Listener.vars) :
  exists r s' ev,
    Listener.iteration en host port history s = (r, s', ev) /\
    match exit_of (net en (w_attempts (st_world s))) with
    | None => r = Ok Normal
    | Some e => if isinstance e Exception then exists x, r = Ok x else r = Raise e
    end /\
    w_attempts (st_world s') = S (w_attempts (st_world s)) /\
    net_events ev =
      match net en (w_attempts (st_world s)) with
      | ConnectFails e =>
          [EvConnect (w_attempts (st_world s)) (Some 10)]
          ++ delays (Some e)
          ++ match Listener.writer (st_vars s) with
             | None => []
             | Some c => closing_events (st_world s) c
             end
      | Connected sc =>
          [EvConnect (w_attempts (st_world s)) (Some 10);
           EvOpened (length (w_conns (st_world s)))]
          ++ delays (stream_error (cs_incoming sc))
          ++ (if cs_lost sc
              then [EvIsClosing (length (w_conns (st_world s))) true]
              else [EvIsClosing (length (w_conns (st_world s))) false;
                    EvClose (length (w_conns (st_world s)))])
      end%list /\
    (none_open (st_world s) -> none_open (st_world s')).
Proof.
  destruct (guarded_run s) as (r & s2 & ev2 & R2 & Hr & A2 & N2 & H2).
  destruct (finally_run en history s2)
    as (s3 & ev3 & R3 & V3 & A3 & _ & N3 & Hn3 & Ho3).
  unfold Listener.iteration, try_finally. rewrite R2, R3.
  exists r, s3, (ev2 ++ ev3)%list. split; [reflexivity|].
  split; [exact Hr|]. split; [now rewrite A3|].
  rewrite net_events_app, N2, N3.
  destruct (net en (w_attempts (st_world s))) as [sc|e]; cbn [exit_of] in *.
  - destruct H2 as (V2 & F2). rewrite V2. cbn [Listener.writer].
    split.
    + unfold closing_events. rewrite (opened_flag _ _ _ F2).
      rewrite <- app_assoc. destruct (cs_lost sc); reflexivity.
    + intros Hn. apply (Ho3 (length (w_conns (st_world s)))).
      * rewrite V2. reflexivity.
      * apply (proj1 (opened_only_open _ _ _ F2 Hn)).
  - destruct H2 as (V2 & F2). rewrite V2. split.
    + rewrite <- app_assoc. simpl. do 2 f_equal.
      destruct (Listener.writer (st_vars s)); [|reflexivity].
      apply closing_events_flags. assumption.
    + intros Hn. apply Hn3. apply (flags_none_open _ _ F2 Hn).
Qed.

End ListenerIteration.

(* ================================================================== *)
(** * The message sink: one log entry per message *)
(* ================================================================== *)

Lemma messages_cons (b : wire) (bs : list wire) :
  messages (b :: bs) =
    if PyStr.truthy (message_of b) then message_of b :: messages bs else messages bs.
Proof. reflexivity. Qed.

Lemma printed_app (a b : list event) : printed (a ++ b) = (printed a ++ printed b)%list.
Proof.
  induction a as [|ev a IH]; simpl; [reflexivity|].
  destruct ev; simpl; rewrite ?IH; reflexivity.
Qed.

Lemma content_files (w w' : world) (path : string) :
  w_files w' = w_files w -> content w' path = content w path.
Proof. intros H. unfold content. now rewrite H. Qed.

Section Sink.

Variable en : env.
Variable history : string.
Hypothesis files_open : forall k, fs_error en k = None.

(** The stream read to its end when no operation on a file fails: what is
    printed and what the file gains. *)
Lemma async_for_log (bs : list wire) :
  forall (fuel c count : nat) (s : state Listener.vars),
    Forall (fun b => wire_empty b = false) bs ->
    t_incoming (conn_get (st_world s) c) = map Line bs ->
    length bs < fuel ->
    exists s' ev,
      Listener.async_for en history fuel c count s
        = (Ok (count + length (messages bs)), s', ev) /\
      printed ev = log_entries en (w_clock (st_world s)) (messages bs) /\
      content (st_world s') history =
        (content (st_world s) history
         ++ file_lines (log_entries en (w_clock (st_world s)) (messages bs)))%string.
Proof.
  induction bs as [|b bs IH]; intros fuel c count s Hne Hin Hfuel;
    (destruct fuel as [|fuel]; [simpl in Hfuel; lia|]); cbn [Listener.async_for].
  - rewrite (bind_ok _ _ _ _ _ _ (readline_eof c s Hin)). cbn [wire_empty].
    unfold after, ret. simpl. rewrite Nat.add_0_r.
    do 2 eexists. split; [reflexivity|]. simpl.
    split; [reflexivity|]. now rewrite string_app_nil_r.
  - simpl in Hin.
    destruct (readline_run c s (Line b) (map Line bs) Hin)
      as (s1 & R1 & Hrest & _ & _ & K1 & _ & F1 & _).
    rewrite (bind_ok _ _ _ _ _ _ R1). cbv beta.
    inversion Hne as [|b' bs' Hb Hbs]; subst. rewrite Hb.
    rewrite messages_cons. fold (message_of b).
    simpl in Hfuel.
    destruct (PyStr.truthy (message_of b)) eqn:Hm.
    + destruct (log_message_run en history (message_of b) s1)
        as (s2 & ev2 & R2 & _ & E2 & (_ & _ & C2 & _) & K2 & _ & W2 & _).
      rewrite (append_fault_none en files_open) in E2, W2.
      rewrite (bind_ok _ _ _ _ _ _ R2). cbv beta.
      assert (Hin2 : t_incoming (conn_get (st_world s2) c) = map Line bs)
        by (unfold conn_get in *; rewrite C2; exact Hrest).
      destruct (IH fuel c (S count) s2 Hbs Hin2 ltac:(lia))
        as (s3 & ev3 & R3 & P3 & W3).
      rewrite R3. unfold after.
      replace (S count + length (messages bs))
        with (count + length (message_of b :: messages bs)) by (simpl; lia).
      do 2 eexists. split; [reflexivity|].
      * subst ev2. simpl. rewrite P3, W3, W2, K2, K1.
        rewrite (content_files _ _ history F1).
        split; [reflexivity|].
        rewrite !string_app_assoc. reflexivity.
    + destruct (IH fuel c count s1 Hbs Hrest ltac:(lia))
        as (s3 & ev3 & R3 & P3 & W3).
      rewrite R3. unfold after. do 2 eexists. split; [reflexivity|].
      simpl. rewrite P3, W3, K1, (content_files _ _ history F1).
      split; reflexivity.
Qed.

End Sink.

(* ================================================================== *)
(** * The listener: the claims *)
(* ================================================================== *)

(** C4 (amended).  For every sequence of lines read from the transport, when
    the history file can be opened and written: a line whose text is empty
    once its trailing white space is stripped appends nothing, and every
    other line appends exactly one entry [[DD.MM.YY HH:MM] text], the text
    being the line without its trailing white space; the entries are printed
    and appended in arrival order. *)
Theorem sink_one_entry_per_message :
  forall (en : env) (history : string) (bs : list wire) (c : nat)
         (s : state Listener.vars),
    (forall k, fs_error en k = None) ->
    Forall (fun b => wire_empty b = false) bs ->
    t_incoming (conn_get (st_world s) c) = map Line bs ->
    let r := Listener.async_for en history (S (length bs)) c 0 s in
    let entries := log_entries en (w_clock (st_world s)) (messages bs) in
    outcome r = Ok (length (messages bs)) /\
    printed (events r) = entries /\
    content (st_world (final r)) history
      = (content (st_world s) history ++ file_lines entries)%string.
Proof.
  intros en history bs c s Hfs Hne Hin r entries.
  destruct (async_for_log en history Hfs bs (S (length bs)) c 0 s Hne Hin
              (Nat.lt_succ_diag_r _)) as (s' & ev & Hrun & Hp & Hc).
  subst r. rewrite Hrun. unfold outcome, final, events. simpl.
  repeat split; assumption.
Qed.

(** C8.  When the entry of a line cannot be appended to the history file,
    because the file cannot be opened or because the write fails once the
    file is open, the error is caught and reported on the console, and the
    reading loop goes on with the rest of the stream, the variables of the
    listener as they were.  No other file is touched, and when it is the
    open that fails the files are left as they were. *)
Theorem write_failure_keeps_stream :
  forall (en : env) (history : string) (b : wire) (rest : list read_event)
         (fuel c count : nat) (s : state Listener.vars) (err : string),
    t_incoming (conn_get (st_world s) c) = Line b :: rest ->
    wire_empty b = false ->
    PyStr.truthy (message_of b) = true ->
    append_fault en (w_opens (st_world s)) = Some err ->
    exists s1,
      Listener.async_for en history (S fuel) c count s =
        after [EvRead c;
               EvPrint (strftime_log (now en (w_clock (st_world s))) ++ " " ++ message_of b);
               EvPrint ("Ошибка записи в файл: " ++ err)]
              (Listener.async_for en history fuel c (S count) s1) /\
      t_incoming (conn_get (st_world s1) c) = rest /\
      (forall p, p <> history -> w_files (st_world s1) p = w_files (st_world s) p) /\
      (fs_error en (w_opens (st_world s)) = Some err ->
       w_files (st_world s1) = w_files (st_world s)) /\
      st_vars s1 = st_vars s.
Proof.
  intros en history b rest fuel c count s err Hin Hb Hm Hfs.
  destruct (readline_run c s (Line b) rest Hin)
    as (s1 & R1 & Hrest & _ & V1 & K1 & O1 & F1 & _).
  destruct (log_message_run en history (message_of b) s1)
    as (s2 & ev2 & R2 & _ & E2 & (V2 & _ & C2 & _) & _ & _ & W2 & G2).
  rewrite O1, Hfs in E2, W2. rewrite K1 in E2. destruct W2 as [_ W2].
  exists s2. split.
  - cbn [Listener.async_for].
    rewrite (bind_ok _ _ _ _ _ _ R1). cbv beta. rewrite Hb.
    fold (message_of b). rewrite Hm.
    rewrite (bind_ok _ _ _ _ _ _ R2). cbv beta. subst ev2.
    destruct (Listener.async_for en history fuel c (S count) s2) as [[r3 s3] ev3].
    reflexivity.
  - split; [unfold conn_get in *; rewrite C2; exact Hrest|].
    split; [intros p Hp; rewrite (G2 p Hp), F1; reflexivity|].
    split; [|rewrite V2; exact V1].
    intros Hopen. rewrite W2; [exact F1|]. rewrite Hopen. discriminate.
Qed.

Lemma pace_of_net (evs : list event) : pace evs = filter is_pace (net_events evs).
Proof.
  unfold pace, net_events. induction evs as [|ev evs IH]; simpl; [reflexivity|].
  destruct ev; simpl; rewrite ?IH; reflexivity.
Qed.

Lemma pace_app (a b : list event) : pace (a ++ b) = (pace a ++ pace b)%list.
Proof. apply filter_app. Qed.

Lemma pace_delays (x : option exn) : filter is_pace (delays x) = delays x.
Proof.
  destruct x as [e|]; [|reflexivity]. unfold delays.
  destruct (isinstance e IncompleteReadError); [reflexivity|].
  destruct (isinstance e Exception); reflexivity.
Qed.

Lemma pace_closing (w : world) (c : nat) : filter is_pace (closing_events w c) = [].
Proof. unfold closing_events. destruct (transport_open (conn_get w c)); reflexivity. Qed.

(** C1 (amended).  Whatever way the turns of the listener's loop end short of
    an exception outside [Exception] (connect timeout, connection refused,
    network failure, clean end of the stream, partial final line, any other
    exception), the loop is still running after any number [n] of turns, and
    every turn makes exactly one connection attempt.  The retry that follows
    a turn comes after a delay of 5 when the turn ended by a timeout, a
    refusal, a network failure or another exception; after a clean end of the
    stream and after a partial final line it comes at once. *)
Theorem listener_retries_forever :
  forall (en : env) (host : string) (port : Z) (history : string) (n : nat)
         (s : state Listener.vars),
    (forall i, i < n ->
       recovers (exit_of (net en (w_attempts (st_world s) + i))) = true) ->
    let r := Listener.reconnect_loop en host port history n s in
    outcome r = Ok tt /\
    pace (events r) = turns_pace en (w_attempts (st_world s)) n /\
    w_attempts (st_world (final r)) = w_attempts (st_world s) + n.
Proof.
  intros en host port history n. induction n as [|n IH]; intros s Hrec r; subst r.
  - simpl. unfold outcome, final, events, ret. simpl. repeat split. lia.
  - cbn [Listener.reconnect_loop turns_pace].
    destruct (iteration_run en host port history s)
      as (r1 & s1 & ev1 & R1 & Hr & A1 & N1 & _).
    assert (Hk : recovers (exit_of (net en (w_attempts (st_world s)))) = true).
    { specialize (Hrec 0 ltac:(lia)). now rewrite Nat.add_0_r in Hrec. }
    assert (Hok : exists x, r1 = Ok x).
    { destruct (exit_of (net en (w_attempts (st_world s)))) as [e|].
      - simpl in Hk. rewrite Hk in Hr. exact Hr.
      - exists Normal. exact Hr. }
    destruct Hok as [x ->].
    rewrite (bind_ok _ _ _ _ _ _ R1). cbv beta.
    assert (Hrec' : forall i, i < n ->
              recovers (exit_of (net en (w_attempts (st_world s1) + i))) = true).
    { intros i Hi. rewrite A1. replace (S (w_attempts (st_world s)) + i)
        with (w_attempts (st_world s) + S i) by lia. apply Hrec. lia. }
    destruct (IH s1 Hrec') as (O2 & P2 & A2).
    unfold outcome, final, events in *.
    destruct (Listener.reconnect_loop en host port history n s1) as [[r2 s2] ev2].
    unfold after. cbn [fst snd] in *. split; [exact O2|]. split; [|lia].
    rewrite pace_app, P2, A1, pace_of_net, N1.
    destruct (net en (w_attempts (st_world s))) as [sc|e]; cbn [exit_of].
    + cbn [app filter is_pace]. rewrite !filter_app, pace_delays.
      destruct (cs_lost sc); simpl; rewrite app_nil_r; reflexivity.
    + cbn [app filter is_pace]. rewrite !filter_app, pace_delays.
      destruct (Listener.writer (st_vars s)); simpl;
        rewrite ?pace_closing, app_nil_r; reflexivity.
Qed.

(** C5.  When the server accepts the connection and the stream ends cleanly
    before any line, the listener logs that the connection was closed without
    data, the turn ends normally, and the loop goes on to the next connection
    attempt. *)
Theorem clean_closure_without_data :
  forall (en : env) (host : string) (port : Z) (history : string)
         (s : state Listener.vars) (sc : conn_script),
    net en (w_attempts (st_world s)) = Connected sc ->
    cs_incoming sc = [] ->
    let r := Listener.iteration en host port history s in
    outcome r = Ok Normal /\
    In (EvPrint (strftime_log (now en (2 + w_clock (st_world s)))
                 ++ " Соединение закрыто сервером без отправки данных"))
       (events r) /\
    (forall n,
       outcome (Listener.reconnect_loop en host port history (S n) s)
       = outcome (Listener.reconnect_loop en host port history n (final r))) /\
    In (EvConnect (S (w_attempts (st_world s))) (Some 10))
       (events (Listener.reconnect_loop en host port history 2 s)).
Proof.
  intros en host port history s sc Hnet Hempty r.
  (* the turn, from the lemma on turns *)
  destruct (iteration_run en host port history s)
    as (r1 & s1 & ev1 & R1 & Hr & A1 & N1 & _).
  rewrite Hnet in Hr. cbn [exit_of] in Hr. rewrite Hempty in Hr. simpl in Hr. subst r1.
  (* the next turn *)
  destruct (iteration_run en host port history s1)
    as (r2 & s2 & ev2 & R2 & _ & _ & N2 & _).
  assert (Hconn : In (EvConnect (S (w_attempts (st_world s))) (Some 10)) ev2).
  { assert (H : In (EvConnect (S (w_attempts (st_world s))) (Some 10)) (net_events ev2)).
    { rewrite N2, A1. destruct (net en (S (w_attempts (st_world s)))); left; reflexivity. }
    unfold net_events in H. apply filter_In in H. apply H. }
  (* the events of the [try] block *)
  assert (Hprint :
    In (EvPrint (strftime_log (now en (2 + w_clock (st_world s)))
                 ++ " Соединение закрыто сервером без отправки данных")) ev1).
  { revert R1. unfold Listener.iteration, try_finally, try_except, Listener.try_block.
    destruct (log_message_run en history
                ("Подключение к " ++ Listener.endpoint host port ++ "...") s)
      as (t1 & e1 & L1 & _ & _ & (_ & TA1 & TC1 & _) & TK1 & _).
    rewrite (bind_ok _ _ _ _ _ _ L1). cbv beta.
    rewrite <- TA1 in Hnet.
    destruct (open_connection_succeeds en (Some 10) t1 sc Hnet)
      as (t2 & L2 & _ & _ & TC2 & _ & _ & TK2).
    rewrite (bind_ok _ _ _ _ _ _ L2). cbv beta.
    set (c := length (w_conns (st_world t1))) in *.
    set (t3 := mkState (st_world t2) (Listener.mkVars (Some c) (Some c))).
    assert (L3 : put_vars (Listener.mkVars (Some c) (Some c)) t2 = (Ok tt, t3, []))
      by reflexivity.
    rewrite (bind_ok _ _ _ _ _ _ L3). cbv beta.
    destruct (log_message_run en history
                ("Соединение установлено с " ++ Listener.endpoint host port) t3)
      as (t4 & e4 & L4 & _ & _ & (_ & _ & TC4 & _) & TK4 & _).
    rewrite (bind_ok _ _ _ _ _ _ L4). cbv beta.
    assert (L5 : @get_world Listener.vars t4 = (Ok (st_world t4), t4, [])) by reflexivity.
    rewrite (bind_ok _ _ _ _ _ _ L5). cbv beta.
    assert (Hin : t_incoming (conn_get (st_world t4) c) = []).
    { unfold conn_get. rewrite TC4. simpl. rewrite TC2. unfold c.
      rewrite nth_middle. simpl. exact Hempty. }
    rewrite Hin. cbn [length].
    assert (L7 : Listener.async_for en history 1 c 0 t4 = (Ok 0, t4, [EvRead c])).
    { cbn [Listener.async_for].
      rewrite (bind_ok _ _ _ _ _ _ (readline_eof c t4 Hin)). reflexivity. }
    rewrite (bind_ok _ _ _ _ _ _ L7). cbv beta. cbn [Nat.eqb].
    destruct (log_message_run en history
                "Соединение закрыто сервером без отправки данных" t4)
      as (t5 & e5 & L6 & _ & E5 & _).
    rewrite (bind_ok _ _ _ _ _ _ L6). cbv beta.
    unfold ret, after.
    assert (Hentry : In (EvPrint (strftime_log (now en (2 + w_clock (st_world s)))
                 ++ " Соединение закрыто сервером без отправки данных")) e5).
    { rewrite E5. left. rewrite TK4. simpl. rewrite TK2, TK1. reflexivity. }
    destruct (Listener.finally_clause en history t5) as [[[u|e] t6] e6];
      intros H; [|discriminate H].
    injection H as _ <-.
    auto 20 using in_or_app, in_eq, in_cons. }
  unfold r. rewrite R1. unfold outcome, final, events. cbn [fst snd].
  split; [reflexivity|]. split; [exact Hprint|]. split.
  - intros n. cbn [Listener.reconnect_loop].
    rewrite (bind_ok _ _ _ _ _ _ R1). cbv beta.
    destruct (Listener.reconnect_loop en host port history n s1) as [[r3 s3] ev3].
    reflexivity.
  - cbn [Listener.reconnect_loop].
    rewrite (bind_ok _ _ _ _ _ _ R1). cbv beta.
    destruct r2 as [x|e].
    + rewrite (bind_ok _ _ _ _ _ _ R2). unfold after, ret. cbn [snd].
      apply in_or_app. right. apply in_or_app. left. exact Hconn.
    + rewrite (bind_raise _ _ _ _ _ _ R2). unfold after. cbn [snd].
      apply in_or_app. right. exact Hconn.
Qed.

(* ================================================================== *)
(** * One transport at a time *)
(* ================================================================== *)

Lemma scoped_absorb (open : list nat) (evs : list event) :
  scoped open evs = (length open <=? 1)%nat && scoped open evs.
Proof. destruct evs; simpl; destruct (length open <=? 1)%nat; reflexivity. Qed.

Lemma scoped_net (evs : list event) :
  forall open, scoped open evs = scoped open (net_events evs).
Proof.
  unfold net_events.
  induction evs as [|ev evs IH]; intros open; [reflexivity|].
  destruct ev; cbn [filter is_net scoped step_open];
    try (rewrite <- IH; symmetry; apply scoped_absorb);
    try (destruct open; rewrite ?IH; reflexivity);
    try (rewrite IH; reflexivity).
Qed.

Lemma open_after_net (evs : list event) :
  forall open, open_after open evs = open_after open (net_events evs).
Proof.
  unfold net_events.
  induction evs as [|ev evs IH]; intros open; [reflexivity|].
  destruct ev; cbn [filter is_net open_after step_open]; rewrite ?IH; try reflexivity.
Qed.

Lemma open_after_app (a b : list event) :
  forall open, open_after open (a ++ b) = open_after (open_after open a) b.
Proof. induction a as [|ev a IH]; intros open; simpl; [reflexivity | apply IH]. Qed.

Lemma scoped_app (a b : list event) :
  forall open, scoped open (a ++ b) = scoped open a && scoped (open_after open a) b.
Proof.
  induction a as [|ev a IH]; intros open.
  - simpl. rewrite andb_true_r. apply scoped_absorb.
  - cbn [app scoped open_after].
    destruct ev; try (rewrite IH, andb_assoc; reflexivity).
    destruct open; [rewrite IH, andb_assoc; reflexivity|].
    rewrite andb_false_r. reflexivity.
Qed.

Lemma delays_cases (x : option exn) : delays x = [] \/ delays x = [EvSleep 5].
Proof.
  destruct x as [e|]; [|left; reflexivity]. unfold delays.
  destruct (isinstance e IncompleteReadError); [left; reflexivity|].
  destruct (isinstance e Exception); [right | left]; reflexivity.
Qed.

Lemma drop_conn_same (c : nat) : drop_conn c [c] = [].
Proof. unfold drop_conn. simpl. rewrite Nat.eqb_refl. reflexivity. Qed.

Section ListenerScoped.

Variable en : env.
Variable host : string.
Variable port : Z.
Variable history : string.

(** A turn that starts with no transport open keeps to one transport and
    ends with none open. *)
Lemma iteration_scoped (s : state Listener.vars) :
  none_open (st_world s) ->
  scoped [] (events (Listener.iteration en host port history s)) = true /\
  open_after [] (events (Listener.iteration en host port history s)) = [] /\
  none_open (st_world (final (Listener.iteration en host port history s))).
Proof.
  intros Hn.
  destruct (iteration_run en host port history s)
    as (r & s' & ev & R & _ & _ & N & Hn').
  rewrite R. unfold events, final. cbn [fst snd].
  rewrite scoped_net, open_after_net, N.
  split; [|split; [|apply Hn'; exact Hn]].
  - destruct (net en (w_attempts (st_world s))) as [sc|e].
    + destruct (delays_cases (stream_error (cs_incoming sc))) as [-> | ->];
        destruct (cs_lost sc); simpl; rewrite ?Nat.eqb_refl; reflexivity.
    + destruct (delays_cases (Some e)) as [-> | ->];
        destruct (Listener.writer (st_vars s)) as [c|]; try reflexivity;
        unfold closing_events; rewrite (Hn c); reflexivity.
  - destruct (net en (w_attempts (st_world s))) as [sc|e].
    + destruct (delays_cases (stream_error (cs_incoming sc))) as [-> | ->];
        destruct (cs_lost sc); simpl; rewrite ?Nat.eqb_refl; reflexivity.
    + destruct (delays_cases (Some e)) as [-> | ->];
        destruct (Listener.writer (st_vars s)) as [c|]; try reflexivity;
        unfold closing_events; rewrite (Hn c); reflexivity.
Qed.

Lemma reconnect_loop_scoped (n : nat) :
  forall s : state Listener.vars,
    none_open (st_world s) ->
    scoped [] (events (Listener.reconnect_loop en host port history n s)) = true /\
    open_after [] (events (Listener.reconnect_loop en host port history n s)) = [].
Proof.
  induction n as [|n IH]; intros s Hn; [split; reflexivity|].
  cbn [Listener.reconnect_loop].
  destruct (iteration_scoped s Hn) as (S1 & O1 & N1).
  unfold events, final in *.
  destruct (Listener.iteration en host port history s) as [[[x|e] s1] ev1] eqn:R1;
    cbn [fst snd] in *.
  - rewrite (bind_ok _ _ _ _ _ _ R1). cbv beta.
    destruct (IH s1 N1) as (S2 & O2).
    destruct (Listener.reconnect_loop en host port history n s1) as [[r2 s2] ev2].
    unfold after. cbn [fst snd] in *.
    rewrite scoped_app, open_after_app, S1, O1. split; assumption.
  - rewrite (bind_raise _ _ _ _ _ _ R1). cbn [fst snd]. split; assumption.
Qed.

End ListenerScoped.

(* ================================================================== *)
(** * The sender: steps that leave the connections alone *)
(* ================================================================== *)

Lemma keeps_weaken {L A} (R R' : state L -> state L -> Prop) (P : list event -> Prop)
    (m : M L A) :
  (forall s s', R s s' -> R' s s') -> keeps R P m -> keeps R' P m.
Proof. intros HR Hm s. destruct (Hm s) as [H1 H2]. split; [apply HR|]; assumption. Qed.

(** Taking a computation apart, with the lemmas on its parts in the hint
    database [calm]. *)
Ltac keeps_go rr rt pn pa :=
  repeat first
    [ solve [auto with calm]
    | apply (keeps_ret _ _ rr pn)
    | apply (keeps_raise _ _ rr pn)
    | apply (keeps_get_world _ _ rr pn)
    | apply (keeps_get_vars _ _ rr pn)
    | match goal with
      | |- keeps _ _ (let _ := _ in _) => cbv zeta
      | |- keeps _ _ (if ?b then _ else _) => destruct b
      | |- keeps _ _ (match ?x with _ => _ end) => destruct x
      | |- keeps _ _ (bind _ _) => apply (keeps_bind _ _ rt pa); [ | intro ]
      | |- keeps _ _ (try_finally _ _) => apply (keeps_try_finally _ _ rt pa)
      | |- keeps _ _ (try_except _ _) =>
          let e := fresh "e" in
          let h := fresh "h" in
          let Hh := fresh "Hh" in
          apply (keeps_try_except _ _ rt pa); [ | intros e h Hh; handler_cases Hh ]
      end ].

Lemma steady_refl (s : state Sender.vars) : steady s s.
Proof. repeat split. Qed.

Lemma steady_trans (s1 s2 s3 : state Sender.vars) :
  steady s1 s2 -> steady s2 s3 -> steady s1 s3.
Proof.
  unfold steady. intros (A1 & A2 & A3) (B1 & B2 & B3). repeat split; congruence.
Qed.

Lemma still_steady (s s' : state Sender.vars) : still s s' -> steady s s'.
Proof. intros (V & A & F). repeat split; try assumption. now rewrite V. Qed.

Lemma quiet_of_calm {A} (m : Sender.Mv A) : calm m -> quiet m.
Proof. apply keeps_weaken. exact still_steady. Qed.

Ltac quiet_go :=
  repeat first
    [ solve [apply quiet_of_calm; auto with calm]
    | keeps_go steady_refl steady_trans silent_nil silent_app ].

Section SenderQuiet.

Variable en : env.
Variable lib : pylib.
Variable hash_file : string.

Lemma quiet_set_account_hash (h : json) : quiet (Sender.set_account_hash h).
Proof. intros s. repeat split. Qed.

Lemma quiet_set_nickname (n : json) : quiet (Sender.set_nickname n).
Proof. intros s. repeat split. Qed.

Lemma quiet_decode (b : wire) : quiet (Sender.decode b).
Proof. unfold Sender.decode. quiet_go. Qed.

Lemma quiet_getitem (v : json) (k : string) : quiet (Sender.getitem v k).
Proof. unfold Sender.getitem. quiet_go. Qed.

Lemma quiet_loads (t : string) : quiet (Sender.loads lib t).
Proof. unfold Sender.loads. quiet_go. Qed.

Hint Resolve quiet_set_account_hash quiet_set_nickname quiet_decode quiet_getitem
  quiet_loads : calm.

Lemma quiet_save_hash (v : json) : quiet (Sender.save_hash en hash_file v).
Proof. unfold Sender.save_hash. quiet_go. Qed.

Hint Resolve quiet_save_hash : calm.

Lemma quiet_load_hash : quiet (Sender.load_hash en hash_file).
Proof. unfold Sender.load_hash. quiet_go. Qed.

Lemma quiet_register_account (c : nat) :
  quiet (Sender.register_account en lib hash_file c).
Proof. unfold Sender.register_account. quiet_go. Qed.

Lemma quiet_login_with_hash (c : nat) : quiet (Sender.login_with_hash lib c).
Proof. unfold Sender.login_with_hash. quiet_go. Qed.

Lemma quiet_send_message (c : nat) (m : string) : quiet (Sender.send_message c m).
Proof. unfold Sender.send_message. quiet_go. Qed.

Hint Resolve quiet_send_message : calm.

Lemma quiet_message_turn (c : nat) : quiet (Sender.message_turn c).
Proof. unfold Sender.message_turn. quiet_go. Qed.

Lemma quiet_message_loop (fuel c : nat) : quiet (Sender.message_loop fuel c).
Proof.
  induction fuel as [|fuel IH]; cbn [Sender.message_loop]; [quiet_go|].
  apply (keeps_bind _ _ steady_trans silent_app); [apply quiet_message_turn|].
  intros how. destruct how; solve [apply IH | quiet_go].
Qed.

Hint Resolve quiet_message_loop : calm.

Lemma quiet_exchange (c : nat) : quiet (Sender.exchange c).
Proof. unfold Sender.exchange. quiet_go. Qed.

End SenderQuiet.

Lemma conn_update_length (l : list transport) (c : nat) (f : transport -> transport) :
  length (conn_update l c f) = length l.
Proof.
  revert c. induction l as [|t l IH]; intros c; simpl.
  - destruct c; reflexivity.
  - destruct c; simpl; [reflexivity | now rewrite IH].
Qed.

Lemma steady_only_open (s s' : state Sender.vars) (c : nat) :
  steady s s' -> only_open (st_world s) c -> only_open (st_world s') c.
Proof.
  intros (_ & _ & F) Ho c' Hc'. rewrite (flags_open _ _ c' F). apply (Ho c' Hc').
Qed.

Lemma steady_none_open (s s' : state Sender.vars) :
  steady s s' -> none_open (st_world s) -> none_open (st_world s').
Proof. intros (_ & _ & F). apply flags_none_open. exact F. Qed.

(* ================================================================== *)
(** * The claims on the transports *)
(* ================================================================== *)

Lemma calm_ensure_log_file (en : env) (f : string) : calm (Listener.ensure_log_file en f).
Proof. unfold Listener.ensure_log_file. calm_all. Qed.

Lemma minechat_client_scoped (en : env) (n : nat) (host : string) (port : Z)
    (history : string) (s : state Listener.vars) :
  none_open (st_world s) ->
  scoped [] (events (Listener.minechat_client en n host port history s)) = true /\
  open_after [] (events (Listener.minechat_client en n host port history s)) = [].
Proof.
  intros Hn. unfold Listener.minechat_client.
  destruct (calm_ensure_log_file en history s) as [St N1].
  unfold final, events, silent in St, N1.
  destruct (Listener.ensure_log_file en history s) as [[[u|e] s1] ev1] eqn:R1;
    cbn [fst snd] in St, N1.
  - rewrite (bind_ok _ _ _ _ _ _ R1). cbv beta.
    set (s2 := mkState (st_world s1) (Listener.mkVars None None)).
    rewrite (bind_ok _ _ _ _ _ _
               (eq_refl : put_vars (Listener.mkVars None None) s1 = (Ok tt, s2, []))).
    cbv beta.
    destruct (reconnect_loop_scoped en host port history n s2
                (still_none_open _ _ St Hn)) as [S2 O2].
    unfold events in *.
    destruct (Listener.reconnect_loop en host port history n s2) as [[r3 s3] ev3].
    unfold after. cbn [fst snd app] in *.
    rewrite scoped_app, open_after_app.
    rewrite (scoped_net ev1), (open_after_net ev1), N1. simpl open_after.
    rewrite S2, O2. split; reflexivity.
  - rewrite (bind_raise _ _ _ _ _ _ R1). unfold events. cbn [fst snd].
    rewrite scoped_net, open_after_net, N1. split; reflexivity.
Qed.

(* ================================================================== *)
(** * The message source: one request, one acknowledgement *)
(* ================================================================== *)

Section SenderSteps.

Context {L : Type}.

(** [input()] with a line typed. *)
Lemma input_run (p t : string) (rest : list input_event) (s : state L) :
  w_stdin (st_world s) = Typed t :: rest ->
  exists s',
    input p s = (Ok t, s', [EvInput p]) /\
    w_stdin (st_world s') = rest /\
    w_conns (st_world s') = w_conns (st_world s) /\
    w_files (st_world s') = w_files (st_world s) /\
    st_vars s' = st_vars s.
Proof.
  intros H. destruct s as [w v]. simpl in H.
  unfold input, bind, emit, get_world, put_world, ret. simpl. rewrite H. simpl.
  eexists. split; [reflexivity|]. repeat split.
Qed.

(** [drain()] with nothing going wrong. *)
Lemma drain_ok (c : nat) (s : state L) :
  t_drain (conn_get (st_world s) c) = [] -> drain c s = (Ok tt, s, [EvDrain c]).
Proof.
  intros H. destruct s as [w v]. simpl in H.
  unfold drain, bind, emit, get_world, ret. simpl. rewrite H. reflexivity.
Qed.

End SenderSteps.

(** A turn of the loop on a line that is blank once stripped. *)
Lemma message_turn_stops (c : nat) (stop : string) (more : list input_event)
    (s : state Sender.vars) :
  w_stdin (st_world s) = Typed stop :: more ->
  PyStr.truthy (PyStr.strip stop) = false ->
  exists s1,
    Sender.message_turn c s = (Ok Break, s1, [EvInput "> "]) /\
    w_stdin (st_world s1) = more /\
    w_conns (st_world s1) = w_conns (st_world s).
Proof.
  intros Hin Hstop.
  destruct (input_run "> " stop more s Hin) as (s1 & R1 & I1 & C1 & _).
  exists s1. split; [|split; assumption].
  unfold Sender.message_turn, try_except.
  rewrite (bind_ok _ _ _ _ _ _ R1). cbv beta zeta. rewrite Hstop. reflexivity.
Qed.

(** A turn of the loop on a line that is not, the server answering [a]. *)
Lemma message_turn_sends (c : nat) (t a : string) (rest : list input_event)
    (later : list read_event) (s : state Sender.vars) :
  w_stdin (st_world s) = Typed t :: rest ->
  PyStr.truthy (PyStr.strip t) = true ->
  t_incoming (conn_get (st_world s) c) = Line (Utf8 a) :: later ->
  t_drain (conn_get (st_world s) c) = [] ->
  exists s2,
    Sender.message_turn c s = (Ok Normal, s2, round_trip c (t, a)) /\
    w_stdin (st_world s2) = rest /\
    t_incoming (conn_get (st_world s2) c) = later /\
    t_drain (conn_get (st_world s2) c) = [].
Proof.
  intros Hin Ht Hsrv Hdr.
  destruct (input_run "> " t rest s Hin) as (s1 & R1 & I1 & C1 & _).
  assert (Hsrv1 : t_incoming (conn_get (st_world s1) c) = Line (Utf8 a) :: later)
    by (unfold conn_get in *; rewrite C1; exact Hsrv).
  assert (Hdr1 : t_drain (conn_get (st_world s1) c) = [])
    by (unfold conn_get in *; rewrite C1; exact Hdr).
  destruct (readline_run c s1 _ _ Hsrv1) as (s2 & R2 & Hrest & D2 & _ & _ & _ & _ & I2).
  exists s2. split; [|split; [rewrite I2; exact I1 | split; [exact Hrest | now rewrite D2]]].
  unfold Sender.message_turn, try_except.
  rewrite (bind_ok _ _ _ _ _ _ R1). cbv beta zeta. rewrite Ht. cbn [negb].
  unfold Sender.send_message.
  assert (Hsend :
    (write c (PyStr.strip t ++ PyStr.nl) ;;
     drain c ;;
     response <- readline c ;;
     r <- Sender.decode response ;;
     print (PyStr.strip r)) s1
    = (Ok tt, s2, [EvWrite c (PyStr.strip t ++ PyStr.nl); EvDrain c; EvRead c;
                   EvPrint (PyStr.strip a)])).
  { rewrite (bind_ok _ _ _ _ _ _ (eq_refl : write c _ s1 = (Ok tt, s1, [_]))). cbv beta.
    rewrite (bind_ok _ _ _ _ _ _ (drain_ok c s1 Hdr1)). cbv beta.
    rewrite (bind_ok _ _ _ _ _ _ R2). cbv beta.
    reflexivity. }
  rewrite (bind_ok _ _ _ _ _ _ Hsend). reflexivity.
Qed.

(** C6 (amended).  In the exchange of messages, with a server that answers
    every message by one line: for every line of the operator that is not
    empty once the white space around it is stripped, the sender sends the
    stripped line, reads exactly one line from the server and displays it,
    and only then asks for the next line; the first line that is empty once
    stripped ends the loop, without error and without anything being sent. *)
Theorem one_acknowledgement_per_message :
  forall (texts acks : list string) (stop : string) (more : list input_event)
         (later : list read_event) (fuel c : nat) (s : state Sender.vars),
    length acks = length texts ->
    Forall (fun t => PyStr.truthy (PyStr.strip t) = true) texts ->
    PyStr.truthy (PyStr.strip stop) = false ->
    w_stdin (st_world s) = (map Typed texts ++ Typed stop :: more)%list ->
    t_incoming (conn_get (st_world s) c)
      = (map (fun a => Line (Utf8 a)) acks ++ later)%list ->
    t_drain (conn_get (st_world s) c) = [] ->
    length texts < fuel ->
    let r := Sender.message_loop fuel c s in
    outcome r = Ok tt /\
    events r = (flat_map (round_trip c) (combine texts acks) ++ [EvInput "> "])%list /\
    w_stdin (st_world (final r)) = more /\
    t_incoming (conn_get (st_world (final r)) c) = later.
Proof.
  induction texts as [|t texts IH];
    intros acks stop more later fuel c s Hlen Hne Hstop Hin Hsrv Hdr Hfuel r; subst r;
    (destruct fuel as [|fuel]; [simpl in Hfuel; lia|]);
    cbn [Sender.message_loop].
  - destruct acks; [|discriminate Hlen]. simpl in Hin, Hsrv.
    destruct (message_turn_stops c stop more s Hin Hstop) as (s1 & R1 & I1 & C1).
    rewrite (bind_ok _ _ _ _ _ _ R1). cbv beta iota.
    unfold after, ret, outcome, events, final. cbn [fst snd].
    repeat split; try assumption.
    unfold conn_get in *. rewrite C1. exact Hsrv.
  - destruct acks as [|a acks]; [discriminate Hlen|].
    simpl in Hin, Hsrv, Hlen, Hfuel.
    inversion Hne as [|t' texts' Ht Hts]; subst.
    destruct (message_turn_sends c t a _ _ s Hin Ht Hsrv Hdr)
      as (s2 & R2 & I2 & S2 & D2).
    rewrite (bind_ok _ _ _ _ _ _ R2). cbv beta iota.
    destruct (IH acks stop more later fuel c s2 ltac:(lia) Hts Hstop I2 S2 D2
                ltac:(lia)) as (O3 & E3 & I3 & S3).
    unfold outcome, events, final in *.
    destruct (Sender.message_loop fuel c s2) as [[r3 s3] ev3].
    unfold after. cbn [fst snd] in *.
    subst ev3. repeat split; assumption.
Qed.

(* ================================================================== *)
(** * The credential file: who writes it *)
(* ================================================================== *)

Lemma unwritten_refl {L} (s : state L) : unwritten s s.
Proof. reflexivity. Qed.

Lemma unwritten_trans {L} (s1 s2 s3 : state L) :
  unwritten s1 s2 -> unwritten s2 s3 -> unwritten s1 s3.
Proof. unfold unwritten. congruence. Qed.

Lemma any_events_nil : any_events [].
Proof. exact I. Qed.

Lemma any_events_app (a b : list event) : any_events a -> any_events b -> any_events (a ++ b).
Proof. intros _ _. exact I. Qed.

(** A library call that leaves the files alone, by running it. *)
Ltac reads_only_prim :=
  let w := fresh "w" in
  let v := fresh "v" in
  intros [w v];
  unfold bind, emit, get_world, put_world, get_vars, put_vars, ret, raise,
    final, events; simpl;
  repeat match goal with
         | |- context [match ?x with _ => _ end] =>
             lazymatch x with
             | context [match _ with _ => _ end] => fail
             | _ => destruct x; simpl
             end
         end;
  split; reflexivity || exact I.

Section ReadsOnly.

Context {L : Type}.
Variable en : env.

Lemma reads_only_print (t : string) : reads_only (@print L t).
Proof. reads_only_prim. Qed.

Lemma reads_only_readline (c : nat) : reads_only (@readline L c).
Proof. unfold readline. reads_only_prim. Qed.

Lemma reads_only_write (c : nat) (d : string) : reads_only (@write L c d).
Proof. reads_only_prim. Qed.

Lemma reads_only_drain (c : nat) : reads_only (@drain L c).
Proof. unfold drain. reads_only_prim. Qed.

Lemma reads_only_input (p : string) : reads_only (@input L p).
Proof. unfold input. reads_only_prim. Qed.

Lemma reads_only_is_closing (c : nat) : reads_only (@is_closing L c).
Proof. unfold is_closing. reads_only_prim. Qed.

Lemma reads_only_close (c : nat) : reads_only (@close L c).
Proof. unfold close. reads_only_prim. Qed.

Lemma reads_only_wait_closed (c : nat) : reads_only (@wait_closed L c).
Proof. unfold wait_closed. reads_only_prim. Qed.

Lemma reads_only_open_connection (t : option nat) : reads_only (@open_connection L en t).
Proof. unfold open_connection. reads_only_prim. Qed.

Lemma reads_only_path_exists (p : string) : reads_only (@path_exists L p).
Proof. unfold path_exists. reads_only_prim. Qed.

Lemma reads_only_open_r (p : string) : reads_only (@open_r L en p).
Proof. unfold open_r, file_attempt. reads_only_prim. Qed.

Lemma reads_only_f_read (p : string) : reads_only (@f_read L en p).
Proof. unfold f_read, file_attempt. reads_only_prim. Qed.

End ReadsOnly.

#[export] Hint Resolve reads_only_print reads_only_readline reads_only_write
  reads_only_drain reads_only_input reads_only_is_closing reads_only_close
  reads_only_wait_closed reads_only_open_connection reads_only_path_exists
  reads_only_open_r reads_only_f_read : calm.

Ltac reads_only_go :=
  keeps_go (@unwritten_refl Sender.vars) (@unwritten_trans Sender.vars)
           any_events_nil any_events_app.

Section SenderReadsOnly.

Variable en : env.
Variable lib : pylib.
Variable hash_file : string.

Lemma reads_only_set_account_hash (h : json) : reads_only (Sender.set_account_hash h).
Proof. unfold Sender.set_account_hash. reads_only_prim. Qed.

Lemma reads_only_set_nickname (n : json) : reads_only (Sender.set_nickname n).
Proof. unfold Sender.set_nickname. reads_only_prim. Qed.

Lemma reads_only_set_writer (c : nat) : reads_only (Sender.set_writer c).
Proof. unfold Sender.set_writer. reads_only_prim. Qed.

Lemma reads_only_decode (b : wire) : reads_only (Sender.decode b).
Proof. unfold Sender.decode. reads_only_go. Qed.

Lemma reads_only_getitem (v : json) (k : string) : reads_only (Sender.getitem v k).
Proof. unfold Sender.getitem. reads_only_go. Qed.

Lemma reads_only_loads (t : string) : reads_only (Sender.loads lib t).
Proof. unfold Sender.loads. reads_only_go. Qed.

Hint Resolve reads_only_set_account_hash reads_only_set_nickname reads_only_set_writer
  reads_only_decode reads_only_getitem reads_only_loads : calm.

(** [load_hash] only reads the file. *)
Lemma reads_only_load_hash : reads_only (Sender.load_hash en hash_file).
Proof. unfold Sender.load_hash. reads_only_go. Qed.

(** [login_with_hash] does not touch the files, however it ends. *)
Lemma reads_only_login_with_hash (c : nat) : reads_only (Sender.login_with_hash lib c).
Proof. unfold Sender.login_with_hash. reads_only_go. Qed.

Lemma reads_only_send_message (c : nat) (m : string) :
  reads_only (Sender.send_message c m).
Proof. unfold Sender.send_message. reads_only_go. Qed.

Hint Resolve reads_only_send_message : calm.

Lemma reads_only_message_turn (c : nat) : reads_only (Sender.message_turn c).
Proof. unfold Sender.message_turn. reads_only_go. Qed.

Lemma reads_only_message_loop (fuel c : nat) : reads_only (Sender.message_loop fuel c).
Proof.
  induction fuel as [|fuel IH]; cbn [Sender.message_loop]; [reads_only_go|].
  apply (keeps_bind _ _ (@unwritten_trans Sender.vars) any_events_app);
    [apply reads_only_message_turn|].
  intros how. destruct how; solve [apply IH | reads_only_go].
Qed.

Hint Resolve reads_only_message_loop : calm.

Lemma reads_only_exchange (c : nat) : reads_only (Sender.exchange c).
Proof. unfold Sender.exchange. reads_only_go. Qed.

Lemma reads_only_finally_clause : reads_only Sender.finally_clause.
Proof. unfold Sender.finally_clause. reads_only_go. Qed.

End SenderReadsOnly.

Section SenderConnect.

Variable en : env.
Variable lib : pylib.
Variable host : string.
Variable port : Z.
Variable hash_file : string.

(** [writer.close()] on any state. *)
Lemma close_run (c : nat) (s : state Sender.vars) :
  close c s =
    (Ok tt,
     mkState (set_conns (st_world s) (conn_update (w_conns (st_world s)) c
                (fun t => mkTransport (t_incoming t) (t_drain t) (t_lost t) true)))
             (st_vars s),
     [EvClose c]).
Proof. reflexivity. Qed.

(** [save_hash] never raises. *)
Lemma save_hash_total (v : json) (s : state Sender.vars) :
  exists s' ev, Sender.save_hash en hash_file v s = (Ok tt, s', ev).
Proof.
  destruct s as [w vs].
  unfold Sender.save_hash, try_except, open_w, f_write, file_attempt, print, bind,
    emit, get_world, put_world, ret, raise. simpl.
  destruct (fs_error en (w_opens w)); simpl; [do 2 eexists; reflexivity|].
  destruct v as [| | | |t| |]; simpl; try (do 2 eexists; reflexivity).
  destruct (PyStr.truthy t); simpl; [|do 2 eexists; reflexivity].
  destruct (fs_error en (S (w_opens w))); simpl; do 2 eexists; reflexivity.
Qed.

Lemma writes_last_bind {A B} (m : Sender.Mv A) (k : A -> Sender.Mv B) :
  reads_only m -> (forall a, writes_last (k a)) -> writes_last (bind m k).
Proof.
  intros Hm Hk s e. unfold bind, outcome, final.
  destruct (Hm s) as [U _]. unfold final in U.
  destruct (m s) as [[[a|e1] s1] ev1]; cbn [fst snd] in *.
  - specialize (Hk a s1 e). unfold outcome, final in Hk.
    destruct (k a s1) as [[r2 s2] ev2]; cbn [fst snd] in *.
    intros H. eapply unwritten_trans; [exact U | apply Hk; exact H].
  - intros _. exact U.
Qed.

(** [register_account] writes the file as its last step: when it raises, no
    file has been written. *)
Lemma register_account_writes_last (c : nat) :
  writes_last (Sender.register_account en lib hash_file c).
Proof.
  unfold Sender.register_account.
  repeat (cbv zeta; apply writes_last_bind;
          [ solve [auto with calm
                  | apply reads_only_decode
                  | apply reads_only_loads
                  | apply reads_only_getitem ]
          | intro ]).
  intros s e. unfold bind, outcome.
  match goal with
  | |- context [Sender.save_hash en hash_file ?v s] =>
      destruct (save_hash_total v s) as (s' & ev & ->)
  end.
  simpl. discriminate.
Qed.

(** [connect_and_auth]: its connection events (one connection for the
    log-in and, after it is closed, a second one for the registration), the
    transport it returns, and whether the files may have been written. *)
Lemma connect_and_auth_run (s : state Sender.vars) :
  exists r s' ev c2,
    Sender.connect_and_auth en lib host port hash_file s = (r, s', ev) /\
    Sender.writer (st_vars s') = Sender.writer (st_vars s) /\
    c2 = S (length (w_conns (st_world s))) /\
    ((net_events ev = [EvConnect (w_attempts (st_world s)) None] /\
      (none_open (st_world s) -> none_open (st_world s')) /\
      (exists e, r = Raise e) /\ unwritten s s')
     \/
     (net_events ev = [EvConnect (w_attempts (st_world s)) None;
                       EvOpened (length (w_conns (st_world s)))] /\
      (none_open (st_world s) -> only_open (st_world s') (length (w_conns (st_world s)))) /\
      (r = Ok (length (w_conns (st_world s))) \/ exists e, r = Raise e) /\
      unwritten s s')
     \/
     (net_events ev = [EvConnect (w_attempts (st_world s)) None;
                       EvOpened (length (w_conns (st_world s)));
                       EvClose (length (w_conns (st_world s)));
                       EvConnect (S (w_attempts (st_world s))) None] /\
      (none_open (st_world s) -> none_open (st_world s')) /\
      (exists e, r = Raise e) /\ unwritten s s')
     \/
     (net_events ev = [EvConnect (w_attempts (st_world s)) None;
                       EvOpened (length (w_conns (st_world s)));
                       EvClose (length (w_conns (st_world s)));
                       EvConnect (S (w_attempts (st_world s))) None;
                       EvOpened c2] /\
      (none_open (st_world s) -> only_open (st_world s') c2) /\
      (r = Ok c2 \/ ((exists e, r = Raise e) /\ unwritten s s')))).
Proof.
  unfold Sender.connect_and_auth.
  rewrite (bind_ok _ _ _ _ _ _ (eq_refl : print _ s = (Ok tt, s, [_]))). cbv beta.
  destruct (net en (w_attempts (st_world s))) as [sc|e] eqn:Hnet.
  2:{ destruct (open_connection_fails en None s e Hnet)
        as (s1 & R1 & V1 & A1 & C1 & W1 & _).
      rewrite (bind_raise _ _ _ _ _ _ R1). unfold after.
      exists (Raise e), s1. do 2 eexists.
      split; [reflexivity|]. split; [now rewrite V1|]. split; [reflexivity|]. left.
      split; [reflexivity|]. split; [|split; [eexists; reflexivity | exact W1]].
      apply flags_none_open. unfold flags. now rewrite C1. }
  destruct (open_connection_succeeds en None s sc Hnet)
    as (s1 & R1 & V1 & A1 & C1 & W1 & _).
  set (c1 := length (w_conns (st_world s))) in *.
  rewrite (bind_ok _ _ _ _ _ _ R1). cbv beta.
  rewrite (bind_ok _ _ _ _ _ _ (eq_refl : print _ s1 = (Ok tt, s1, [_]))). cbv beta.
  rewrite (bind_ok _ _ _ _ _ _ (eq_refl : get_vars s1 = (Ok (st_vars s1), s1, []))).
  cbv beta.
  assert (F1 : flags (st_world s1) = (flags (st_world s) ++ [(cs_lost sc, false)])%list)
    by (unfold flags; rewrite C1, map_app; reflexivity).
  assert (O1 : none_open (st_world s) -> only_open (st_world s1) c1)
    by (intros Hn; apply (proj1 (opened_only_open _ _ _ F1 Hn))).
  (* the log-in, if any *)
  assert (Hlogin : exists r2 s2 ev2,
    (if json_truthy (Sender.account_hash (st_vars s1))
     then Sender.login_with_hash lib c1 else ret false) s1 = (r2, s2, ev2) /\
    steady s1 s2 /\ net_events ev2 = [] /\ unwritten s1 s2).
  { destruct (json_truthy (Sender.account_hash (st_vars s1))).
    - destruct (quiet_login_with_hash lib c1 s1) as [St Si].
      destruct (reads_only_login_with_hash lib c1 s1) as [U _].
      unfold final, events in *.
      destruct (Sender.login_with_hash lib c1 s1) as [[r2 s2] ev2].
      exists r2, s2, ev2. repeat split; try apply St; assumption.
    - exists (Ok false), s1, []. repeat split. }
  destruct Hlogin as (r2 & s2 & ev2 & R2 & St2 & N2 & U2).
  assert (O2 : none_open (st_world s) -> only_open (st_world s2) c1)
    by (intros Hn; apply (steady_only_open _ _ c1 St2 (O1 Hn))).
  assert (Us2 : unwritten s s2) by (unfold unwritten in *; now rewrite U2, W1).
  destruct St2 as (W2 & A2 & F2).
  destruct r2 as [[|]|e2].
  - (* logged in *)
    rewrite (bind_ok _ _ _ _ _ _ R2). cbv beta. unfold after, ret.
    exists (Ok c1), s2. do 2 eexists. split; [reflexivity|].
    split; [rewrite W2, V1; reflexivity|]. split; [reflexivity|]. right. left.
    split; [net_simpl; reflexivity|]. split; [exact O2|].
    split; [left; reflexivity | exact Us2].
  - (* not logged in: close, connect again, register *)
    rewrite (bind_ok _ _ _ _ _ _ R2). cbv beta.
    rewrite (bind_ok _ _ _ _ _ _ (close_run c1 s2)). cbv beta.
    set (s3 := mkState _ (st_vars s2)).
    assert (N3 : none_open (st_world s) -> none_open (st_world s3))
      by (intros Hn; apply close_none_open; exact (O2 Hn)).
    rewrite (bind_ok _ _ _ _ _ _ (eq_refl : wait_closed c1 s3 = (Ok tt, s3, []))).
    cbv beta.
    rewrite (bind_ok _ _ _ _ _ _ (eq_refl : print _ s3 = (Ok tt, s3, [_]))). cbv beta.
    assert (A3 : w_attempts (st_world s3) = S (w_attempts (st_world s)))
      by (simpl; rewrite A2; exact A1).
    assert (L3 : length (w_conns (st_world s3)) = S c1).
    { simpl. rewrite conn_update_length, <- flags_length, F2, flags_length, C1.
      rewrite length_app. simpl. unfold c1. lia. }
    destruct (net en (w_attempts (st_world s3))) as [sc2|e] eqn:Hnet2.
    2:{ destruct (open_connection_fails en None s3 e Hnet2)
          as (s4 & R4 & V4 & A4 & C4 & W4 & _).
        rewrite (bind_raise _ _ _ _ _ _ R4). unfold after.
        exists (Raise e), s4. do 2 eexists. split; [reflexivity|].
        split; [rewrite V4; simpl; rewrite W2, V1; reflexivity|].
        split; [reflexivity|].
        right. right. left.
        split; [net_simpl; rewrite A3; reflexivity|].
        split; [|split; [eexists; reflexivity|]].
        - intros Hn. apply (flags_none_open (st_world s3));
            [unfold flags; now rewrite C4 | exact (N3 Hn)].
        - unfold unwritten in *. rewrite W4. simpl. exact Us2. }
    destruct (open_connection_succeeds en None s3 sc2 Hnet2)
      as (s4 & R4 & V4 & A4 & C4 & W4 & _).
    rewrite L3 in R4.
    rewrite (bind_ok _ _ _ _ _ _ R4). cbv beta.
    assert (F4 : flags (st_world s4) = (flags (st_world s3) ++ [(cs_lost sc2, false)])%list)
      by (unfold flags; rewrite C4, map_app; reflexivity).
    assert (O4 : none_open (st_world s) -> only_open (st_world s4) (S c1)).
    { intros Hn. rewrite <- L3. apply (proj1 (opened_only_open _ _ _ F4 (N3 Hn))). }
    assert (Us4 : unwritten s s4)
      by (unfold unwritten in *; rewrite W4; simpl; exact Us2).
    destruct (quiet_register_account en lib hash_file (S c1) s4) as [St5 N5].
    pose proof (register_account_writes_last (S c1) s4) as U5.
    unfold final, events, outcome, silent in St5, N5, U5.
    destruct (Sender.register_account en lib hash_file (S c1) s4)
      as [[r5 s5] ev5] eqn:R5.
    cbn [fst snd] in St5, N5, U5.
    assert (O5 : none_open (st_world s) -> only_open (st_world s5) (S c1))
      by (intros Hn; apply (steady_only_open _ _ (S c1) St5 (O4 Hn))).
    destruct St5 as (W5 & _ & F5).
    assert (Wr : Sender.writer (st_vars s5) = Sender.writer (st_vars s))
      by (rewrite W5, V4; simpl; rewrite W2, V1; reflexivity).
    destruct r5 as [registered|e5].
    + rewrite (bind_ok _ _ _ _ _ _ R5). cbv beta.
      exists (Ok (S c1)). do 3 eexists. split; [reflexivity|].
      split; [exact Wr|]. split; [reflexivity|]. right. right. right.
      split; [net_simpl; rewrite A3; reflexivity|].
      split; [|left; reflexivity].
      intros Hn c' Hc'. apply (O5 Hn c' Hc').
    + rewrite (bind_raise _ _ _ _ _ _ R5). unfold after.
      exists (Raise e5), s5. do 2 eexists. split; [reflexivity|].
      split; [exact Wr|]. split; [reflexivity|]. right. right. right.
      split; [net_simpl; rewrite A3; reflexivity|].
      split; [exact O5|]. right. split; [eexists; reflexivity|].
      eapply unwritten_trans; [exact Us4 | apply (U5 e5 eq_refl)].
  - (* the log-in raised *)
    rewrite (bind_raise _ _ _ _ _ _ R2). unfold after.
    exists (Raise e2), s2. do 2 eexists. split; [reflexivity|].
    split; [rewrite W2, V1; reflexivity|]. split; [reflexivity|]. right. left.
    split; [net_simpl; reflexivity|]. split; [exact O2|].
    split; [right; eexists; reflexivity | exact Us2].
Qed.

End SenderConnect.

Section SenderScoped.

Variable en : env.
Variable lib : pylib.
Variable host : string.
Variable port : Z.
Variable hash_file : string.

Lemma sender_finally_run (s : state Sender.vars) :
  exists s' ev,
    Sender.finally_clause s = (Ok tt, s', ev) /\
    st_vars s' = st_vars s /\
    net_events ev =
      match Sender.writer (st_vars s) with
      | None => []
      | Some c => closing_events (st_world s) c
      end.
Proof.
  unfold Sender.finally_clause, closing_events.
  rewrite (bind_ok _ _ _ _ _ _ (eq_refl : get_vars s = (Ok (st_vars s), s, []))).
  cbv beta.
  destruct (Sender.writer (st_vars s)) as [c|].
  - unfold is_closing, close, wait_closed, print, bind, get_world, put_world, emit, ret.
    simpl. destruct (transport_open (conn_get (st_world s) c)); simpl;
      do 2 eexists; split; try reflexivity; split; reflexivity.
  - do 2 eexists. split; [reflexivity|]. split; reflexivity.
Qed.

(** The sender keeps to one transport at a time, and whenever the handshake
    has returned a transport, whatever happens in the exchange of messages,
    it leaves no transport open. *)
Lemma interactive_mode_scoped (s : state Sender.vars) :
  none_open (st_world s) ->
  Sender.writer (st_vars s) = None ->
  scoped [] (events (Sender.interactive_mode en lib host port hash_file s)) = true /\
  (forall c,
     outcome (Sender.connect_and_auth en lib host port hash_file s) = Ok c ->
     open_after [] (events (Sender.interactive_mode en lib host port hash_file s)) = []).
Proof.
  intros Hn Hw.
  destruct (connect_and_auth_run en lib host port hash_file s)
    as (r & s1 & ev1 & c2 & R1 & W1 & _ & Hcases).
  assert (Hout : outcome (Sender.connect_and_auth en lib host port hash_file s) = r)
    by (rewrite R1; reflexivity).
  rewrite Hout. clear Hout.
  unfold Sender.interactive_mode, try_finally, try_except.
  set (c1 := length (w_conns (st_world s))) in *.
  rewrite Hw in W1.
  (* when the body stops inside [connect_and_auth] *)
  assert (Hstop : forall e,
    r = Raise e ->
    scoped [] (net_events ev1) = true ->
    forall x : result unit * state Sender.vars * list event,
      x = (match (if isinstance e Exception
                  then Some (print ("Ошибка подключения: " ++ e_str e))
                  else None) with
           | Some h => let (p, ev2) := h s1 in let (r0, s2) := p in (r0, s2, (ev1 ++ ev2)%list)
           | None => (Raise e, s1, ev1)
           end) ->
      scoped [] (events (let (p, ev0) := x in
                         let (r0, s0) := p in
                         match Sender.finally_clause s0 with
                         | (Ok _, s2, ev2) => (r0, s2, (ev0 ++ ev2)%list)
                         | (Raise e0, s2, ev2) => (Raise e0, s2, (ev0 ++ ev2)%list)
                         end)) = true).
  { intros e -> Hsc x ->.
    destruct (isinstance e Exception); unfold print, emit; cbn [fst snd];
      (destruct (sender_finally_run s1) as (s2 & ev2 & R2 & V2 & N2);
       rewrite R2; unfold events, final; cbn [fst snd]; rewrite W1 in N2;
       rewrite scoped_net, !net_events_app, N2; simpl; rewrite !app_nil_r;
       exact Hsc). }
  (* when the handshake succeeds on transport [c] *)
  assert (Hgo : forall c,
    r = Ok c ->
    only_open (st_world s1) c ->
    scoped [] (net_events ev1) = true ->
    open_after [] (net_events ev1) = [c] ->
    forall x : result unit * state Sender.vars * list event,
      x = (match after ev1 ((Sender.set_writer c ;; Sender.exchange c) s1) with
           | (Ok a, s2, ev2) => (Ok a, s2, ev2)
           | (Raise e, s2, ev2) =>
               match (if isinstance e Exception
                      then Some (print ("Ошибка подключения: " ++ e_str e))
                      else None) with
               | Some h => let (p, ev3) := h s2 in let (r0, s3) := p in (r0, s3, (ev2 ++ ev3)%list)
               | None => (Raise e, s2, ev2)
               end
           end) ->
      scoped [] (events (let (p, ev0) := x in
                         let (r0, s0) := p in
                         match Sender.finally_clause s0 with
                         | (Ok _, s2, ev2) => (r0, s2, (ev0 ++ ev2)%list)
                         | (Raise e0, s2, ev2) => (Raise e0, s2, (ev0 ++ ev2)%list)
                         end)) = true /\
      open_after [] (events (let (p, ev0) := x in
                         let (r0, s0) := p in
                         match Sender.finally_clause s0 with
                         | (Ok _, s2, ev2) => (r0, s2, (ev0 ++ ev2)%list)
                         | (Raise e0, s2, ev2) => (Raise e0, s2, (ev0 ++ ev2)%list)
                         end)) = []).
  { intros c -> Ho Hsc Hop x ->.
    set (s1w := mkState (st_world s1)
                  (Sender.mkVars (Sender.account_hash (st_vars s1))
                                 (Sender.nickname (st_vars s1)) (Some c))).
    rewrite (bind_ok _ _ _ _ _ _
               (eq_refl : Sender.set_writer c s1 = (Ok tt, s1w, []))). cbv beta.
    destruct (quiet_exchange c s1w) as [(W2 & _ & F2) N2].
    unfold final, events, silent in W2, F2, N2.
    destruct (Sender.exchange c s1w) as [[r2 s2] ev2]. cbn [fst snd] in W2, F2, N2.
    assert (Hclosing : forall s3 : state Sender.vars,
              st_world s3 = st_world s2 -> st_vars s3 = st_vars s2 ->
              exists s4 ev4,
                Sender.finally_clause s3 = (Ok tt, s4, ev4) /\
                scoped [c] (net_events ev4) = true /\
                open_after [c] (net_events ev4) = []).
    { intros s3 Hw3 Hv3.
      destruct (sender_finally_run s3) as (s4 & ev4 & R4 & _ & N4).
      exists s4, ev4. split; [exact R4|].
      rewrite N4, Hv3, W2. cbn [Sender.writer s1w st_vars].
      unfold closing_events.
      destruct (transport_open (conn_get (st_world s3) c)); simpl;
        rewrite ?Nat.eqb_refl; split; reflexivity. }
    unfold after.
    destruct r2 as [u|e].
    - destruct (Hclosing s2 eq_refl eq_refl) as (s4 & ev4 & R4 & S4 & O4).
      rewrite R4. unfold events. cbn [fst snd].
      rewrite scoped_net, open_after_net, !net_events_app, N2.
      change (net_events []) with (@nil event). rewrite ?app_nil_r.
      rewrite scoped_app, open_after_app, Hsc, Hop. split; assumption.
    - destruct (isinstance e Exception).
      + unfold print, emit. cbn [fst snd].
        destruct (Hclosing s2 eq_refl eq_refl) as (s4 & ev4 & R4 & S4 & O4).
        rewrite R4. unfold events. cbn [fst snd].
        rewrite scoped_net, open_after_net, !net_events_app, N2.
        change (net_events []) with (@nil event).
        change (net_events [EvPrint ("Ошибка подключения: " ++ e_str e)])
          with (@nil event).
        rewrite ?app_nil_r.
        rewrite scoped_app, open_after_app, Hsc, Hop. split; assumption.
      + destruct (Hclosing s2 eq_refl eq_refl) as (s4 & ev4 & R4 & S4 & O4).
        rewrite R4. unfold events. cbn [fst snd].
        rewrite scoped_net, open_after_net, !net_events_app, N2.
        change (net_events []) with (@nil event).
        change (net_events [EvPrint ("Ошибка подключения: " ++ e_str e)])
          with (@nil event).
        rewrite ?app_nil_r.
        rewrite scoped_app, open_after_app, Hsc, Hop. split; assumption. }
  destruct Hcases as [(N1 & O1 & (e & ->) & _) | [(N1 & O1 & Hr & _)
                     | [(N1 & O1 & (e & ->) & _) | (N1 & O1 & Hr)]]];
    specialize (O1 Hn).
  - rewrite (bind_raise _ _ _ _ _ _ R1).
    pose proof (Hstop e eq_refl ltac:(rewrite N1; reflexivity) _ eq_refl) as A.
    split; [exact A | intros c Hc; discriminate Hc].
  - destruct Hr as [-> | [e ->]].
    + rewrite (bind_ok _ _ _ _ _ _ R1). cbv beta.
      destruct (Hgo c1 eq_refl O1 ltac:(rewrite N1; reflexivity)
                  ltac:(rewrite N1; reflexivity) _ eq_refl) as [A B].
      split; [exact A | intros _ _; exact B].
    + rewrite (bind_raise _ _ _ _ _ _ R1).
      pose proof (Hstop e eq_refl ltac:(rewrite N1; reflexivity) _ eq_refl) as A.
      split; [exact A | intros c Hc; discriminate Hc].
  - rewrite (bind_raise _ _ _ _ _ _ R1).
    pose proof (Hstop e eq_refl
                  ltac:(rewrite N1; simpl; rewrite Nat.eqb_refl; reflexivity) _ eq_refl)
      as A.
    split; [exact A | intros c Hc; discriminate Hc].
  - destruct Hr as [-> | [[e ->] _]].
    + rewrite (bind_ok _ _ _ _ _ _ R1). cbv beta.
      destruct (Hgo c2 eq_refl O1
                  ltac:(rewrite N1; simpl; rewrite Nat.eqb_refl; reflexivity)
                  ltac:(rewrite N1; simpl; rewrite Nat.eqb_refl; reflexivity) _ eq_refl)
        as [A B].
      split; [exact A | intros _ _; exact B].
    + rewrite (bind_raise _ _ _ _ _ _ R1).
      pose proof (Hstop e eq_refl
                    ltac:(rewrite N1; simpl; rewrite Nat.eqb_refl; reflexivity) _ eq_refl)
        as A.
      split; [exact A | intros c Hc; discriminate Hc].
Qed.

End SenderScoped.

(** C3.  In both roles, a process that starts with no transport open never
    has more than one transport open, and no transport is open when it
    attempts a connection: the listener closes the transport of a turn, if
    still open, before the next turn connects, so that it ends every turn
    with none open; and whenever the sender's handshake has returned a
    transport, so that the exchange of messages was entered, no transport is
    open when [interactive_mode] ends, however the exchange ended. *)
Theorem one_transport_at_a_time :
  forall (en : env) (lib : pylib) (host : string) (port : Z)
         (history hash_file : string) (n : nat)
         (sl : state Listener.vars) (ss : state Sender.vars),
    none_open (st_world sl) ->
    none_open (st_world ss) ->
    Sender.writer (st_vars ss) = None ->
    let rl := Listener.minechat_client en n host port history sl in
    let rs := Sender.interactive_mode en lib host port hash_file ss in
    (scoped [] (events rl) = true /\ open_after [] (events rl) = []) /\
    (scoped [] (events rs) = true /\
     (forall c,
        outcome (Sender.connect_and_auth en lib host port hash_file ss) = Ok c ->
        open_after [] (events rs) = [])).
Proof.
  intros en lib host port history hash_file n sl ss Hl Hs Hw rl rs. split.
  - apply minechat_client_scoped. exact Hl.
  - apply interactive_mode_scoped; assumption.
Qed.

(** C9.  The credential file is written by a registration that succeeds and
    by nothing else.  [load_hash] leaves the files as they are.  The
    handshake returns the first transport it opens when the log-in with the
    stored token succeeds, and the second one when the registration returns;
    it leaves the files as they are when it ends by the log-in or by an
    exception, so that files that differ after the handshake mean that the
    registration returned.  Nothing that follows the handshake in a session
    writes a file. *)
Theorem credential_written_by_registration_only :
  forall (en : env) (lib : pylib) (host : string) (port : Z) (hash_file : string)
         (s : state Sender.vars),
    let first := length (w_conns (st_world s)) in
    let handshake := Sender.connect_and_auth en lib host port hash_file s in
    let session := Sender.interactive_mode en lib host port hash_file s in
    w_files (st_world (final (Sender.load_hash en hash_file s))) = w_files (st_world s) /\
    (outcome handshake = Ok first \/ (exists e, outcome handshake = Raise e) ->
     w_files (st_world (final handshake)) = w_files (st_world s)) /\
    (w_files (st_world (final handshake)) <> w_files (st_world s) ->
     outcome handshake = Ok (S first)) /\
    w_files (st_world (final session)) = w_files (st_world (final handshake)).
Proof.
  intros en lib host port hash_file s first handshake session.
  split; [apply (reads_only_load_hash en hash_file s)|].
  destruct (connect_and_auth_run en lib host port hash_file s)
    as (r & s1 & ev1 & c2 & R1 & _ & Hc2 & Hcases).
  assert (Hh : handshake = (r, s1, ev1)) by exact R1.
  assert (Hfiles :
    (r = Ok first \/ (exists e, r = Raise e) ->
     w_files (st_world s1) = w_files (st_world s)) /\
    (w_files (st_world s1) <> w_files (st_world s) -> r = Ok (S first))).
  { subst c2. fold first in Hcases.
    destruct Hcases as [(_ & _ & _ & U) | [(_ & _ & _ & U) | [(_ & _ & _ & U)
                       | (_ & _ & [-> | [[e ->] U]])]]];
      try (split; [intros _; exact U | intros H; destruct (H U)]).
    split; [|reflexivity].
    intros [H | [e H]]; [|discriminate H].
    injection H as H. exfalso. lia. }
  split; [rewrite Hh; exact (proj1 Hfiles)|].
  split; [rewrite Hh; exact (proj2 Hfiles)|].
  (* after the handshake *)
  rewrite Hh. unfold final at 2. cbn [fst snd].
  unfold session, Sender.interactive_mode, try_finally, try_except.
  assert (Hbody : forall c,
    unwritten s1 (final ((Sender.set_writer c ;; Sender.exchange c) s1))).
  { intros c.
    apply (keeps_bind unwritten any_events (@unwritten_trans Sender.vars) any_events_app);
      [apply reads_only_set_writer | intros _; apply reads_only_exchange]. }
  destruct r as [c|e].
  - rewrite (bind_ok _ _ _ _ _ _ R1). cbv beta.
    specialize (Hbody c). unfold final in Hbody.
    destruct ((Sender.set_writer c ;; Sender.exchange c) s1) as [[r2 s2] ev2].
    unfold after. cbn [fst snd] in *.
    destruct r2 as [u|e].
    + destruct (reads_only_finally_clause s2) as [U3 _]. unfold final in *.
      destruct (Sender.finally_clause s2) as [[[u3|e3] s3] ev3]; cbn [fst snd] in *;
        unfold unwritten in *; congruence.
    + destruct (isinstance e Exception); unfold print, emit; cbn [fst snd];
        destruct (reads_only_finally_clause s2) as [U3 _]; unfold final in *;
        destruct (Sender.finally_clause s2) as [[[u3|e3] s3] ev3]; cbn [fst snd] in *;
        unfold unwritten in *; congruence.
  - rewrite (bind_raise _ _ _ _ _ _ R1).
    destruct (isinstance e Exception); unfold print, emit; cbn [fst snd];
      destruct (reads_only_finally_clause s1) as [U3 _]; unfold final in *;
      destruct (Sender.finally_clause s1) as [[[u3|e3] s3] ev3]; cbn [fst snd] in *;
      unfold unwritten in *; congruence.
Qed.

(* ================================================================== *)
(** * The handshake without a credential *)
(* ================================================================== *)

Section Avoids.

Variable c0 : nat.

Lemma avoids_nil : avoids c0 [].
Proof. reflexivity. Qed.

Lemma avoids_app (a b : list event) : avoids c0 a -> avoids c0 b -> avoids c0 (a ++ b).
Proof. unfold avoids. intros Ha Hb. rewrite filter_app, Ha, Hb. reflexivity. Qed.

Lemma anything_refl (s : state Sender.vars) : anything s s.
Proof. exact I. Qed.

Lemma anything_trans (s1 s2 s3 : state Sender.vars) :
  anything s1 s2 -> anything s2 s3 -> anything s1 s3.
Proof. intros _ _. exact I. Qed.

Ltac avoids_prim :=
  let w := fresh "w" in
  let v := fresh "v" in
  intros [w v];
  unfold bind, emit, get_world, put_world, get_vars, put_vars, ret, raise,
    final, events; simpl;
  repeat match goal with
         | |- context [match ?x with _ => _ end] =>
             lazymatch x with
             | context [match _ with _ => _ end] => fail
             | _ => destruct x; simpl
             end
         end;
  split; try exact I; unfold avoids, on_conn; simpl;
  rewrite ?(proj2 (Nat.eqb_neq _ _)) by assumption; reflexivity.

Lemma off_print (t : string) : keeps anything (avoids c0) (@print Sender.vars t).
Proof. avoids_prim. Qed.

Lemma off_input (p : string) : keeps anything (avoids c0) (@input Sender.vars p).
Proof. unfold input. avoids_prim. Qed.

Lemma off_readline (c : nat) : c <> c0 -> keeps anything (avoids c0) (@readline Sender.vars c).
Proof. intros Hc. unfold readline. avoids_prim. Qed.

Lemma off_write (c : nat) (d : string) :
  c <> c0 -> keeps anything (avoids c0) (@write Sender.vars c d).
Proof. intros Hc. unfold write. avoids_prim. Qed.

Lemma off_drain (c : nat) : c <> c0 -> keeps anything (avoids c0) (@drain Sender.vars c).
Proof. intros Hc. unfold drain. avoids_prim. Qed.

Lemma off_decode (b : wire) : keeps anything (avoids c0) (Sender.decode b).
Proof. unfold Sender.decode. avoids_prim. Qed.

Lemma off_getitem (v : json) (k : string) : keeps anything (avoids c0) (Sender.getitem v k).
Proof. unfold Sender.getitem. avoids_prim. Qed.

Lemma off_loads (lib : pylib) (t : string) : keeps anything (avoids c0) (Sender.loads lib t).
Proof. unfold Sender.loads. avoids_prim. Qed.

Lemma off_set_account_hash (h : json) : keeps anything (avoids c0) (Sender.set_account_hash h).
Proof. unfold Sender.set_account_hash. avoids_prim. Qed.

Lemma off_set_nickname (n : json) : keeps anything (avoids c0) (Sender.set_nickname n).
Proof. unfold Sender.set_nickname. avoids_prim. Qed.

Lemma off_save_hash (en : env) (f : string) (v : json) :
  keeps anything (avoids c0) (Sender.save_hash en f v).
Proof.
  unfold Sender.save_hash, try_except, open_w, f_write, file_attempt, print.
  intros [w vs].
  unfold bind, emit, get_world, put_world, ret, raise, final, events; simpl.
  destruct (fs_error en (w_opens w)); simpl; [split; [exact I | reflexivity]|].
  destruct v as [| | | |t| |]; simpl; try (split; [exact I | reflexivity]).
  destruct (PyStr.truthy t); simpl; [|split; [exact I | reflexivity]].
  destruct (fs_error en (S (w_opens w))); simpl; split; try exact I; reflexivity.
Qed.

End Avoids.

#[export] Hint Resolve off_print off_input off_readline off_write off_drain off_decode
  off_getitem off_loads off_set_account_hash off_set_nickname off_save_hash : calm.

Ltac off_go c0 :=
  keeps_go anything_refl anything_trans (avoids_nil c0) (avoids_app c0).

(** The registration on transport [c] is about no other transport. *)
Lemma off_register_account (en : env) (lib : pylib) (f : string) (c c0 : nat) :
  c <> c0 -> keeps anything (avoids c0) (Sender.register_account en lib f c).
Proof. intros Hc. unfold Sender.register_account. off_go c0. Qed.

Lemma events_after {L A} (ev : list event) (x : result A * state L * list event) :
  events (after ev x) = (ev ++ events x)%list.
Proof. destruct x as [[r s] ev2]. reflexivity. Qed.

Lemma outcome_after {L A} (ev : list event) (x : result A * state L * list event) :
  outcome (after ev x) = outcome x.
Proof. destruct x as [[r s] ev2]. reflexivity. Qed.

Lemma on_conn_same (c : nat) (ev : event) : conn_of ev = Some c -> on_conn c ev = true.
Proof. unfold on_conn. intros ->. apply Nat.eqb_refl. Qed.

Section Registration.

Variable en : env.
Variable lib : pylib.
Variable hash_file : string.

(** What the registration exchanges on its transport, with a server that
    sends a greeting and a prompt: it reads the greeting, sends the empty
    line, reads the prompt, sends the nickname, and reads one more line. *)
Lemma register_account_wire (c : nat) (s : state Sender.vars) (g p typed : string)
    (third : read_event) (rest : list read_event) (more : list input_event) :
  t_incoming (conn_get (st_world s) c) = Line (Utf8 g) :: Line (Utf8 p) :: third :: rest ->
  t_drain (conn_get (st_world s) c) = [] ->
  w_stdin (st_world s) = Typed typed :: more ->
  filter (on_conn c) (events (Sender.register_account en lib hash_file c s)) =
    [EvRead c; EvWrite c PyStr.nl; EvDrain c;
     EvRead c; EvWrite c (nickname_sent typed ++ PyStr.nl); EvDrain c;
     EvRead c].
Proof.
  intros Hin Hdr Hstdin. unfold Sender.register_account.
  rewrite (bind_ok _ _ _ _ _ _ (eq_refl : print _ s = (Ok tt, s, [_]))). cbv beta.
  destruct (readline_run c s _ _ Hin) as (s1 & R1 & In1 & D1 & _ & _ & _ & _ & I1).
  rewrite (bind_ok _ _ _ _ _ _ R1). cbv beta.
  rewrite (bind_ok _ _ _ _ _ _ (eq_refl : Sender.decode (Utf8 g) s1 = (Ok g, s1, []))).
  cbv beta.
  rewrite (bind_ok _ _ _ _ _ _ (eq_refl : print _ s1 = (Ok tt, s1, [_]))). cbv beta.
  rewrite (bind_ok _ _ _ _ _ _ (eq_refl : write c _ s1 = (Ok tt, s1, [_]))). cbv beta.
  rewrite Hdr in D1.
  rewrite (bind_ok _ _ _ _ _ _ (drain_ok c s1 D1)). cbv beta.
  destruct (readline_run c s1 _ _ In1) as (s2 & R2 & In2 & D2 & _ & _ & _ & _ & I2).
  rewrite (bind_ok _ _ _ _ _ _ R2). cbv beta.
  rewrite (bind_ok _ _ _ _ _ _ (eq_refl : Sender.decode (Utf8 p) s2 = (Ok p, s2, []))).
  cbv beta.
  rewrite (bind_ok _ _ _ _ _ _ (eq_refl : print _ s2 = (Ok tt, s2, [_]))). cbv beta.
  assert (Hstdin2 : w_stdin (st_world s2) = Typed typed :: more)
    by (rewrite I2, I1; exact Hstdin).
  destruct (input_run "Введите никнейм: " typed more s2 Hstdin2)
    as (s3 & R3 & _ & C3 & _).
  rewrite (bind_ok _ _ _ _ _ _ R3). cbv beta zeta.
  fold (nickname_sent typed).
  rewrite (bind_ok _ _ _ _ _ _ (eq_refl : write c _ s3 = (Ok tt, s3, [_]))). cbv beta.
  assert (D3 : t_drain (conn_get (st_world s3) c) = [])
    by (unfold conn_get in *; rewrite C3, D2; exact D1).
  rewrite (bind_ok _ _ _ _ _ _ (drain_ok c s3 D3)). cbv beta.
  assert (In3 : t_incoming (conn_get (st_world s3) c) = third :: rest)
    by (unfold conn_get in *; rewrite C3; exact In2).
  destruct (readline_run c s3 _ _ In3) as (s4 & R4 & _).
  rewrite !events_after, !filter_app.
  assert (Htail :
    filter (on_conn c)
      (events ((response <- readline c ;;
                r <- Sender.decode response ;;
                account_data <- Sender.loads lib (PyStr.strip r) ;;
                account_hash <- Sender.getitem account_data "account_hash" ;;
                nickname <- Sender.getitem account_data "nickname" ;;
                print ("Аккаунт создан: " ++ py_str lib nickname) ;;
                print ("Hash: " ++ py_str lib account_hash) ;;
                Sender.save_hash en hash_file account_hash ;;
                ret (account_hash, nickname)) s3)) = [EvRead c]).
  { destruct third as [b|e].
    - rewrite (bind_ok _ _ _ _ _ _ R4). cbv beta.
      rewrite events_after, filter_app.
      match goal with
      | |- context [events (?m s4)] =>
          assert (Hoff : keeps anything (avoids c) m) by off_go c;
          destruct (Hoff s4) as [_ ->]
      end.
      simpl. unfold on_conn. simpl. rewrite Nat.eqb_refl. reflexivity.
    - rewrite (bind_raise _ _ _ _ _ _ R4). unfold events. simpl.
      unfold on_conn. simpl. rewrite Nat.eqb_refl. reflexivity. }
  rewrite Htail. simpl. unfold on_conn. simpl. rewrite !Nat.eqb_refl. reflexivity.
Qed.

End Registration.

(** C10.  When no credential is loaded and the first connection is
    established, [connect_and_auth] neither sends nor reads anything on it:
    the only events on the first transport are its opening and its closing.
    When the second connection is established too, the sender connects,
    closes the first transport and connects again, in this order, and the
    whole registration exchange happens on the second transport: greeting
    read, empty line sent, prompt read, nickname sent, account record read. *)
Theorem registration_on_second_connection :
  forall (en : env) (lib : pylib) (host : string) (port : Z) (hash_file : string)
         (s : state Sender.vars) (sc1 : conn_script),
    Sender.account_hash (st_vars s) = JNull ->
    net en (w_attempts (st_world s)) = Connected sc1 ->
    let c1 := length (w_conns (st_world s)) in
    let c2 := S c1 in
    let r := Sender.connect_and_auth en lib host port hash_file s in
    filter (on_conn c1) (events r) = [EvOpened c1; EvClose c1] /\
    forall (sc2 : conn_script) (g p typed : string) (third : read_event)
           (rest : list read_event) (more : list input_event),
      net en (S (w_attempts (st_world s))) = Connected sc2 ->
      cs_incoming sc2 = Line (Utf8 g) :: Line (Utf8 p) :: third :: rest ->
      cs_drain sc2 = [] ->
      w_stdin (st_world s) = Typed typed :: more ->
      net_events (events r) =
        [EvConnect (w_attempts (st_world s)) None; EvOpened c1; EvClose c1;
         EvConnect (S (w_attempts (st_world s))) None; EvOpened c2] /\
      filter (on_conn c2) (events r) =
        [EvOpened c2;
         EvRead c2; EvWrite c2 PyStr.nl; EvDrain c2;
         EvRead c2; EvWrite c2 (nickname_sent typed ++ PyStr.nl); EvDrain c2;
         EvRead c2].
Proof.
  intros en lib host port hash_file s sc1 Hnone Hnet c1 c2 r.
  assert (Hc1 : c1 = length (w_conns (st_world s))) by reflexivity.
  assert (Hc2 : c2 = S c1) by reflexivity.
  clearbody c1 c2.
  (* up to the second connection attempt *)
  assert (Hprefix : exists s3,
    r = after [EvPrint ("Подключение к " ++ host ++ ":" ++ PyStr.of_int port ++ "...");
               EvConnect (w_attempts (st_world s)) None; EvOpened c1;
               EvPrint "Соединение установлено";
               EvClose c1;
               EvPrint "Переподключение для регистрации..."]
          ((k2 <- open_connection en None ;;
            registered <- Sender.register_account en lib hash_file k2 ;;
            Sender.set_account_hash (fst registered) ;;
            Sender.set_nickname (snd registered) ;;
            ret k2) s3) /\
    w_attempts (st_world s3) = S (w_attempts (st_world s)) /\
    length (w_conns (st_world s3)) = c2 /\
    w_stdin (st_world s3) = w_stdin (st_world s)).
  { unfold r, Sender.connect_and_auth.
    rewrite (bind_ok _ _ _ _ _ _ (eq_refl : print _ s = (Ok tt, s, [_]))). cbv beta.
    destruct (open_connection_succeeds en None s sc1 Hnet)
      as (s1 & R1 & V1 & A1 & C1 & _ & I1 & _).
    rewrite <- Hc1 in R1.
    rewrite (bind_ok _ _ _ _ _ _ R1). cbv beta.
    rewrite (bind_ok _ _ _ _ _ _ (eq_refl : print _ s1 = (Ok tt, s1, [_]))). cbv beta.
    rewrite (bind_ok _ _ _ _ _ _ (eq_refl : get_vars s1 = (Ok (st_vars s1), s1, []))).
    cbv beta. rewrite V1, Hnone. cbn [json_truthy].
    rewrite (bind_ok _ _ _ _ _ _ (eq_refl : ret false s1 = (Ok false, s1, []))).
    cbv beta iota.
    rewrite (bind_ok _ _ _ _ _ _ (close_run c1 s1)). cbv beta.
    set (s3 := mkState _ (st_vars s1)).
    rewrite (bind_ok _ _ _ _ _ _ (eq_refl : wait_closed c1 s3 = (Ok tt, s3, []))).
    cbv beta.
    rewrite (bind_ok _ _ _ _ _ _ (eq_refl : print _ s3 = (Ok tt, s3, [_]))). cbv beta.
    exists s3. split.
    - destruct ((k2 <- open_connection en None ;;
                 registered <- Sender.register_account en lib hash_file k2 ;;
                 Sender.set_account_hash (fst registered) ;;
                 Sender.set_nickname (snd registered) ;;
                 ret k2) s3) as [[r4 s4] ev4].
      reflexivity.
    - split; [exact A1|]. split; [|exact I1].
      simpl. rewrite conn_update_length, C1, length_app. simpl. lia. }
  destruct Hprefix as (s3 & Hr & A3 & L3 & I3).
  assert (Hne : c2 <> c1) by lia.
  split.
  - (* nothing on the first transport but its opening and its closing *)
    rewrite Hr, events_after, filter_app.
    assert (Hrest : filter (on_conn c1)
              (events ((k2 <- open_connection en None ;;
                        registered <- Sender.register_account en lib hash_file k2 ;;
                        Sender.set_account_hash (fst registered) ;;
                        Sender.set_nickname (snd registered) ;;
                        ret k2) s3)) = []).
    { destruct (net en (w_attempts (st_world s3))) as [sc2|e] eqn:Hnet2.
      - destruct (open_connection_succeeds en None s3 sc2 Hnet2) as (s4 & R4 & _).
        rewrite L3 in R4.
        rewrite (bind_ok _ _ _ _ _ _ R4). cbv beta.
        rewrite events_after, filter_app.
        match goal with
        | |- context [events (?m s4)] =>
            assert (Hoff : keeps anything (avoids c1) m)
              by (off_go c1; apply off_register_account; exact Hne);
            destruct (Hoff s4) as [_ ->]
        end.
        simpl. unfold on_conn. simpl.
        rewrite (proj2 (Nat.eqb_neq c2 c1) Hne). reflexivity.
      - destruct (open_connection_fails en None s3 e Hnet2) as (s4 & R4 & _).
        rewrite (bind_raise _ _ _ _ _ _ R4). reflexivity. }
    rewrite Hrest. simpl. unfold on_conn. simpl. rewrite Nat.eqb_refl. reflexivity.
  - (* the registration on the second transport *)
    intros sc2 g p typed third rest more Hnet2 Hin Hdr Hstdin.
    rewrite <- A3 in Hnet2.
    destruct (open_connection_succeeds en None s3 sc2 Hnet2)
      as (s4 & R4 & _ & _ & C4 & _ & I4 & _).
    rewrite L3 in R4. rewrite A3 in R4.
    assert (Hconn : conn_get (st_world s4) c2
                    = mkTransport (cs_incoming sc2) (cs_drain sc2) (cs_lost sc2) false).
    { unfold conn_get. rewrite C4, <- L3. apply nth_middle. }
    assert (Hin4 : t_incoming (conn_get (st_world s4) c2)
                   = Line (Utf8 g) :: Line (Utf8 p) :: third :: rest)
      by (rewrite Hconn; exact Hin).
    assert (Hdr4 : t_drain (conn_get (st_world s4) c2) = [])
      by (rewrite Hconn; exact Hdr).
    assert (Hst4 : w_stdin (st_world s4) = Typed typed :: more)
      by (rewrite I4, I3; exact Hstdin).
    pose proof (register_account_wire en lib hash_file c2 s4 g p typed third rest more
                  Hin4 Hdr4 Hst4) as Hwire.
    destruct (quiet_register_account en lib hash_file c2 s4) as [_ Hsilent].
    unfold silent in Hsilent.
    rewrite Hr, (bind_ok _ _ _ _ _ _ R4). cbv beta.
    rewrite !events_after.
    assert (Hev : events ((registered <- Sender.register_account en lib hash_file c2 ;;
                           Sender.set_account_hash (fst registered) ;;
                           Sender.set_nickname (snd registered) ;;
                           ret c2) s4)
                  = events (Sender.register_account en lib hash_file c2 s4)).
    { unfold bind at 1. unfold events.
      destruct (Sender.register_account en lib hash_file c2 s4) as [[[x|e] s5] ev5];
        simpl; rewrite ?app_nil_r; reflexivity. }
    rewrite Hev. split.
    + rewrite !net_events_app, Hsilent. reflexivity.
    + rewrite !filter_app, Hwire. simpl. unfold on_conn. simpl.
      rewrite Nat.eqb_refl, (proj2 (Nat.eqb_neq c1 c2)) by lia. reflexivity.
Qed.

(* ================================================================== *)
(** * Configuration *)
(* ================================================================== *)

(** The cases of [parse_arguments] end alike. *)
Ltac parse_done :=
  repeat split;
  try solve [repeat constructor];
  try solve [left; reflexivity];
  try solve [right; reflexivity];
  try assumption.

Section ParseArguments.

Variable lib : pylib.
Hypothesis int_zero : py_int lib "0" = Some 0%Z.

(** What [parse_arguments] of the listener returns or raises; it touches
    nothing. *)
Lemma listener_parse_arguments_run (cl : cmdline) (s : state Listener.vars) :
  let r := Listener.parse_arguments lib cl s in
  final r = s /\
  Forall is_report (events r) /\
  match outcome r with
  | Ok a =>
      a_host a = resolved (flag_host cl) cl "MINECHAT_HOST" /\
      a_file a = resolved (flag_file cl) cl "MINECHAT_HISTORY" /\
      py_int lib (match flag_port cl with
                  | Some p => p
                  | None => getenv cl "MINECHAT_PORT" "0"
                  end) = Some (a_port a) /\
      PyStr.truthy (a_host a) = true /\ a_port a <> 0%Z /\ PyStr.truthy (a_file a) = true
  | Raise e => e_class e = SystemExit \/ e_class e = ValueError
  end.
Proof.
  unfold Listener.parse_arguments, parser_error, resolved.
  unfold bind, emit, ret, raise, outcome, final, events.
  destruct (py_int lib (getenv cl "MINECHAT_PORT" "0")) as [z0|] eqn:E0; simpl;
    [|parse_done].
  destruct (flag_port cl) as [pt|]; simpl.
  - destruct (py_int lib pt) as [z|] eqn:E1; simpl;
      [|parse_done].
    destruct (PyStr.truthy (match flag_host cl with
                            | Some h => h
                            | None => getenv cl "MINECHAT_HOST" ""
                            end)) eqn:Eh; simpl;
      [|parse_done].
    destruct (Z.eqb z 0) eqn:Ez; simpl; [parse_done|].
    destruct (PyStr.truthy (match flag_file cl with
                            | Some h => h
                            | None => getenv cl "MINECHAT_HISTORY" ""
                            end)) eqn:Ef; simpl;
      [|parse_done].
    parse_done. apply Z.eqb_neq. exact Ez.
  - destruct (PyStr.truthy (match flag_host cl with
                            | Some h => h
                            | None => getenv cl "MINECHAT_HOST" ""
                            end)) eqn:Eh; simpl;
      [|parse_done].
    destruct (Z.eqb z0 0) eqn:Ez; simpl; [parse_done|].
    destruct (PyStr.truthy (match flag_file cl with
                            | Some h => h
                            | None => getenv cl "MINECHAT_HISTORY" ""
                            end)) eqn:Ef; simpl;
      [|parse_done].
    parse_done. apply Z.eqb_neq. exact Ez.
Qed.

(** The same for the sender, whose host variable is [MINECHAT_HOST_WRITER]
    (its help text says [MINECHAT_HOST]). *)
Lemma sender_parse_arguments_run (cl : cmdline) (s : state Sender.vars) :
  let r := Sender.parse_arguments lib cl s in
  final r = s /\
  Forall is_report (events r) /\
  match outcome r with
  | Ok a =>
      a_host a = resolved (flag_host cl) cl "MINECHAT_HOST_WRITER" /\
      a_file a = resolved (flag_file cl) cl "MINECHAT_HASH" /\
      py_int lib (match flag_port cl with
                  | Some p => p
                  | None => getenv cl "MINECHAT_PORT" "0"
                  end) = Some (a_port a) /\
      PyStr.truthy (a_host a) = true /\ a_port a <> 0%Z /\ PyStr.truthy (a_file a) = true
  | Raise e => e_class e = SystemExit \/ e_class e = ValueError
  end.
Proof.
  unfold Sender.parse_arguments, parser_error, resolved.
  unfold bind, emit, ret, raise, outcome, final, events.
  destruct (py_int lib (getenv cl "MINECHAT_PORT" "0")) as [z0|] eqn:E0; simpl;
    [|parse_done].
  destruct (flag_port cl) as [pt|]; simpl.
  - destruct (py_int lib pt) as [z|] eqn:E1; simpl;
      [|parse_done].
    destruct (PyStr.truthy (match flag_host cl with
                            | Some h => h
                            | None => getenv cl "MINECHAT_HOST_WRITER" ""
                            end)) eqn:Eh; simpl;
      [|parse_done].
    destruct (Z.eqb z 0) eqn:Ez; simpl; [parse_done|].
    destruct (PyStr.truthy (match flag_file cl with
                            | Some h => h
                            | None => getenv cl "MINECHAT_HASH" ""
                            end)) eqn:Ef; simpl;
      [|parse_done].
    parse_done. apply Z.eqb_neq. exact Ez.
  - destruct (PyStr.truthy (match flag_host cl with
                            | Some h => h
                            | None => getenv cl "MINECHAT_HOST_WRITER" ""
                            end)) eqn:Eh; simpl;
      [|parse_done].
    destruct (Z.eqb z0 0) eqn:Ez; simpl; [parse_done|].
    destruct (PyStr.truthy (match flag_file cl with
                            | Some h => h
                            | None => getenv cl "MINECHAT_HASH" ""
                            end)) eqn:Ef; simpl;
      [|parse_done].
    parse_done. apply Z.eqb_neq. exact Ez.
Qed.

(** With a setting missing, the values [parse_arguments] would return do
    not pass its checks. *)
Lemma unresolved_fails (cl : cmdline) (hv pv fv : string) (a : args) :
  unresolved cl hv pv fv ->
  a_host a = resolved (flag_host cl) cl hv ->
  a_file a = resolved (flag_file cl) cl fv ->
  py_int lib (match flag_port cl with
              | Some p => p
              | None => getenv cl pv "0"
              end) = Some (a_port a) ->
  PyStr.truthy (a_host a) = true -> a_port a <> 0%Z -> PyStr.truthy (a_file a) = true ->
  False.
Proof.
  unfold unresolved, missing, resolved, getenv.
  intros [[F E] | [[F E] | [F E]]] Hh Hf Hp Th Tp Tf.
  - rewrite F, E in Hh. rewrite Hh in Th. discriminate Th.
  - rewrite F, E, int_zero in Hp. injection Hp as Hp. apply Tp. now rewrite <- Hp.
  - rewrite F, E in Hf. rewrite Hf in Tf. discriminate Tf.
Qed.

End ParseArguments.

(** C7.  For both scripts, when the host, the port or the file path is given
    neither by its flag nor by the environment variable the script reads for
    it, the process ends by an exception ([SystemExit] from [parser.error],
    or the [ValueError] of a port variable that is not a number) after
    reporting the error and before anything else: no connection is
    attempted, nothing is read or written, the world is as it was.  When
    [parse_arguments] returns, each value is that of the flag if the flag
    is given and that of the variable otherwise. *)
Theorem missing_configuration_is_fatal :
  forall (en : env) (lib : pylib) (n : nat) (cl : cmdline)
         (sl : state Listener.vars) (ss : state Sender.vars),
    py_int lib "0" = Some 0%Z ->
    (unresolved cl "MINECHAT_HOST" "MINECHAT_PORT" "MINECHAT_HISTORY" ->
     let r := Listener.main en lib n cl sl in
     (exists e, outcome r = Raise e /\ (e_class e = SystemExit \/ e_class e = ValueError)) /\
     Forall is_report (events r) /\
     final r = sl) /\
    (unresolved cl "MINECHAT_HOST_WRITER" "MINECHAT_PORT" "MINECHAT_HASH" ->
     let r := Sender.script en lib cl ss in
     (exists e, outcome r = Raise e /\ e_class e = SystemExit) /\
     Forall is_report (events r) /\
     final r = ss) /\
    (forall a, outcome (Listener.parse_arguments lib cl sl) = Ok a ->
       a_host a = resolved (flag_host cl) cl "MINECHAT_HOST" /\
       a_file a = resolved (flag_file cl) cl "MINECHAT_HISTORY" /\
       py_int lib (match flag_port cl with
                   | Some p => p
                   | None => getenv cl "MINECHAT_PORT" "0"
                   end) = Some (a_port a)) /\
    (forall a, outcome (Sender.parse_arguments lib cl ss) = Ok a ->
       a_host a = resolved (flag_host cl) cl "MINECHAT_HOST_WRITER" /\
       a_file a = resolved (flag_file cl) cl "MINECHAT_HASH" /\
       py_int lib (match flag_port cl with
                   | Some p => p
                   | None => getenv cl "MINECHAT_PORT" "0"
                   end) = Some (a_port a)).
Proof.
  intros en lib n cl sl ss Hzero.
  pose proof (listener_parse_arguments_run lib cl sl) as Hl.
  pose proof (sender_parse_arguments_run lib cl ss) as Hs.
  cbv zeta in Hl, Hs. unfold outcome, final, events in *.
  split; [|split; [|split]].
  - intros Hun. cbv zeta. unfold Listener.main.
    destruct (Listener.parse_arguments lib cl sl) as [[[a|e] s1] ev1] eqn:R;
      cbn [fst snd] in *; destruct Hl as (-> & Hev & Ha).
    + destruct Ha as (H1 & H2 & H3 & H4 & H5 & H6).
      destruct (unresolved_fails lib Hzero cl _ _ _ a Hun H1 H2 H3 H4 H5 H6).
    + rewrite (bind_raise _ _ _ _ _ _ R). cbn [fst snd].
      split; [exists e; split; [reflexivity | exact Ha]|].
      split; [exact Hev | reflexivity].
  - intros Hun. cbv zeta. unfold Sender.script, Sender.main, try_except.
    destruct (Sender.parse_arguments lib cl ss) as [[[a|e] s1] ev1] eqn:R;
      cbn [fst snd] in *; destruct Hs as (-> & Hev & Ha).
    + destruct Ha as (H1 & H2 & H3 & H4 & H5 & H6).
      destruct (unresolved_fails lib Hzero cl _ _ _ a Hun H1 H2 H3 H4 H5 H6).
    + rewrite (bind_raise _ _ _ _ _ _ R).
      unfold isinstance. destruct Ha as [Ha | Ha]; rewrite Ha; simpl.
      * split; [exists e; split; [reflexivity | exact Ha]|].
        split; [exact Hev | reflexivity].
      * split; [eexists; split; reflexivity|]. split; [|reflexivity].
        apply Forall_app. split; [exact Hev | repeat constructor].
  - intros a Ha.
    destruct (Listener.parse_arguments lib cl sl) as [[[a'|e] s1] ev1];
      cbn [fst snd] in *; [|discriminate Ha].
    injection Ha as ->. destruct Hl as (_ & _ & H1 & H2 & H3 & _).
    repeat split; assumption.
  - intros a Ha.
    destruct (Sender.parse_arguments lib cl ss) as [[[a'|e] s1] ev1];
      cbn [fst snd] in *; [|discriminate Ha].
    injection Ha as ->. destruct Hs as (_ & _ & H1 & H2 & H3 & _).
    repeat split; assumption.
Qed.

(* ================================================================== *)
(** * What a run keeps track of *)
(* ================================================================== *)

Section Tracks.

Context {L : Type}.
Variable J : state L -> state L -> list event -> Prop.
Hypothesis J_nil : forall s, J s s [].
Hypothesis J_app : forall s1 s2 s3 a b, J s1 s2 a -> J s2 s3 b -> J s1 s3 (a ++ b).

Lemma tracks_ret {A} (a : A) : tracks J (ret a).
Proof. intros s. apply J_nil. Qed.

Lemma tracks_raise {A} (e : exn) : tracks J (@raise L A e).
Proof. intros s. apply J_nil. Qed.

Lemma tracks_get_world : tracks J get_world.
Proof. intros s. apply J_nil. Qed.

Lemma tracks_get_vars : tracks J get_vars.
Proof. intros s. apply J_nil. Qed.

Lemma tracks_bind {A B} (m : M L A) (k : A -> M L B) :
  tracks J m -> (forall a, tracks J (k a)) -> tracks J (bind m k).
Proof.
  intros Hm Hk s. unfold bind, final, events.
  specialize (Hm s). unfold final, events in Hm.
  destruct (m s) as [[[a|e] s1] ev1]; simpl in *; [|exact Hm].
  specialize (Hk a s1). unfold final, events in Hk.
  destruct (k a s1) as [[r s2] ev2]; simpl in *. eauto.
Qed.

Lemma tracks_try_except {A} (m : M L A) (handler : exn -> option (M L A)) :
  tracks J m -> (forall e h, handler e = Some h -> tracks J h) ->
  tracks J (try_except m handler).
Proof.
  intros Hm Hh s. unfold try_except, final, events.
  specialize (Hm s). unfold final, events in Hm.
  destruct (m s) as [[[a|e] s1] ev1]; simpl in *; [exact Hm|].
  destruct (handler e) as [h|] eqn:E; simpl; [|exact Hm].
  specialize (Hh e h E s1). unfold final, events in Hh.
  destruct (h s1) as [[r s2] ev2]; simpl in *. eauto.
Qed.

Lemma tracks_try_finally {A} (m : M L A) (f : M L unit) :
  tracks J m -> tracks J f -> tracks J (try_finally m f).
Proof.
  intros Hm Hf s. unfold try_finally, final, events.
  specialize (Hm s). unfold final, events in Hm.
  destruct (m s) as [[r s1] ev1]; simpl in *.
  specialize (Hf s1). unfold final, events in Hf.
  destruct (f s1) as [[[u|e] s2] ev2]; simpl in *; eauto.
Qed.

End Tracks.

Create HintDb tracks.

(** Taking a computation apart, with the two facts on [J]. *)
Ltac tracks_go jn ja :=
  repeat first
    [ solve [auto with tracks]
    | apply (tracks_ret _ jn)
    | apply (tracks_raise _ jn)
    | apply (tracks_get_world _ jn)
    | apply (tracks_get_vars _ jn)
    | match goal with
      | |- tracks _ (let _ := _ in _) => cbv zeta
      | |- tracks _ (if ?b then _ else _) => destruct b
      | |- tracks _ (match ?x with _ => _ end) => destruct x
      | |- tracks _ (bind _ _) => apply (tracks_bind _ ja); [ | intro ]
      | |- tracks _ (try_finally _ _) => apply (tracks_try_finally _ ja)
      | |- tracks _ (try_except _ _) =>
          let e := fresh "e" in
          let h := fresh "h" in
          let Hh := fresh "Hh" in
          apply (tracks_try_except _ ja); [ | intros e h Hh; handler_cases Hh ]
      end ].

(** A library call, by running it. *)
Ltac run_prim :=
  let w := fresh "w" in
  let v := fresh "v" in
  intros [w v];
  unfold bind, emit, get_world, put_world, get_vars, put_vars, ret, raise,
    final, events; simpl;
  repeat match goal with
         | |- context [match ?x with _ => _ end] =>
             lazymatch x with
             | context [match _ with _ => _ end] => fail
             | _ => destruct x; simpl
             end
         end.

Lemma file_lines_app (a b : list string) :
  file_lines (a ++ b) = (file_lines a ++ file_lines b)%string.
Proof.
  induction a as [|x a IH]; simpl; [reflexivity|].
  rewrite IH, !string_app_assoc. reflexivity.
Qed.

Lemma appended_nil {L} (path : string) (s : state L) : appended path s s "".
Proof. split; [now rewrite string_app_nil_r | reflexivity]. Qed.

Lemma appended_app {L} (path : string) (s1 s2 s3 : state L) (a b : string) :
  appended path s1 s2 a -> appended path s2 s3 b -> appended path s1 s3 (a ++ b).
Proof.
  intros [A1 A2] [B1 B2]. split.
  - rewrite B1, A1. apply string_app_assoc.
  - intros p Hp. rewrite (B2 p Hp). apply A2, Hp.
Qed.

(** A step that prints nothing and leaves the files alone. *)
Lemma appended_idle {L} (path : string) (s s' : state L) :
  w_files (st_world s') = w_files (st_world s) -> appended path s s' "".
Proof.
  intros H. split.
  - unfold content. rewrite H. now rewrite string_app_nil_r.
  - intros p _. now rewrite H.
Qed.

Section History.

Variable path : string.

Lemma mirrored_nil {L} (s : state L) : mirrored path s s [].
Proof. apply appended_nil. Qed.

Lemma mirrored_app {L} (s1 s2 s3 : state L) (a b : list event) :
  mirrored path s1 s2 a -> mirrored path s2 s3 b -> mirrored path s1 s3 (a ++ b).
Proof.
  unfold mirrored. intros Ha Hb. rewrite printed_app, file_lines_app.
  eapply appended_app; eassumption.
Qed.

Lemma grown_nil {L} (s : state L) : grown path s s [].
Proof. exists "". apply appended_nil. Qed.

Lemma grown_app {L} (s1 s2 s3 : state L) (a b : list event) :
  grown path s1 s2 a -> grown path s2 s3 b -> grown path s1 s3 (a ++ b).
Proof.
  intros [x Hx] [y Hy]. exists (x ++ y)%string. eapply appended_app; eassumption.
Qed.

Lemma grown_of_mirrored {L} (s s' : state L) (evs : list event) :
  mirrored path s s' evs -> grown path s s' evs.
Proof. intros H. eexists. exact H. Qed.

End History.

Lemma tracks_weaken {L A} (J J' : state L -> state L -> list event -> Prop) (m : M L A) :
  (forall s s' evs, J s s' evs -> J' s s' evs) -> tracks J m -> tracks J' m.
Proof. intros H Hm s. apply H, Hm. Qed.

Lemma idle_mirrored {L} (path : string) (s s' : state L) (evs : list event) :
  idle s s' evs -> mirrored path s s' evs.
Proof.
  intros (F & P & _). unfold mirrored. rewrite P. apply appended_idle, F.
Qed.

Lemma idle_grown {L} (path : string) (s s' : state L) (evs : list event) :
  idle s s' evs -> grown path s s' evs.
Proof. intros H. apply grown_of_mirrored, idle_mirrored, H. Qed.

Lemma idle_receiving {L} (s s' : state L) (evs : list event) :
  idle s s' evs -> receiving s s' evs.
Proof. intros (_ & _ & H). exact H. Qed.

Section IdlePrimitives.

Context {L : Type}.
Variable en : env.

Lemma idle_sleep (n : nat) : tracks idle (@sleep L n).
Proof. run_prim. repeat split. Qed.

Lemma idle_datetime_now : tracks idle (@datetime_now L en).
Proof. unfold datetime_now. run_prim. repeat split. Qed.

Lemma idle_open_connection (t : option nat) : tracks idle (@open_connection L en t).
Proof. unfold open_connection. run_prim; repeat split. Qed.

Lemma idle_readline (c : nat) : tracks idle (@readline L c).
Proof. unfold readline. run_prim; repeat split. Qed.

Lemma idle_is_closing (c : nat) : tracks idle (@is_closing L c).
Proof. unfold is_closing. run_prim; repeat split. Qed.

Lemma idle_close (c : nat) : tracks idle (@close L c).
Proof. unfold close. run_prim; repeat split. Qed.

Lemma idle_wait_closed (c : nat) : tracks idle (@wait_closed L c).
Proof. unfold wait_closed. run_prim; repeat split. Qed.

Lemma idle_put_vars (v : L) : tracks idle (put_vars v).
Proof. run_prim; repeat split. Qed.

End IdlePrimitives.

Lemma receiving_nil {L} (s : state L) : receiving s s [].
Proof. reflexivity. Qed.

Lemma receiving_app {L} (s1 s2 s3 : state L) (a b : list event) :
  receiving s1 s2 a -> receiving s2 s3 b -> receiving s1 s3 (a ++ b).
Proof. unfold receiving. intros Ha Hb. rewrite filter_app, Ha, Hb. reflexivity. Qed.

Lemma receiving_print {L} (t : string) : tracks receiving (@print L t).
Proof. intros s. reflexivity. Qed.

Lemma receiving_stderr {L} (t : string) : tracks receiving (@emit L (EvStderr t)).
Proof. intros s. reflexivity. Qed.

(* ================================================================== *)
(** * The history file and the console *)
(* ================================================================== *)

Section ListenerHistory.

Variable en : env.
Variable history : string.

(** [log_message] appends what it prints, when no operation on a file fails. *)
Lemma mirrored_log_message (m : string) :
  (forall k, fs_error en k = None) ->
  tracks (mirrored history) (Listener.log_message en history m).
Proof.
  intros Hfs [w v].
  unfold Listener.log_message, datetime_now, print, open_a, f_write, file_attempt,
    try_except, bind, get_world, put_world, emit, ret, raise, final, events. simpl.
  rewrite Hfs. simpl. rewrite (truthy_app_r _ PyStr.nl eq_refl).
  destruct (w_files w history) as [old|] eqn:F; simpl; rewrite Hfs; simpl;
    (split; simpl;
     [ unfold content; simpl; unfold file_put; rewrite ?String.eqb_refl, ?F;
       simpl; rewrite ?string_app_nil_r; reflexivity
     | intros p Hp; unfold file_put;
       destruct (String.eqb p history) eqn:E;
       [apply String.eqb_eq in E; contradiction | reflexivity] ]).
Qed.

(** [log_message] appends one entry or nothing. *)
Lemma grown_log_message (m : string) :
  tracks (grown history) (Listener.log_message en history m).
Proof.
  intros [w v].
  unfold Listener.log_message, datetime_now, print, open_a, f_write, file_attempt,
    try_except, bind, get_world, put_world, emit, ret, raise, final, events. simpl.
  destruct (fs_error en (w_opens w)) as [err|]; simpl.
  - exists "". apply appended_idle. reflexivity.
  - rewrite (truthy_app_r _ PyStr.nl eq_refl).
    destruct (w_files w history) as [old|] eqn:F; simpl;
      destruct (fs_error en (S (w_opens w))) as [err|]; simpl;
      try (exists ""; split; simpl;
           [ unfold content; simpl; unfold file_put;
             rewrite ?String.eqb_refl, ?F, ?string_app_nil_r; reflexivity
           | intros p Hp; unfold file_put;
             destruct (String.eqb p history) eqn:E;
             [apply String.eqb_eq in E; contradiction | reflexivity] ]);
      (eexists; split; simpl;
       [ unfold content; simpl; unfold file_put; rewrite ?String.eqb_refl, ?F;
         simpl; reflexivity
       | intros p Hp; unfold file_put;
         destruct (String.eqb p history) eqn:E;
         [apply String.eqb_eq in E; contradiction | reflexivity] ]).
Qed.

Lemma receiving_log_message (m : string) :
  tracks receiving (Listener.log_message en history m).
Proof.
  intros [w v].
  unfold Listener.log_message, datetime_now, print, open_a, f_write, file_attempt,
    try_except, bind, get_world, put_world, emit, ret, raise, final, events. simpl.
  destruct (fs_error en (w_opens w)) as [err|]; simpl; [reflexivity|].
  rewrite (truthy_app_r _ PyStr.nl eq_refl).
  destruct (w_files w history); simpl;
    destruct (fs_error en (S (w_opens w))); reflexivity.
Qed.

(** [ensure_log_file] creates the file empty when it is missing, and leaves
    every content as it is. *)
Lemma idle_content_ensure_log_file (s : state Listener.vars) :
  let r := Listener.ensure_log_file en history s in
  appended history s (final r) "" /\ events r = [].
Proof.
  destruct s as [w v].
  unfold Listener.ensure_log_file, path_exists, open_w, f_write, file_attempt,
    bind, get_world, put_world, ret, raise, final, events. simpl.
  destruct (w_files w history) as [old|] eqn:F; simpl.
  - split; [apply appended_idle|]; reflexivity.
  - destruct (fs_error en (w_opens w)) as [err|]; simpl.
    + split; [apply appended_idle|]; reflexivity.
    + split; [|reflexivity]. split; simpl.
      * unfold content; simpl. unfold file_put. rewrite !String.eqb_refl, F. reflexivity.
      * intros p Hp. unfold file_put.
        destruct (String.eqb p history) eqn:E;
          [apply String.eqb_eq in E; contradiction | reflexivity].
Qed.

End ListenerHistory.

(** The listener's loop, for a relation that holds of its steps. *)
Section ListenerTracks.

Variable en : env.
Variable host : string.
Variable port : Z.
Variable history : string.
Variable J : state Listener.vars -> state Listener.vars -> list event -> Prop.
Hypothesis J_nil : forall s, J s s [].
Hypothesis J_app : forall s1 s2 s3 a b, J s1 s2 a -> J s2 s3 b -> J s1 s3 (a ++ b).
Hypothesis J_idle : forall s s' evs, idle s s' evs -> J s s' evs.
Hypothesis J_log : forall m, tracks J (Listener.log_message en history m).

Ltac listener_go :=
  repeat first
    [ apply J_log
    | solve [apply (tracks_weaken idle J _ J_idle);
             auto using idle_sleep, idle_datetime_now, idle_open_connection,
               idle_readline, idle_is_closing, idle_close, idle_wait_closed,
               idle_put_vars]
    | progress tracks_go J_nil J_app ].

Lemma tracks_async_for (fuel c count : nat) :
  tracks J (Listener.async_for en history fuel c count).
Proof.
  revert count. induction fuel as [|fuel IH]; intros count; simpl.
  - listener_go.
  - apply (tracks_bind _ J_app); [listener_go|]. intros line.
    destruct (wire_empty line); [listener_go|]. cbv zeta.
    destruct (PyStr.truthy _).
    + apply (tracks_bind _ J_app); [apply J_log | intros _; apply IH].
    + apply IH.
Qed.

Lemma tracks_iteration : tracks J (Listener.iteration en host port history).
Proof.
  unfold Listener.iteration. apply (tracks_try_finally _ J_app).
  - apply (tracks_try_except _ J_app).
    + unfold Listener.try_block.
      apply (tracks_bind _ J_app); [apply J_log|]. intros _.
      apply (tracks_bind _ J_app); [listener_go|]. intros c.
      apply (tracks_bind _ J_app); [listener_go|]. intros _.
      apply (tracks_bind _ J_app); [apply J_log|]. intros _.
      apply (tracks_bind _ J_app); [listener_go|]. intros w.
      apply (tracks_bind _ J_app); [apply tracks_async_for|]. intros k.
      listener_go.
    + intros e h Hh. unfold Listener.handler in Hh. handler_cases Hh; listener_go.
  - unfold Listener.finally_clause. listener_go.
Qed.

Lemma tracks_reconnect_loop (n : nat) :
  tracks J (Listener.reconnect_loop en host port history n).
Proof.
  induction n as [|n IH]; simpl; [listener_go|].
  apply (tracks_bind _ J_app); [apply tracks_iteration | intros _; apply IH].
Qed.

End ListenerTracks.

Lemma tracks_minechat_client (en : env) (n : nat) (host : string) (port : Z)
    (history : string)
    (J : state Listener.vars -> state Listener.vars -> list event -> Prop) :
  (forall s, J s s []) ->
  (forall s1 s2 s3 a b, J s1 s2 a -> J s2 s3 b -> J s1 s3 (a ++ b)) ->
  (forall s s' evs, idle s s' evs -> J s s' evs) ->
  (forall m, tracks J (Listener.log_message en history m)) ->
  tracks J (Listener.ensure_log_file en history) ->
  tracks J (Listener.minechat_client en n host port history).
Proof.
  intros J_nil J_app J_idle J_log J_ensure. unfold Listener.minechat_client.
  apply (tracks_bind _ J_app); [exact J_ensure|]. intros _.
  apply (tracks_bind _ J_app);
    [apply (tracks_weaken idle J _ J_idle), idle_put_vars|]. intros _.
  apply tracks_reconnect_loop; assumption.
Qed.

Lemma mirrored_ensure_log_file (en : env) (history : string) :
  tracks (mirrored history) (Listener.ensure_log_file en history).
Proof.
  intros s. destruct (idle_content_ensure_log_file en history s) as [A E].
  unfold mirrored. rewrite E. exact A.
Qed.

Lemma receiving_ensure_log_file (en : env) (history : string) :
  tracks receiving (Listener.ensure_log_file en history).
Proof.
  intros s. destruct (idle_content_ensure_log_file en history s) as [_ E].
  unfold receiving. rewrite E. reflexivity.
Qed.

Lemma receiving_listener_parse_arguments (lib : pylib) (cl : cmdline) :
  tracks receiving (Listener.parse_arguments lib cl).
Proof.
  unfold Listener.parse_arguments, parser_error.
  tracks_go (@receiving_nil Listener.vars) (@receiving_app Listener.vars);
    apply receiving_stderr.
Qed.

(** X1.  The history file mirrors the console: when the file can be opened
    and written every time, what [minechat_client] has appended to the
    history file after any number of turns is exactly the lines it has
    printed, in the same order, and no other file has changed. *)
Theorem history_mirrors_console :
  forall (en : env) (n : nat) (host : string) (port : Z) (history : string)
         (s : state Listener.vars),
    (forall k, fs_error en k = None) ->
    let r := Listener.minechat_client en n host port history s in
    content (st_world (final r)) history
      = (content (st_world s) history ++ file_lines (printed (events r)))%string /\
    forall p, p <> history -> w_files (st_world (final r)) p = w_files (st_world s) p.
Proof.
  intros en n host port history s Hfs r.
  apply (tracks_minechat_client en n host port history (mirrored history)).
  - apply mirrored_nil.
  - apply mirrored_app.
  - apply idle_mirrored.
  - intros m. apply mirrored_log_message, Hfs.
  - apply mirrored_ensure_log_file.
Qed.

(** X2.  The history file is append-only: whatever the network and the file
    system do, [minechat_client] only ever adds text at the end of the history
    file, and changes no other file. *)
Theorem history_is_append_only :
  forall (en : env) (n : nat) (host : string) (port : Z) (history : string)
         (s : state Listener.vars),
    let r := Listener.minechat_client en n host port history s in
    (exists suffix,
       content (st_world (final r)) history
         = (content (st_world s) history ++ suffix)%string) /\
    forall p, p <> history -> w_files (st_world (final r)) p = w_files (st_world s) p.
Proof.
  intros en n host port history s r.
  assert (H : grown history s (final r) (events r)).
  { apply (tracks_minechat_client en n host port history (grown history)).
    - apply grown_nil.
    - apply grown_app.
    - apply idle_grown.
    - apply grown_log_message.
    - intros s0. apply grown_of_mirrored, mirrored_ensure_log_file. }
  destruct H as [suffix [A B]]. split; [exists suffix; exact A | exact B].
Qed.

(** X3.  The listener only listens: whatever happens, it writes nothing to a
    transport, drains none, and asks nothing of an operator. *)
Theorem listener_never_sends :
  forall (en : env) (lib : pylib) (n : nat) (cl : cmdline) (s : state Listener.vars),
    filter outgoing (events (Listener.main en lib n cl s)) = [].
Proof.
  intros en lib n cl s. revert s.
  change (tracks receiving (Listener.main en lib n cl)).
  unfold Listener.main.
  apply (tracks_bind _ receiving_app); [apply receiving_listener_parse_arguments|].
  intros a.
  repeat (apply (tracks_bind _ receiving_app); [apply receiving_print | intros _]).
  apply (tracks_try_except _ receiving_app).
  - apply tracks_minechat_client.
    + apply receiving_nil.
    + apply receiving_app.
    + apply idle_receiving.
    + apply receiving_log_message.
    + apply receiving_ensure_log_file.
  - intros e h Hh. handler_cases Hh; apply receiving_print.
Qed.

(* ================================================================== *)
(** * The [except] clauses of the listener *)
(* ================================================================== *)

Lemma first_printed_log_message (en : env) (history m : string) {A}
    (k : unit -> Listener.Mv A) (s : state Listener.vars) :
  first_printed (events ((Listener.log_message en history m ;; k tt) s))
  = Some (strftime_log (now en (w_clock (st_world s))) ++ " " ++ m)%string.
Proof.
  destruct (log_message_run en history m s) as (s1 & ev1 & R1 & _ & E1 & _).
  rewrite (bind_ok _ _ _ _ _ _ R1), events_after, E1. reflexivity.
Qed.

Lemma outcome_retry (en : env) (history m : string) (s : state Listener.vars) :
  outcome ((Listener.log_message en history m ;;
            Listener.log_message en history "Попытка переподключения через 5 секунд..." ;;
            sleep 5 ;;
            ret Continue) s) = Ok Continue.
Proof.
  destruct (retry_run en history m s) as (s' & ev & R & _). rewrite R. reflexivity.
Qed.

(** X4.  The [except] clauses as a table.  An exception outside [Exception] is
    not caught.  Of the others the listener reports, in this order of
    precedence: a timeout; a partial read, after which the turn ends without
    delay; any other [OSError] as a connection error, the [ConnectionError]s
    of a lost connection among them, so that the clause that would report a
    lost connection is never taken; anything else as unexpected. *)
Theorem handler_reports :
  forall (en : env) (host : string) (port : Z) (history : string) (e : exn)
         (s : state Listener.vars),
    match Listener.handler en host port history e with
    | None => isinstance e Exception = false
    | Some h =>
        isinstance e Exception = true /\
        first_printed (events (h s))
          = Some (strftime_log (now en (w_clock (st_world s))) ++ " "
                  ++ report_of (Listener.endpoint host port) e)%string /\
        outcome (h s)
          = Ok (if isinstance e IncompleteReadError then Normal else Continue)
    end.
Proof.
  intros en host port history [cls msg part] s.
  destruct cls; unfold Listener.handler, report_of, isinstance;
    cbn [e_class e_str e_partial issubclass issubclass_fuel exn_class_eqb base_of
         orb andb];
    try reflexivity;
    (split; [reflexivity|]; split;
     [apply (first_printed_log_message en history _ (fun _ => _))|]);
    try apply outcome_retry.
  destruct (log_message_run en history
              ("Неполное чтение: " ++ decode_ignore part)%string s)
    as (s1 & ev1 & R1 & _).
  rewrite (bind_ok _ _ _ _ _ _ R1). reflexivity.
Qed.

(* ================================================================== *)
(** * The credential file: loading and saving *)
(* ================================================================== *)

Section Credential.

Variable en : env.
Variable hash_file : string.

(** The text of a file cannot be white space only unless there are bytes. *)
Lemma token_not_empty (h : string) :
  PyStr.truthy (PyStr.strip (PyStr.universal_newlines h)) = true ->
  PyStr.truthy h = true.
Proof. destruct h; [vm_compute; trivial | reflexivity]. Qed.

(** X5.  [load_hash] never raises and never writes.  It returns [True] exactly
    when the credential file exists, can be opened and read, holds UTF-8
    text, and this text is something else than white space.  The token is
    then the text of the file (its bytes decoded, every carriage return,
    followed by a line feed or not, read as one line feed) without the white
    space around it.  Otherwise the token is left as it was. *)
Theorem load_hash_result :
  forall s : state Sender.vars,
    let r := Sender.load_hash en hash_file s in
    let raw := content (st_world s) hash_file in
    let stored := PyStr.strip (PyStr.universal_newlines raw) in
    let loaded :=
      match w_files (st_world s) hash_file,
            fs_error en (w_opens (st_world s)),
            fs_error en (S (w_opens (st_world s))) with
      | Some _, None, None => PyStr.is_utf8 raw && PyStr.truthy stored
      | _, _, _ => false
      end in
    outcome r = Ok loaded /\
    st_vars (final r) =
      (if loaded
       then Sender.mkVars (JStr stored) (Sender.nickname (st_vars s))
                          (Sender.writer (st_vars s))
       else st_vars s) /\
    w_files (st_world (final r)) = w_files (st_world s).
Proof.
  intros [[ck op att cs files stdin] [h n wr]].
  unfold Sender.load_hash, path_exists, open_r, f_read, file_attempt,
    Sender.set_account_hash, print, try_except, bind, get_world, put_world,
    get_vars, put_vars, emit, ret, raise, outcome, final, events, content,
    set_opens, PyStr.is_utf8. simpl.
  destruct (files hash_file) as [c|] eqn:F; simpl; [|repeat split].
  destruct (fs_error en op) as [err|]; simpl; [repeat split|].
  repeat (progress (simpl; rewrite ?F)).
  destruct (fs_error en (S op)) as [err|]; simpl; [repeat split|].
  repeat (progress (simpl; rewrite ?F)).
  destruct (PyStr.utf8_error c) as [msg|]; simpl; [repeat split|].
  destruct (PyStr.truthy (PyStr.strip (PyStr.universal_newlines c))); simpl;
    repeat split.
Qed.

(** [load_hash] on a credential file that holds a token. *)
Lemma load_hash_loads (s : state Sender.vars) (raw : string) :
  w_files (st_world s) hash_file = Some raw ->
  fs_error en (w_opens (st_world s)) = None ->
  fs_error en (S (w_opens (st_world s))) = None ->
  PyStr.is_utf8 raw = true ->
  PyStr.truthy (PyStr.strip (PyStr.universal_newlines raw)) = true ->
  st_vars (final (Sender.load_hash en hash_file s))
  = Sender.mkVars (JStr (PyStr.strip (PyStr.universal_newlines raw)))
                  (Sender.nickname (st_vars s)) (Sender.writer (st_vars s)) /\
  w_opens (st_world (final (Sender.load_hash en hash_file s)))
  = S (S (w_opens (st_world s))).
Proof.
  destruct s as [[ck op att cs files stdin] [h n wr]]. simpl. intros F E E2 U T.
  unfold PyStr.is_utf8 in U.
  destruct (PyStr.utf8_error raw) as [msg|] eqn:U'; [discriminate U|].
  unfold Sender.load_hash, path_exists, open_r, f_read, file_attempt,
    Sender.set_account_hash, print, try_except, bind, get_world, put_world,
    get_vars, put_vars, emit, ret, raise, final, set_opens. simpl.
  repeat (progress (simpl; rewrite ?F, ?E, ?E2, ?U', ?T)). split; reflexivity.
Qed.

(** X6.  [save_hash] never raises.  When the credential file cannot be opened it
    is left as it was; otherwise its former content is discarded, and it
    holds the new token, or nothing at all when the value to save is not a
    string or when the write fails.  No other file changes. *)
Theorem save_hash_replaces_content :
  forall (v : json) (s : state Sender.vars),
    let r := Sender.save_hash en hash_file v s in
    outcome r = Ok tt /\
    st_vars (final r) = st_vars s /\
    match fs_error en (w_opens (st_world s)) with
    | Some _ => w_files (st_world (final r)) = w_files (st_world s)
    | None =>
        w_files (st_world (final r)) hash_file
          = Some (match v, fs_error en (S (w_opens (st_world s))) with
                  | JStr h, None => h
                  | _, _ => ""
                  end)
    end /\
    forall p, p <> hash_file -> w_files (st_world (final r)) p = w_files (st_world s) p.
Proof.
  intros v [w vs].
  unfold Sender.save_hash, open_w, f_write, file_attempt, print, try_except, bind,
    get_world, put_world, emit, ret, raise, outcome, final, events. simpl.
  assert (Hput : forall (f : string -> option string) (x : string) (p : string),
            p <> hash_file -> file_put f hash_file x p = f p).
  { intros f x p Hp. unfold file_put.
    destruct (String.eqb p hash_file) eqn:E;
      [apply String.eqb_eq in E; contradiction | reflexivity]. }
  destruct (fs_error en (w_opens w)) as [err|]; simpl; [repeat split|].
  destruct v as [| | | |t| |]; simpl;
    try (destruct t as [|a t]; simpl);
    destruct (fs_error en (S (w_opens w))) as [err|]; simpl; repeat split;
    try (unfold file_put; rewrite !String.eqb_refl; reflexivity);
    try (intros p Hp; rewrite !Hput by assumption; reflexivity).
Qed.

(** X7.  A token that is saved is the token loaded at the next start: when the
    four operations on the credential file succeed (it is opened and
    written, then opened and read), [save_hash] of a text followed by
    [load_hash] gives back this text as a file holds it, every carriage
    return, followed by a line feed or not, read as one line feed, and
    without the white space around it. *)
Theorem saved_hash_is_loaded :
  forall (h : string) (s : state Sender.vars),
    fs_error en (w_opens (st_world s)) = None ->
    fs_error en (S (w_opens (st_world s))) = None ->
    fs_error en (S (S (w_opens (st_world s)))) = None ->
    fs_error en (S (S (S (w_opens (st_world s))))) = None ->
    PyStr.is_utf8 h = true ->
    PyStr.truthy (PyStr.strip (PyStr.universal_newlines h)) = true ->
    let saved := final (Sender.save_hash en hash_file (JStr h) s) in
    let r := Sender.load_hash en hash_file saved in
    w_files (st_world saved) hash_file = Some h /\
    outcome r = Ok true /\
    Sender.account_hash (st_vars (final r))
      = JStr (PyStr.strip (PyStr.universal_newlines h)).
Proof.
  intros h [[ck op att cs files stdin] vs] H1 H2 H3 H4 Hu Ht. simpl in H1, H2, H3, H4.
  pose proof (token_not_empty h Ht) as Hne.
  unfold PyStr.is_utf8 in Hu.
  destruct (PyStr.utf8_error h) as [msg|] eqn:U; [discriminate Hu|].
  unfold Sender.save_hash, Sender.load_hash, path_exists, open_r, open_w,
    f_read, f_write, file_attempt, Sender.set_account_hash, print, try_except,
    bind, get_world, put_world, get_vars, put_vars, emit, ret, raise, outcome,
    final, events, set_opens, set_files, file_put. simpl.
  repeat (progress (simpl; rewrite ?H1, ?H2, ?H3, ?H4, ?Hne, ?String.eqb_refl, ?U, ?Ht)).
  repeat split.
Qed.

End Credential.

(* ================================================================== *)
(** * The session of the sender *)
(* ================================================================== *)

(** The parts of a run, construct by construct. *)
Lemma events_bind {L A B} (m : M L A) (k : A -> M L B) (s : state L) :
  events (bind m k s) =
    (events (m s) ++ match outcome (m s) with
                     | Ok a => events (k a (final (m s)))
                     | Raise _ => []
                     end)%list.
Proof.
  unfold bind, events, outcome, final.
  destruct (m s) as [[[a|e] s1] ev1]; simpl; [|now rewrite app_nil_r].
  destruct (k a s1) as [[r s2] ev2]. reflexivity.
Qed.

Lemma events_try_except {L A} (m : M L A) (h : exn -> option (M L A)) (s : state L) :
  events (try_except m h s) =
    (events (m s) ++ match outcome (m s) with
                     | Ok _ => []
                     | Raise e => match h e with
                                  | Some k => events (k (final (m s)))
                                  | None => []
                                  end
                     end)%list.
Proof.
  unfold try_except, events, outcome, final.
  destruct (m s) as [[[a|e] s1] ev1]; simpl; [now rewrite app_nil_r|].
  destruct (h e) as [k|]; [|now rewrite app_nil_r].
  destruct (k s1) as [[r s2] ev2]. reflexivity.
Qed.

Lemma events_try_finally {L A} (m : M L A) (f : M L unit) (s : state L) :
  events (try_finally m f s) = (events (m s) ++ events (f (final (m s))))%list.
Proof.
  unfold try_finally, events, final.
  destruct (m s) as [[r s1] ev1]; simpl.
  destruct (f s1) as [[[u|e] s2] ev2]; reflexivity.
Qed.

Section Session.

Variable en : env.
Variable lib : pylib.
Variable host : string.
Variable port : Z.
Variable hash_file : string.

(** The [finally] clause of the sender never raises, and its last action is
    the report that the connection is closed. *)
Lemma sender_finally_last (s : state Sender.vars) :
  exists s' ev,
    Sender.finally_clause s = (Ok tt, s', (ev ++ [EvPrint "Соединение закрыто"])%list) /\
    pace ev = [] /\
    (Sender.writer (st_vars s) = None -> ev = [] /\ s' = s).
Proof.
  unfold Sender.finally_clause.
  rewrite (bind_ok _ _ _ _ _ _ (eq_refl : get_vars s = (Ok (st_vars s), s, []))).
  cbv beta.
  destruct (Sender.writer (st_vars s)) as [c|].
  - unfold is_closing, close, wait_closed, print, bind, get_world, put_world, emit, ret.
    simpl. destruct (transport_open (conn_get (st_world s) c)); simpl.
    + eexists. exists [EvIsClosing c false; EvClose c].
      split; [reflexivity|]. split; [reflexivity | discriminate].
    + eexists. exists [EvIsClosing c true].
      split; [reflexivity|]. split; [reflexivity | discriminate].
  - exists s, []. split; [reflexivity|]. split; [reflexivity|]. intros _. split; reflexivity.
Qed.

Lemma pace_silent (evs : list event) : silent evs -> pace evs = [].
Proof. intros H. rewrite pace_of_net. unfold silent in H. rewrite H. reflexivity. Qed.

(** The connection attempts of a session are those of its handshake. *)
Lemma interactive_mode_pace (s : state Sender.vars) :
  pace (events (Sender.interactive_mode en lib host port hash_file s))
  = pace (events (Sender.connect_and_auth en lib host port hash_file s)).
Proof.
  unfold Sender.interactive_mode.
  rewrite events_try_finally, pace_app.
  match goal with
  | |- context [Sender.finally_clause ?x] =>
      destruct (sender_finally_last x) as (s' & ev & R & P & _); rewrite R
  end.
  unfold events at 2. cbn [snd]. rewrite pace_app, P. cbn [pace filter is_pace app].
  rewrite app_nil_r, events_try_except, pace_app, events_bind, pace_app.
  assert (H2 : forall e : exn,
            pace match (if isinstance e Exception
                        then Some (@print Sender.vars ("Ошибка подключения: " ++ e_str e))
                        else None) with
                 | Some k => events (k (final ((c <- Sender.connect_and_auth en lib host port hash_file;;
                                               Sender.set_writer c;; Sender.exchange c) s)))
                 | None => []
                 end = []).
  { intros e. destruct (isinstance e Exception); reflexivity. }
  assert (H1 : forall c s1,
            pace (events ((Sender.set_writer c;; Sender.exchange c) s1)) = []).
  { intros c s1. rewrite events_bind, pace_app. cbn [outcome fst Sender.set_writer].
    unfold Sender.set_writer at 1. unfold bind, get_vars, put_vars, events, outcome,
      final. cbn [fst snd app pace filter].
    apply pace_silent. apply (proj2 (quiet_exchange c _)). }
  destruct (outcome ((c <- Sender.connect_and_auth en lib host port hash_file;;
                      Sender.set_writer c;; Sender.exchange c) s)) as [u|e];
    [|rewrite H2];
    (destruct (outcome (Sender.connect_and_auth en lib host port hash_file s)) as [c|e'];
     [rewrite H1|]; cbn [pace filter]; rewrite ?app_nil_r; reflexivity).
Qed.

(** X8.  The sender never retries and never waits: a session makes one
    connection attempt, or two when it goes on to register, both without a
    timeout, and it never sleeps. *)
Theorem sender_connects_at_most_twice :
  forall s : state Sender.vars,
    let k := w_attempts (st_world s) in
    let p := pace (events (Sender.interactive_mode en lib host port hash_file s)) in
    p = [EvConnect k None] \/ p = [EvConnect k None; EvConnect (S k) None].
Proof.
  intros s k p. subst p. rewrite interactive_mode_pace, pace_of_net.
  destruct (connect_and_auth_run en lib host port hash_file s)
    as (r & s1 & ev1 & c2 & R1 & _ & _ & Hcases).
  rewrite R1. unfold events. cbn [snd].
  destruct Hcases as [(N1 & _) | [(N1 & _) | [(N1 & _) | (N1 & _)]]]; rewrite N1;
    [left | left | right | right]; reflexivity.
Qed.

(** X9.  A session always ends by reporting that the connection is closed, and
    no exception of class [Exception] leaves [interactive_mode]. *)
Theorem session_always_reports_closure :
  forall s : state Sender.vars,
    let r := Sender.interactive_mode en lib host port hash_file s in
    (exists evs, events r = (evs ++ [EvPrint "Соединение закрыто"])%list) /\
    (forall e, outcome r = Raise e -> isinstance e Exception = false).
Proof.
  intros s r. subst r. unfold Sender.interactive_mode, try_finally.
  match goal with
  | |- context [try_except ?m ?h s] =>
      assert (Hbody : forall e, outcome (try_except m h s) = Raise e ->
                                isinstance e Exception = false);
      [ | destruct (try_except m h s) as [[r1 s1] ev1] ]
  end.
  { intros e. unfold try_except, outcome.
    match goal with |- context [bind ?m ?k s] => destruct (bind m k s) as [[[u|e0] s1] ev1] end;
      cbn [fst]; [discriminate|].
    destruct (isinstance e0 Exception) eqn:E.
    - unfold print, emit. cbn [fst]. discriminate.
    - cbn [fst]. intros H. injection H as <-. exact E. }
  destruct (sender_finally_last s1) as (s2 & ev2 & R2 & _). rewrite R2.
  unfold events, outcome in *. cbn [fst snd] in *. split.
  - exists (ev1 ++ ev2)%list. now rewrite app_assoc.
  - exact Hbody.
Qed.

(** X10.  When the handshake fails, by an exception of class [Exception], the
    session reports a connection error and ends normally, and it closes
    nothing: [interactive_mode] has no writer yet, so a transport that the
    handshake has opened is left as the handshake left it. *)
Theorem failed_handshake_closes_nothing :
  forall (s : state Sender.vars) (e : exn),
    Sender.writer (st_vars s) = None ->
    outcome (Sender.connect_and_auth en lib host port hash_file s) = Raise e ->
    isinstance e Exception = true ->
    let h := Sender.connect_and_auth en lib host port hash_file s in
    let r := Sender.interactive_mode en lib host port hash_file s in
    outcome r = Ok tt /\
    events r = (events h ++ [EvPrint ("Ошибка подключения: " ++ e_str e);
                             EvPrint "Соединение закрыто"])%list /\
    final r = final h.
Proof.
  intros s e Hw Hr He h r. subst h r.
  destruct (connect_and_auth_run en lib host port hash_file s)
    as (r1 & s1 & ev1 & c2 & R1 & W1 & _).
  rewrite R1 in *. unfold outcome in Hr. cbn [fst] in Hr. subst r1.
  unfold Sender.interactive_mode, try_finally, try_except.
  rewrite (bind_raise _ _ _ _ _ _ R1), He. unfold print, emit.
  destruct (sender_finally_last s1) as (s2 & ev2 & R2 & _ & Hnone).
  rewrite R2. rewrite W1 in Hnone. destruct (Hnone Hw) as [-> ->].
  unfold outcome, events, final. cbn [fst snd]. repeat split.
  rewrite <- app_assoc. reflexivity.
Qed.

End Session.

(* ================================================================== *)
(** * The exchange of messages: how it ends *)
(* ================================================================== *)

Lemma strip_empty : PyStr.strip "" = "".
Proof. vm_compute. reflexivity. Qed.

Lemma exception_is_not_interrupt (e : exn) :
  isinstance e Exception = true -> isinstance e KeyboardInterrupt = false.
Proof. destruct e as [cls msg part]. destruct cls; vm_compute; congruence. Qed.

Lemma same_stdin_nil {L} (s : state L) : same_stdin s s [].
Proof. reflexivity. Qed.

Lemma same_stdin_app {L} (s1 s2 s3 : state L) (a b : list event) :
  same_stdin s1 s2 a -> same_stdin s2 s3 b -> same_stdin s1 s3 (a ++ b).
Proof. unfold same_stdin. congruence. Qed.

Lemma same_stdin_send_message (c : nat) (m : string) :
  tracks same_stdin (Sender.send_message c m).
Proof.
  intros [w v].
  unfold Sender.send_message, write, drain, readline, Sender.decode, print, bind, emit,
    get_world, put_world, ret, raise, same_stdin, final, events. simpl.
  destruct (t_drain (conn_get w c)) as [|[e|] ds]; simpl; try reflexivity.
  - destruct (t_incoming (conn_get w c)) as [|[[t|t]|e] rest]; reflexivity.
  - match goal with
    | |- context [t_incoming ?x] => destruct (t_incoming x) as [|[[t|t]|e] rest]
    end; reflexivity.
Qed.

Section Exchange.

Variable c : nat.

(** A turn that goes on has taken exactly one line of the operator's input;
    no turn asks for another turn at once. *)
Lemma message_turn_consumes (s : state Sender.vars) :
  match outcome (Sender.message_turn c s) with
  | Ok Normal => S (length (w_stdin (st_world (final (Sender.message_turn c s)))))
                 = length (w_stdin (st_world s))
  | Ok Continue => False
  | _ => True
  end.
Proof.
  unfold Sender.message_turn, try_except.
  destruct (w_stdin (st_world s)) as [|[t|e] rest] eqn:Hin.
  - assert (R : input "> " s =
                  (Raise (new_exn EOFError "EOF when reading a line"), s, [EvInput "> "])).
    { destruct s as [w v]. simpl in Hin. unfold input, bind, emit, get_world, raise.
      simpl. rewrite Hin. reflexivity. }
    rewrite (bind_raise _ _ _ _ _ _ R). vm_compute. exact I.
  - destruct (input_run "> " t rest s Hin) as (s1 & R1 & I1 & _).
    rewrite (bind_ok _ _ _ _ _ _ R1). cbv beta zeta.
    destruct (PyStr.truthy (PyStr.strip t)); cbn [negb].
    + pose proof (same_stdin_send_message c (PyStr.strip t) s1) as Hs.
      unfold same_stdin, final in Hs. unfold bind, after.
      destruct (Sender.send_message c (PyStr.strip t) s1) as [[[u|e] s2] ev2];
        cbn [fst snd] in *.
      * unfold ret, outcome, final. cbn [fst snd]. rewrite Hs, I1. reflexivity.
      * destruct (isinstance e KeyboardInterrupt); [exact I|].
        destruct (isinstance e Exception); exact I.
    + exact I.
  - assert (R : input "> " s = (Raise e, mkState (set_stdin (st_world s) rest) (st_vars s),
                                [EvInput "> "])).
    { destruct s as [w v]. simpl in Hin. unfold input, bind, emit, get_world, put_world,
        raise. simpl. rewrite Hin. reflexivity. }
    rewrite (bind_raise _ _ _ _ _ _ R).
    destruct (isinstance e KeyboardInterrupt); [exact I|].
    destruct (isinstance e Exception); exact I.
Qed.

End Exchange.

(** X11.  The exchange of messages always ends: the loop makes at most one turn
    for each line of the operator's input and one more, on which [input()]
    fails.  Turns beyond that number are never reached. *)
Theorem message_loop_ends :
  forall (fuel c : nat) (s : state Sender.vars),
    length (w_stdin (st_world s)) < fuel ->
    Sender.message_loop fuel c s
    = Sender.message_loop (S (length (w_stdin (st_world s)))) c s.
Proof.
  intros fuel c s.
  remember (length (w_stdin (st_world s))) as n eqn:Hn.
  revert fuel s Hn. induction n as [|n IH]; intros fuel s Hn Hlt;
    (destruct fuel as [|fuel]; [lia|]); cbn [Sender.message_loop];
    pose proof (message_turn_consumes c s) as Hc;
    unfold bind; unfold outcome, final in Hc;
    destruct (Sender.message_turn c s) as [[[[| |]|e] s1] ev1]; cbn [fst snd] in Hc;
    try reflexivity; try contradiction.
  - rewrite <- Hn in Hc. discriminate Hc.
  - rewrite <- Hn in Hc. injection Hc as Hc.
    rewrite (IH fuel s1 (eq_sym Hc) ltac:(lia)). reflexivity.
Qed.

(** X12.  The sender does not notice that the server has closed the connection:
    when no acknowledgement comes, the end of the stream is displayed as an
    empty line and the exchange goes on with the next line of input. *)
Theorem missing_acknowledgement_is_blank :
  forall (c : nat) (t : string) (rest : list input_event) (s : state Sender.vars),
    w_stdin (st_world s) = Typed t :: rest ->
    PyStr.truthy (PyStr.strip t) = true ->
    t_incoming (conn_get (st_world s) c) = [] ->
    t_drain (conn_get (st_world s) c) = [] ->
    exists s',
      Sender.message_turn c s =
        (Ok Normal, s',
         [EvInput "> "; EvWrite c (PyStr.strip t ++ PyStr.nl); EvDrain c; EvRead c;
          EvPrint ""]) /\
      w_stdin (st_world s') = rest.
Proof.
  intros c t rest s Hin Ht Hinc Hdr.
  destruct (input_run "> " t rest s Hin) as (s1 & R1 & I1 & C1 & _).
  assert (Hinc1 : t_incoming (conn_get (st_world s1) c) = [])
    by (unfold conn_get in *; rewrite C1; exact Hinc).
  assert (Hdr1 : t_drain (conn_get (st_world s1) c) = [])
    by (unfold conn_get in *; rewrite C1; exact Hdr).
  exists s1. split; [|exact I1].
  unfold Sender.message_turn, try_except.
  rewrite (bind_ok _ _ _ _ _ _ R1). cbv beta zeta. rewrite Ht. cbn [negb].
  unfold Sender.send_message.
  assert (Hsend :
    (write c (PyStr.strip t ++ PyStr.nl) ;; drain c ;; response <- readline c ;;
     r <- Sender.decode response ;; print (PyStr.strip r)) s1
    = (Ok tt, s1, [EvWrite c (PyStr.strip t ++ PyStr.nl); EvDrain c; EvRead c; EvPrint ""])).
  { rewrite (bind_ok _ _ _ _ _ _ (eq_refl : write c _ s1 = (Ok tt, s1, [_]))). cbv beta.
    rewrite (bind_ok _ _ _ _ _ _ (drain_ok c s1 Hdr1)). cbv beta.
    rewrite (bind_ok _ _ _ _ _ _ (readline_eof c s1 Hinc1)). cbv beta.
    rewrite (bind_ok _ _ _ _ _ _ (eq_refl : Sender.decode (Utf8 "") s1 = (Ok "", s1, []))).
    cbv beta. rewrite strip_empty. reflexivity. }
  rewrite (bind_ok _ _ _ _ _ _ Hsend). reflexivity.
Qed.

(** X13.  An error while sending ends the exchange: when [drain()] raises an
    exception of class [Exception], the sender reports it, leaves the loop
    without raising, and reads no further line of the operator. *)
Theorem send_failure_ends_exchange :
  forall (fuel c : nat) (t : string) (rest : list input_event) (e : exn)
         (later : list (option exn)) (s : state Sender.vars),
    w_stdin (st_world s) = Typed t :: rest ->
    PyStr.truthy (PyStr.strip t) = true ->
    t_drain (conn_get (st_world s) c) = Some e :: later ->
    isinstance e Exception = true ->
    let r := Sender.message_loop (S fuel) c s in
    outcome r = Ok tt /\
    events r =
      [EvInput "> "; EvWrite c (PyStr.strip t ++ PyStr.nl); EvDrain c;
       EvPrint ("Ошибка отправки сообщения: " ++ e_str e)] /\
    w_stdin (st_world (final r)) = rest.
Proof.
  intros fuel c t rest e later s Hin Ht Hdr He r. subst r.
  destruct (input_run "> " t rest s Hin) as (s1 & R1 & I1 & C1 & _).
  assert (Hdr1 : t_drain (conn_get (st_world s1) c) = Some e :: later)
    by (unfold conn_get in *; rewrite C1; exact Hdr).
  assert (Hdrain : exists s2,
            drain c s1 = (Raise e, s2, [EvDrain c]) /\
            w_stdin (st_world s2) = w_stdin (st_world s1)).
  { destruct s1 as [w v]. simpl in Hdr1.
    unfold drain, bind, emit, get_world, put_world, raise. simpl. rewrite Hdr1. simpl.
    eexists. split; reflexivity. }
  destruct Hdrain as (s2 & R2 & I2).
  assert (Hturn :
    Sender.message_turn c s =
      (Ok Break, s2,
       [EvInput "> "; EvWrite c (PyStr.strip t ++ PyStr.nl); EvDrain c;
        EvPrint ("Ошибка отправки сообщения: " ++ e_str e)])).
  { unfold Sender.message_turn, try_except.
    rewrite (bind_ok _ _ _ _ _ _ R1). cbv beta zeta. rewrite Ht. cbn [negb].
    assert (Hsend :
      Sender.send_message c (PyStr.strip t) s1
      = (Raise e, s2, [EvWrite c (PyStr.strip t ++ PyStr.nl); EvDrain c])).
    { unfold Sender.send_message.
      rewrite (bind_ok _ _ _ _ _ _ (eq_refl : write c _ s1 = (Ok tt, s1, [_]))). cbv beta.
      rewrite (bind_raise _ _ _ _ _ _ R2). reflexivity. }
    rewrite (bind_raise _ _ _ _ _ _ Hsend). unfold after.
    rewrite (exception_is_not_interrupt e He), He.
    reflexivity. }
  cbn [Sender.message_loop]. rewrite (bind_ok _ _ _ _ _ _ Hturn).
  unfold ret, after, outcome, events, final. cbn [fst snd].
  rewrite app_nil_r, I2, I1. repeat split.
Qed.

(* ================================================================== *)
(** * The handshake with a stored token *)
(* ================================================================== *)

Section Login.

Variable en : env.
Variable lib : pylib.
Variable host : string.
Variable port : Z.
Variable hash_file : string.

(** X14.  A token that the server accepts is used on the first connection and
    nothing else happens: the sender connects once, reads the greeting,
    sends the token on a line of its own, reads the account record, takes
    the nickname from it and returns the transport.  It does not connect a
    second time, and the token it holds is unchanged. *)
Theorem login_on_first_connection :
  forall (s : state Sender.vars) (h g r : string) (sc : conn_script)
         (rest : list read_event) (d : list (string * json)) (n : json),
    Sender.account_hash (st_vars s) = JStr h ->
    PyStr.truthy h = true ->
    net en (w_attempts (st_world s)) = Connected sc ->
    cs_incoming sc = Line (Utf8 g) :: Line (Utf8 r) :: rest ->
    cs_drain sc = [] ->
    json_loads lib (PyStr.strip r) = Some (JDict d) ->
    dict_get d "nickname" = Some n ->
    let c := length (w_conns (st_world s)) in
    let run := Sender.connect_and_auth en lib host port hash_file s in
    outcome run = Ok c /\
    events run =
      [EvPrint ("Подключение к " ++ host ++ ":" ++ PyStr.of_int port ++ "...");
       EvConnect (w_attempts (st_world s)) None; EvOpened c;
       EvPrint "Соединение установлено";
       EvPrint "Авторизация с существующим hash...";
       EvRead c; EvPrint (PyStr.strip g);
       EvWrite c (h ++ PyStr.nl); EvDrain c;
       EvRead c; EvPrint ("Авторизация успешна: " ++ py_str lib n)] /\
    st_vars (final run) = Sender.mkVars (JStr h) n (Sender.writer (st_vars s)) /\
    t_incoming (conn_get (st_world (final run)) c) = rest.
Proof.
  intros s h g r sc rest d n Hh Ht Hnet Hin Hdr Hloads Hnick c run.
  assert (Hc : c = length (w_conns (st_world s))) by reflexivity.
  clearbody c. subst run. unfold Sender.connect_and_auth.
  rewrite (bind_ok _ _ _ _ _ _ (eq_refl : print _ s = (Ok tt, s, [_]))). cbv beta.
  destruct (open_connection_succeeds en None s sc Hnet)
    as (s1 & R1 & V1 & A1 & C1 & _ & I1 & _).
  rewrite <- Hc in R1.
  rewrite (bind_ok _ _ _ _ _ _ R1). cbv beta.
  rewrite (bind_ok _ _ _ _ _ _ (eq_refl : print _ s1 = (Ok tt, s1, [_]))). cbv beta.
  rewrite (bind_ok _ _ _ _ _ _ (eq_refl : get_vars s1 = (Ok (st_vars s1), s1, []))).
  cbv beta. rewrite V1, Hh. cbn [json_truthy]. rewrite Ht.
  assert (Hconn : conn_get (st_world s1) c
                  = mkTransport (cs_incoming sc) (cs_drain sc) (cs_lost sc) false).
  { unfold conn_get. rewrite C1, Hc. apply nth_middle. }
  assert (Hin1 : t_incoming (conn_get (st_world s1) c) = Line (Utf8 g) :: Line (Utf8 r) :: rest)
    by (rewrite Hconn; exact Hin).
  assert (Hdr1 : t_drain (conn_get (st_world s1) c) = [])
    by (rewrite Hconn; exact Hdr).
  assert (Hlogin : exists s4,
    Sender.login_with_hash lib c s1 =
      (Ok true, s4,
       [EvPrint "Авторизация с существующим hash...";
        EvRead c; EvPrint (PyStr.strip g);
        EvWrite c (h ++ PyStr.nl); EvDrain c;
        EvRead c; EvPrint ("Авторизация успешна: " ++ py_str lib n)]) /\
    st_vars s4 = Sender.mkVars (JStr h) n (Sender.writer (st_vars s)) /\
    t_incoming (conn_get (st_world s4) c) = rest).
  { unfold Sender.login_with_hash.
    rewrite (bind_ok _ _ _ _ _ _ (eq_refl : print _ s1 = (Ok tt, s1, [_]))). cbv beta.
    destruct (readline_run c s1 _ _ Hin1) as (s2 & R2 & In2 & D2 & V2 & _).
    rewrite (bind_ok _ _ _ _ _ _ R2). cbv beta.
    rewrite (bind_ok _ _ _ _ _ _ (eq_refl : Sender.decode (Utf8 g) s2 = (Ok g, s2, []))).
    cbv beta.
    rewrite (bind_ok _ _ _ _ _ _ (eq_refl : print _ s2 = (Ok tt, s2, [_]))). cbv beta.
    rewrite (bind_ok _ _ _ _ _ _ (eq_refl : get_vars s2 = (Ok (st_vars s2), s2, []))).
    cbv beta. rewrite V2, V1, Hh. cbn [py_str].
    rewrite (bind_ok _ _ _ _ _ _ (eq_refl : write c _ s2 = (Ok tt, s2, [_]))). cbv beta.
    rewrite Hdr1 in D2.
    rewrite (bind_ok _ _ _ _ _ _ (drain_ok c s2 D2)). cbv beta.
    destruct (readline_run c s2 _ _ In2) as (s3 & R3 & In3 & _ & V3 & _).
    rewrite (bind_ok _ _ _ _ _ _ R3). cbv beta.
    unfold try_except.
    rewrite (bind_ok _ _ _ _ _ _ (eq_refl : Sender.decode (Utf8 r) s3 = (Ok r, s3, []))).
    cbv beta.
    assert (Hl : Sender.loads lib (PyStr.strip r) s3 = (Ok (JDict d), s3, []))
      by (unfold Sender.loads; rewrite Hloads; reflexivity).
    rewrite (bind_ok _ _ _ _ _ _ Hl). cbv beta.
    assert (Hg : Sender.getitem (JDict d) "nickname" s3 = (Ok n, s3, []))
      by (unfold Sender.getitem; rewrite Hnick; reflexivity).
    rewrite (bind_ok _ _ _ _ _ _ Hg). cbv beta.
    unfold Sender.set_nickname, print, bind, get_vars, put_vars, emit, ret, after.
    cbn [fst snd app]. eexists. split; [reflexivity|]. cbn [st_vars st_world].
    split; [|exact In3].
    rewrite V3, V2, V1, Hh. reflexivity. }
  destruct Hlogin as (s4 & R4 & V4 & In4).
  rewrite (bind_ok _ _ _ _ _ _ R4). cbv beta iota.
  unfold ret, after, outcome, events, final. cbn [fst snd app].
  repeat split; assumption.
Qed.

End Login.

(* ================================================================== *)
(** * How the listener ends *)
(* ================================================================== *)

Section ListenerEnds.

Variable en : env.
Variable host : string.
Variable port : Z.
Variable history : string.

(** No exception of class [Exception] leaves the loop. *)
Lemma reconnect_loop_raises (n : nat) :
  forall (s : state Listener.vars) (e : exn),
    outcome (Listener.reconnect_loop en host port history n s) = Raise e ->
    isinstance e Exception = false.
Proof.
  induction n as [|n IH]; intros s e; cbn [Listener.reconnect_loop].
  - discriminate.
  - destruct (iteration_run en host port history s) as (r1 & s1 & ev1 & R1 & Hr & _).
    destruct r1 as [x|e1].
    + rewrite (bind_ok _ _ _ _ _ _ R1), outcome_after. apply IH.
    + rewrite (bind_raise _ _ _ _ _ _ R1). unfold outcome. cbn [fst].
      intros H. injection H as <-.
      destruct (exit_of (net en (w_attempts (st_world s)))) as [e0|]; [|discriminate Hr].
      destruct (isinstance e0 Exception) eqn:E.
      * destruct Hr as [x Hx]. discriminate Hx.
      * injection Hr as ->. exact E.
Qed.

(** How [ensure_log_file] runs. *)
Lemma ensure_log_file_run (s : state Listener.vars) :
  match w_files (st_world s) history, fs_error en (w_opens (st_world s)) with
  | Some _, _ => Listener.ensure_log_file en history s = (Ok tt, s, [])
  | None, None =>
      exists s', Listener.ensure_log_file en history s = (Ok tt, s', []) /\
                 w_files (st_world s') history = Some ""
  | None, Some msg =>
      exists s', Listener.ensure_log_file en history s = (Raise (new_exn OSError msg), s', []) /\
                 w_files (st_world s') = w_files (st_world s)
  end.
Proof.
  destruct s as [w v].
  unfold Listener.ensure_log_file, path_exists, open_w, f_write, file_attempt,
    bind, get_world, put_world, ret, raise. simpl.
  destruct (w_files w history) as [old|] eqn:F; simpl; [reflexivity|].
  destruct (fs_error en (w_opens w)) as [msg|]; simpl.
  - eexists. split; reflexivity.
  - eexists. split; [reflexivity|]. simpl. unfold file_put.
    rewrite !String.eqb_refl. reflexivity.
Qed.

End ListenerEnds.

(** X15.  The only error that ends the listener is at start-up: an exception of
    class [Exception] leaves [minechat_client] only when the history file is
    missing and cannot be created.  The exception is then the [OSError] of
    the file system, and nothing has been printed, written or attempted.
    Every later error is handled inside the loop. *)
Theorem only_startup_failure_ends_listener :
  forall (en : env) (n : nat) (host : string) (port : Z) (history : string)
         (s : state Listener.vars) (e : exn),
    outcome (Listener.minechat_client en n host port history s) = Raise e ->
    isinstance e Exception = true ->
    w_files (st_world s) history = None /\
    fs_error en (w_opens (st_world s)) = Some (e_str e) /\
    e_class e = OSError /\
    events (Listener.minechat_client en n host port history s) = [] /\
    w_files (st_world (final (Listener.minechat_client en n host port history s)))
      = w_files (st_world s).
Proof.
  intros en n host port history s e Hr He.
  pose proof (ensure_log_file_run en history s) as Hrun.
  unfold Listener.minechat_client in *.
  assert (Hloop : forall s1 : state Listener.vars,
            outcome ((put_vars (Listener.mkVars None None) ;;
                      Listener.reconnect_loop en host port history n) s1) <> Raise e).
  { intros s1 H.
    rewrite (bind_ok _ _ _ _ _ _ eq_refl), outcome_after in H.
    apply reconnect_loop_raises in H. congruence. }
  destruct (w_files (st_world s) history) as [old|].
  - rewrite (bind_ok _ _ _ _ _ _ Hrun), outcome_after in Hr.
    destruct (Hloop _ Hr).
  - destruct (fs_error en (w_opens (st_world s))) as [msg|].
    + destruct Hrun as (s' & R & F).
      rewrite (bind_raise _ _ _ _ _ _ R) in *.
      unfold outcome in Hr. cbn [fst] in Hr. injection Hr as <-.
      repeat split. exact F.
    + destruct Hrun as (s' & R & _).
      rewrite (bind_ok _ _ _ _ _ _ R), outcome_after in Hr.
      destruct (Hloop _ Hr).
Qed.

(* ================================================================== *)
(** * The settings that are accepted *)
(* ================================================================== *)

Ltac parse_run :=
  unfold parser_error, bind, emit, ret, raise, outcome; simpl.

Lemma listener_parse_arguments_accepts :
  forall (lib : pylib) (cl : cmdline) (s : state Listener.vars) (a : args),
    Listener.parse_arguments lib cl s = (Ok a, s, [])
    <-> usable lib cl "MINECHAT_HOST" "MINECHAT_PORT" "MINECHAT_HISTORY" a.
Proof.
  intros lib cl s [h z f]. unfold usable, resolved, port_text, Listener.parse_arguments.
  cbn [a_host a_port a_file].
  destruct (py_int lib (getenv cl "MINECHAT_PORT" "0")) as [z0|] eqn:E0.
  - destruct (flag_port cl) as [p|].
    + destruct (py_int lib p) as [z1|] eqn:E1; parse_run.
      * destruct (PyStr.truthy (match flag_host cl with Some v => v | None => _ end)) eqn:Hh;
          simpl.
        -- destruct (Z.eqb z1 0) eqn:Hz; simpl.
           ++ split; [discriminate|]. intros (_ & _ & _ & Hp & Hnz & _).
              injection Hp as ->. apply Z.eqb_eq in Hz. contradiction.
           ++ destruct (PyStr.truthy (match flag_file cl with Some v => v | None => _ end))
                eqn:Hf; simpl.
              ** split.
                 --- intros H. injection H as <- <- <-. apply Z.eqb_neq in Hz.
                     repeat split; try assumption; discriminate.
                 --- intros (_ & -> & _ & Hp & _ & -> & _). injection Hp as ->. reflexivity.
              ** split; [discriminate|]. intros (_ & _ & _ & _ & _ & -> & Hf').
                 congruence.
        -- split; [discriminate|]. intros (_ & -> & Hh' & _). congruence.
      * split; [discriminate|]. intros (_ & _ & _ & Hp & _). discriminate Hp.
    + rewrite E0. parse_run.
      destruct (PyStr.truthy (match flag_host cl with Some v => v | None => _ end)) eqn:Hh;
        simpl.
      * destruct (Z.eqb z0 0) eqn:Hz; simpl.
        -- split; [discriminate|]. intros (_ & _ & _ & Hp & Hnz & _).
           injection Hp as ->. apply Z.eqb_eq in Hz. contradiction.
        -- destruct (PyStr.truthy (match flag_file cl with Some v => v | None => _ end))
             eqn:Hf; simpl.
           ++ split.
              ** intros H. injection H as <- <- <-. apply Z.eqb_neq in Hz.
                 repeat split; try assumption; discriminate.
              ** intros (_ & -> & _ & Hp & _ & -> & _). injection Hp as ->. reflexivity.
           ++ split; [discriminate|]. intros (_ & _ & _ & _ & _ & -> & Hf').
              congruence.
      * split; [discriminate|]. intros (_ & -> & Hh' & _). congruence.
  - parse_run. split; [discriminate|]. intros (H & _). contradiction.
Qed.

Lemma sender_parse_arguments_accepts :
  forall (lib : pylib) (cl : cmdline) (s : state Sender.vars) (a : args),
    Sender.parse_arguments lib cl s = (Ok a, s, [])
    <-> usable lib cl "MINECHAT_HOST_WRITER" "MINECHAT_PORT" "MINECHAT_HASH" a.
Proof.
  intros lib cl s [h z f]. unfold usable, resolved, port_text, Sender.parse_arguments.
  cbn [a_host a_port a_file].
  destruct (py_int lib (getenv cl "MINECHAT_PORT" "0")) as [z0|] eqn:E0.
  - destruct (flag_port cl) as [p|].
    + destruct (py_int lib p) as [z1|] eqn:E1; parse_run.
      * destruct (PyStr.truthy (match flag_host cl with Some v => v | None => _ end)) eqn:Hh;
          simpl.
        -- destruct (Z.eqb z1 0) eqn:Hz; simpl.
           ++ split; [discriminate|]. intros (_ & _ & _ & Hp & Hnz & _).
              injection Hp as ->. apply Z.eqb_eq in Hz. contradiction.
           ++ destruct (PyStr.truthy (match flag_file cl with Some v => v | None => _ end))
                eqn:Hf; simpl.
              ** split.
                 --- intros H. injection H as <- <- <-. apply Z.eqb_neq in Hz.
                     repeat split; try assumption; discriminate.
                 --- intros (_ & -> & _ & Hp & _ & -> & _). injection Hp as ->. reflexivity.
              ** split; [discriminate|]. intros (_ & _ & _ & _ & _ & -> & Hf').
                 congruence.
        -- split; [discriminate|]. intros (_ & -> & Hh' & _). congruence.
      * split; [discriminate|]. intros (_ & _ & _ & Hp & _). discriminate Hp.
    + rewrite E0. parse_run.
      destruct (PyStr.truthy (match flag_host cl with Some v => v | None => _ end)) eqn:Hh;
        simpl.
      * destruct (Z.eqb z0 0) eqn:Hz; simpl.
        -- split; [discriminate|]. intros (_ & _ & _ & Hp & Hnz & _).
           injection Hp as ->. apply Z.eqb_eq in Hz. contradiction.
        -- destruct (PyStr.truthy (match flag_file cl with Some v => v | None => _ end))
             eqn:Hf; simpl.
           ++ split.
              ** intros H. injection H as <- <- <-. apply Z.eqb_neq in Hz.
                 repeat split; try assumption; discriminate.
              ** intros (_ & -> & _ & Hp & _ & -> & _). injection Hp as ->. reflexivity.
           ++ split; [discriminate|]. intros (_ & _ & _ & _ & _ & -> & Hf').
              congruence.
      * split; [discriminate|]. intros (_ & -> & Hh' & _). congruence.
  - parse_run. split; [discriminate|]. intros (H & _). contradiction.
Qed.

Ltac parse_cases :=
  repeat match goal with
         | |- context [match py_int ?l ?t with _ => _ end] => destruct (py_int l t)
         | |- context [match flag_port ?c with _ => _ end] => destruct (flag_port c)
         | |- context [if negb (PyStr.truthy ?x) then _ else _] =>
             destruct (PyStr.truthy x)
         | |- context [if Z.eqb ?x 0 then _ else _] => destruct (Z.eqb x 0)
         | _ => progress parse_run
         end.

Lemma listener_parse_arguments_silent (lib : pylib) (cl : cmdline)
    (s : state Listener.vars) (a : args) :
  outcome (Listener.parse_arguments lib cl s) = Ok a ->
  Listener.parse_arguments lib cl s = (Ok a, s, []).
Proof.
  unfold Listener.parse_arguments. parse_cases;
    intros H; try discriminate H; injection H as <-; reflexivity.
Qed.

Lemma sender_parse_arguments_silent (lib : pylib) (cl : cmdline)
    (s : state Sender.vars) (a : args) :
  outcome (Sender.parse_arguments lib cl s) = Ok a ->
  Sender.parse_arguments lib cl s = (Ok a, s, []).
Proof.
  unfold Sender.parse_arguments. parse_cases;
    intros H; try discriminate H; injection H as <-; reflexivity.
Qed.

(** X16.  [parse_arguments] of the listener returns exactly when the settings are
    usable, and then it returns them without any output.  In particular a
    port of zero, an empty host and an empty path are refused even when they
    are given by a flag, and so is a port variable that is not a number even
    when the port is given by its flag. *)
Theorem listener_settings_accepted_iff :
  forall (lib : pylib) (cl : cmdline) (s : state Listener.vars) (a : args),
    let r := Listener.parse_arguments lib cl s in
    (outcome r = Ok a
     <-> usable lib cl "MINECHAT_HOST" "MINECHAT_PORT" "MINECHAT_HISTORY" a) /\
    (outcome r = Ok a -> events r = [] /\ final r = s).
Proof.
  intros lib cl s a r. subst r. split; [split|].
  - intros H. apply (listener_parse_arguments_accepts lib cl s a).
    apply listener_parse_arguments_silent, H.
  - intros H. apply (listener_parse_arguments_accepts lib cl s a) in H.
    rewrite H. reflexivity.
  - intros H. rewrite (listener_parse_arguments_silent lib cl s a H). split; reflexivity.
Qed.

(** X17.  [parse_arguments] of the sender returns exactly when the settings
    are usable, the host being read from [--host] or [MINECHAT_HOST_WRITER]
    and the file path from [--hash-file] or [MINECHAT_HASH], and then it
    returns them without any output.  A port of zero, an empty host and an
    empty path are refused even when they are given by a flag, and so is a
    port variable that is not a number. *)
Theorem sender_settings_accepted_iff :
  forall (lib : pylib) (cl : cmdline) (s : state Sender.vars) (a : args),
    let r := Sender.parse_arguments lib cl s in
    (outcome r = Ok a
     <-> usable lib cl "MINECHAT_HOST_WRITER" "MINECHAT_PORT" "MINECHAT_HASH" a) /\
    (outcome r = Ok a -> events r = [] /\ final r = s).
Proof.
  intros lib cl s a r. subst r. split; [split|].
  - intros H. apply (sender_parse_arguments_accepts lib cl s a).
    apply sender_parse_arguments_silent, H.
  - intros H. apply (sender_parse_arguments_accepts lib cl s a) in H.
    rewrite H. reflexivity.
  - intros H. rewrite (sender_parse_arguments_silent lib cl s a H). split; reflexivity.
Qed.

(** X18.  A port variable that is not a number is fatal to both scripts, whatever
    the flags say: the default of [--port] is computed from the variable
    before the command line is read.  The listener ends by the [ValueError]
    itself, before any output; the sender reports a critical error and exits
    with status 1. *)
Theorem malformed_port_variable_is_fatal :
  forall (en : env) (lib : pylib) (n : nat) (cl : cmdline)
         (sl : state Listener.vars) (ss : state Sender.vars),
    py_int lib (getenv cl "MINECHAT_PORT" "0") = None ->
    (let r := Listener.main en lib n cl sl in
     (exists e, outcome r = Raise e /\ e_class e = ValueError) /\
     events r = [] /\ final r = sl) /\
    (let r := Sender.script en lib cl ss in
     outcome r = Raise (new_exn SystemExit "1") /\
     (exists msg, events r = [EvPrint ("Критическая ошибка: " ++ msg)]) /\
     final r = ss).
Proof.
  intros en lib n cl sl ss H. split.
  - unfold Listener.main, Listener.parse_arguments. rewrite H.
    unfold bind, raise, outcome, events, final. simpl.
    split; [eexists; split; reflexivity | split; reflexivity].
  - unfold Sender.script, Sender.main, Sender.parse_arguments, try_except. rewrite H.
    unfold bind, raise, print, emit, outcome, events, final. simpl.
    split; [reflexivity|]. split; [eexists; reflexivity | reflexivity].
Qed.

(* ================================================================== *)
(** * The console of a turn *)
(* ================================================================== *)

Lemma log_entries_app (en : env) (k : nat) (a b : list string) :
  log_entries en k (a ++ b)
  = (log_entries en k a ++ log_entries en (k + length a) b)%list.
Proof.
  revert k. induction a as [|m a IH]; intros k; simpl.
  - now rewrite Nat.add_0_r.
  - rewrite IH. now replace (S k + length a) with (k + S (length a)) by lia.
Qed.

Section Transcript.

Variable en : env.
Variable host : string.
Variable port : Z.
Variable history : string.
Hypothesis files_open : forall k, fs_error en k = None.

(** One call of [log_message] when no operation on a file fails. *)
Lemma log_message_entry (m : string) (s : state Listener.vars) :
  exists s',
    Listener.log_message en history m s
      = (Ok tt, s', [EvPrint (strftime_log (now en (w_clock (st_world s))) ++ " " ++ m)]) /\
    same_net s s' /\
    w_clock (st_world s') = S (w_clock (st_world s)).
Proof.
  destruct (log_message_run en history m s) as (s' & ev & R & _ & E & Hs & K & _).
  rewrite (append_fault_none en files_open) in E. subst ev. exists s'. repeat split; try assumption; apply Hs.
Qed.

(** The clock after the stream is read to its end: one reading for each
    message. *)
Lemma async_for_clock (bs : list wire) :
  forall (fuel c count : nat) (s : state Listener.vars),
    Forall (fun b => wire_empty b = false) bs ->
    t_incoming (conn_get (st_world s) c) = map Line bs ->
    length bs < fuel ->
    w_clock (st_world (final (Listener.async_for en history fuel c count s)))
    = w_clock (st_world s) + length (messages bs).
Proof.
  induction bs as [|b bs IH]; intros fuel c count s Hne Hin Hfuel;
    (destruct fuel as [|fuel]; [simpl in Hfuel; lia|]); cbn [Listener.async_for].
  - rewrite (bind_ok _ _ _ _ _ _ (readline_eof c s Hin)). cbn [wire_empty].
    unfold after, ret, final. simpl. lia.
  - simpl in Hin.
    destruct (readline_run c s (Line b) (map Line bs) Hin)
      as (s1 & R1 & Hrest & _ & _ & K1 & _).
    rewrite (bind_ok _ _ _ _ _ _ R1). cbv beta.
    inversion Hne as [|b' bs' Hb Hbs]; subst. rewrite Hb.
    rewrite messages_cons. fold (message_of b).
    simpl in Hfuel.
    destruct (PyStr.truthy (message_of b)) eqn:Hm.
    + destruct (log_message_entry (message_of b) s1) as (s2 & R2 & (_ & _ & C2 & _) & K2).
      rewrite (bind_ok _ _ _ _ _ _ R2). cbv beta.
      assert (Hin2 : t_incoming (conn_get (st_world s2) c) = map Line bs)
        by (unfold conn_get in *; rewrite C2; exact Hrest).
      pose proof (IH fuel c (S count) s2 Hbs Hin2 ltac:(lia)) as H3.
      unfold final in *.
      destruct (Listener.async_for en history fuel c (S count) s2) as [[r3 s3] ev3].
      unfold after. cbn [fst snd] in *. rewrite H3, K2, K1. simpl. lia.
    + pose proof (IH fuel c count s1 Hbs Hrest ltac:(lia)) as H3.
      unfold final in *.
      destruct (Listener.async_for en history fuel c count s1) as [[r3 s3] ev3].
      unfold after. cbn [fst snd] in *. rewrite H3, K1. reflexivity.
Qed.

(** X19.  The console of a turn that reads its stream to the end.  When the
    history file can be opened and written, and the server sends the lines
    [bs] and then closes, the turn ends normally and prints, each with its time stamp: the
    two connection messages, one entry for each line that has text once its
    trailing white space is stripped, the note that nothing was received
    when no line had text (even if blank lines were received), and the
    closing message unless the transport was already found closing. *)
Theorem clean_turn_transcript :
  forall (s : state Listener.vars) (sc : conn_script) (bs : list wire),
    net en (w_attempts (st_world s)) = Connected sc ->
    cs_incoming sc = map Line bs ->
    Forall (fun b => wire_empty b = false) bs ->
    let r := Listener.iteration en host port history s in
    outcome r = Ok Normal /\
    printed (events r) =
      log_entries en (w_clock (st_world s))
        ([("Подключение к " ++ Listener.endpoint host port ++ "...")%string;
          ("Соединение установлено с " ++ Listener.endpoint host port)%string]
         ++ messages bs
         ++ (if Nat.eqb (length (messages bs)) 0
             then ["Соединение закрыто сервером без отправки данных"]
             else [])
         ++ (if cs_lost sc then [] else ["Закрытие соединения..."]))%list.
Proof.
  intros s sc bs Hnet Hin Hne r. subst r.
  set (c := length (w_conns (st_world s))).
  set (k := w_clock (st_world s)).
  (* the [try] block *)
  destruct (log_message_entry ("Подключение к " ++ Listener.endpoint host port ++ "...") s)
    as (s1 & R1 & (V1 & A1 & C1 & _) & K1).
  assert (Hnet1 : net en (w_attempts (st_world s1)) = Connected sc) by (rewrite A1; exact Hnet).
  destruct (open_connection_succeeds en (Some 10) s1 sc Hnet1)
    as (s2 & R2 & V2 & A2 & C2 & _ & _ & K2).
  rewrite C1 in R2, C2. fold c in R2.
  set (s3 := mkState (st_world s2) (Listener.mkVars (Some c) (Some c))).
  destruct (log_message_entry ("Соединение установлено с " ++ Listener.endpoint host port) s3)
    as (s4 & R4 & (V4 & A4 & C4 & _) & K4).
  assert (Hconn : conn_get (st_world s4) c
                  = mkTransport (cs_incoming sc) (cs_drain sc) (cs_lost sc) false).
  { unfold conn_get. rewrite C4. cbn [s3 st_world]. rewrite C2. apply nth_middle. }
  assert (Hin4 : t_incoming (conn_get (st_world s4) c) = map Line bs)
    by (rewrite Hconn; exact Hin).
  assert (Hfuel : length bs < S (length (t_incoming (conn_get (st_world s4) c))))
    by (rewrite Hin4, length_map; lia).
  destruct (async_for_log en history files_open bs _ c 0 s4 Hne Hin4 Hfuel)
    as (s5 & ev5 & R5 & P5 & _).
  pose proof (async_for_clock bs _ c 0 s4 Hne Hin4 Hfuel) as K5.
  destruct (calm_async_for en history (S (length (t_incoming (conn_get (st_world s4) c))))
              c 0 s4) as [(V5 & _ & F5) _].
  rewrite R5 in K5, V5, F5. unfold final in K5, V5, F5. cbn [fst snd] in K5, V5, F5.
  cbn [Nat.add] in R5.
  assert (Htry : exists s6,
    Listener.try_block en host port history s =
      (Ok Normal, s6,
       ([EvPrint (strftime_log (now en k) ++ " " ++ "Подключение к "
                  ++ Listener.endpoint host port ++ "...");
         EvConnect (w_attempts (st_world s1)) (Some 10); EvOpened c;
         EvPrint (strftime_log (now en (S k)) ++ " " ++ "Соединение установлено с "
                  ++ Listener.endpoint host port)]
        ++ ev5
        ++ (if Nat.eqb (length (messages bs)) 0
            then [EvPrint (strftime_log (now en (S (S k) + length (messages bs))) ++ " "
                           ++ "Соединение закрыто сервером без отправки данных")]
            else []))%list) /\
    st_vars s6 = Listener.mkVars (Some c) (Some c) /\
    flags (st_world s6) = flags (st_world s4) /\
    w_clock (st_world s6)
      = S (S k) + length (messages bs)
        + (if Nat.eqb (length (messages bs)) 0 then 1 else 0)).
  { unfold Listener.try_block.
    rewrite (bind_ok _ _ _ _ _ _ R1). cbv beta.
    rewrite (bind_ok _ _ _ _ _ _ R2). cbv beta.
    rewrite (bind_ok _ _ _ _ _ _
               (eq_refl : put_vars (Listener.mkVars (Some c) (Some c)) s2 = (Ok tt, s3, []))).
    cbv beta.
    rewrite (bind_ok _ _ _ _ _ _ R4). cbv beta.
    rewrite (bind_ok _ _ _ _ _ _ (eq_refl : get_world s4 = (Ok (st_world s4), s4, []))).
    cbv beta.
    rewrite (bind_ok _ _ _ _ _ _ R5). cbv beta.
    assert (K5' : w_clock (st_world s5) = S (S k) + length (messages bs)).
    { rewrite K5, K4. cbn [s3 st_world]. rewrite K2, K1. reflexivity. }
    destruct (Nat.eqb (length (messages bs)) 0).
    - destruct (log_message_entry "Соединение закрыто сервером без отправки данных" s5)
        as (s6 & R6 & (V6 & _ & C6 & _) & K6).
      rewrite (bind_ok _ _ _ _ _ _ R6). cbv beta.
      exists s6. unfold ret, after. cbn [fst snd app].
      rewrite K5' in *. cbn [s3 st_world] in *. rewrite K4, K2, K1 in *.
      split; [f_equal; f_equal; rewrite app_nil_r; reflexivity|].
      split; [rewrite V6, V5, V4; reflexivity|].
      split; [unfold flags; rewrite C6; exact F5 | lia].
    - rewrite (bind_ok _ _ _ _ _ _ (eq_refl : ret tt s5 = (Ok tt, s5, []))). cbv beta.
      exists s5. unfold ret, after. cbn [fst snd app].
      cbn [s3 st_world] in *. rewrite K4, K2, K1 in *.
      split; [rewrite !app_nil_r; reflexivity|].
      split; [rewrite V5, V4; reflexivity|].
      split; [exact F5 | lia]. }
  destruct Htry as (s6 & R6 & V6 & F6 & K6).
  (* the [finally] clause *)
  assert (Hopen : transport_open (conn_get (st_world s6) c) = negb (cs_lost sc)).
  { rewrite (flags_open _ _ c F6). rewrite Hconn. reflexivity. }
  assert (Hfin : exists s7,
    Listener.finally_clause en history s6 =
      (Ok tt, s7,
       if cs_lost sc then [EvIsClosing c true]
       else [EvIsClosing c false;
             EvPrint (strftime_log (now en (w_clock (st_world s6))) ++ " "
                      ++ "Закрытие соединения...");
             EvClose c])).
  { unfold Listener.finally_clause.
    rewrite (bind_ok _ _ _ _ _ _ (eq_refl : get_vars s6 = (Ok (st_vars s6), s6, []))).
    cbv beta. rewrite V6. cbn [Listener.writer].
    assert (Hc : is_closing c s6 = (Ok (cs_lost sc), s6, [EvIsClosing c (cs_lost sc)])).
    { unfold is_closing, bind, get_world, emit, ret. simpl. rewrite Hopen.
      rewrite Bool.negb_involutive. reflexivity. }
    rewrite (bind_ok _ _ _ _ _ _ Hc). cbv beta.
    destruct (cs_lost sc); cbn [negb].
    - eexists. reflexivity.
    - destruct (log_message_entry "Закрытие соединения..." s6) as (s7 & R7 & _).
      rewrite (bind_ok _ _ _ _ _ _ R7). cbv beta.
      unfold close, wait_closed, bind, emit, get_world, put_world, ret, after. simpl.
      eexists. reflexivity. }
  destruct Hfin as (s7 & R7).
  unfold Listener.iteration, try_finally, try_except. rewrite R6, R7.
  unfold outcome, events. cbn [fst snd]. split; [reflexivity|].
  rewrite !printed_app, P5. cbn [printed app log_entries].
  rewrite !log_entries_app.
  rewrite K4. cbn [s3 st_world]. rewrite K2, K1, K6. fold k.
  do 2 f_equal. rewrite <- app_assoc. f_equal.
  destruct (Nat.eqb (length (messages bs)) 0); destruct (cs_lost sc);
    cbn [printed app log_entries length]; repeat f_equal; lia.
Qed.

End Transcript.

Section BrokenTurn.

Variable en : env.
Variable host : string.
Variable port : Z.
Variable history : string.
Hypothesis files_open : forall k, fs_error en k = None.

(** The stream read up to an error: the messages before it are logged. *)
Lemma async_for_broken (e : exn) (rest : list read_event) (bs : list wire) :
  forall (fuel c count : nat) (s : state Listener.vars),
    Forall (fun b => wire_empty b = false) bs ->
    t_incoming (conn_get (st_world s) c) = (map Line bs ++ ReadError e :: rest)%list ->
    length bs < fuel ->
    exists s' ev,
      Listener.async_for en history fuel c count s = (Raise e, s', ev) /\
      printed ev = log_entries en (w_clock (st_world s)) (messages bs) /\
      w_clock (st_world s') = w_clock (st_world s) + length (messages bs).
Proof.
  induction bs as [|b bs IH]; intros fuel c count s Hne Hin Hfuel;
    (destruct fuel as [|fuel]; [simpl in Hfuel; lia|]); cbn [Listener.async_for].
  - simpl in Hin.
    destruct (readline_run c s (ReadError e) rest Hin) as (s1 & R1 & _ & _ & _ & K1 & _).
    rewrite (bind_raise _ _ _ _ _ _ R1).
    do 2 eexists. split; [reflexivity|]. split; [reflexivity|]. simpl. lia.
  - simpl in Hin.
    destruct (readline_run c s (Line b) _ Hin) as (s1 & R1 & Hrest & _ & _ & K1 & _).
    rewrite (bind_ok _ _ _ _ _ _ R1). cbv beta.
    inversion Hne as [|b' bs' Hb Hbs]; subst. rewrite Hb.
    rewrite messages_cons. fold (message_of b).
    simpl in Hfuel.
    destruct (PyStr.truthy (message_of b)) eqn:Hm.
    + destruct (log_message_entry en history files_open (message_of b) s1)
        as (s2 & R2 & (_ & _ & C2 & _) & K2).
      rewrite (bind_ok _ _ _ _ _ _ R2). cbv beta.
      assert (Hin2 : t_incoming (conn_get (st_world s2) c)
                     = (map Line bs ++ ReadError e :: rest)%list)
        by (unfold conn_get in *; rewrite C2; exact Hrest).
      destruct (IH fuel c (S count) s2 Hbs Hin2 ltac:(lia)) as (s3 & ev3 & R3 & P3 & K3).
      rewrite R3. unfold after. do 2 eexists. split; [reflexivity|].
      cbn [printed app log_entries length]. rewrite P3, K3, K2, K1.
      split; [reflexivity | lia].
    + destruct (IH fuel c count s1 Hbs Hrest ltac:(lia)) as (s3 & ev3 & R3 & P3 & K3).
      rewrite R3. unfold after. do 2 eexists. split; [reflexivity|].
      cbn [printed app]. rewrite P3, K3, K1. split; reflexivity.
Qed.

(** What the [except] clauses print, when no operation on a file fails. *)
Lemma handler_transcript (e : exn) (s : state Listener.vars) :
  isinstance e Exception = true ->
  exists h s' ev,
    Listener.handler en host port history e = Some h /\
    h s = (Ok (if isinstance e IncompleteReadError then Normal else Continue), s', ev) /\
    printed ev =
      log_entries en (w_clock (st_world s))
        (report_of (Listener.endpoint host port) e
         :: if isinstance e IncompleteReadError then []
            else ["Попытка переподключения через 5 секунд..."]) /\
    w_clock (st_world s')
      = w_clock (st_world s) + (if isinstance e IncompleteReadError then 1 else 2) /\
    st_vars s' = st_vars s /\
    flags (st_world s') = flags (st_world s).
Proof.
  assert (Hretry : forall m : string,
    exists s' ev,
      (Listener.log_message en history m ;;
       Listener.log_message en history "Попытка переподключения через 5 секунд..." ;;
       sleep 5 ;;
       ret Continue) s = (Ok Continue, s', ev) /\
      printed ev = log_entries en (w_clock (st_world s))
                     [m; "Попытка переподключения через 5 секунд..."] /\
      w_clock (st_world s') = w_clock (st_world s) + 2 /\
      st_vars s' = st_vars s /\
      flags (st_world s') = flags (st_world s)).
  { intros m.
    destruct (log_message_entry en history files_open m s)
      as (s1 & R1 & (V1 & _ & C1 & _) & K1).
    destruct (log_message_entry en history files_open
                "Попытка переподключения через 5 секунд..." s1)
      as (s2 & R2 & (V2 & _ & C2 & _) & K2).
    rewrite (bind_ok _ _ _ _ _ _ R1). cbv beta.
    rewrite (bind_ok _ _ _ _ _ _ R2). cbv beta.
    unfold sleep, emit, ret, bind, after. cbn [fst snd app].
    do 2 eexists. split; [reflexivity|]. cbn [printed log_entries].
    rewrite K1. split; [reflexivity|]. split; [lia|]. split; [congruence|].
    unfold flags. rewrite C2, C1. reflexivity. }
  destruct e as [cls msg part]. intros He.
  destruct cls; unfold Listener.handler, report_of, isinstance in *;
    cbn [e_class e_str e_partial issubclass issubclass_fuel exn_class_eqb base_of
         orb andb] in *;
    try discriminate He;
    try (match goal with
         | |- context [Some (bind (Listener.log_message en history ?m) _)] =>
             destruct (Hretry m) as (s' & ev & R & P & K & V & F)
         end;
         eexists; exists s', ev; split; [reflexivity|];
         split; [exact R|]; split; [exact P|]; split; [exact K|];
         split; [exact V | exact F]).
  destruct (log_message_entry en history files_open
              ("Неполное чтение: " ++ decode_ignore part)%string s)
    as (s1 & R1 & (V1 & _ & C1 & _) & K1).
  eexists. exists s1. eexists. split; [reflexivity|].
  rewrite (bind_ok _ _ _ _ _ _ R1). cbv beta. unfold ret, after. cbn [fst snd app].
  split; [reflexivity|]. cbn [printed log_entries]. split; [reflexivity|].
  split; [lia|]. split; [exact V1|]. unfold flags. rewrite C1. reflexivity.
Qed.

(** X27.  The console of a turn whose stream breaks.  When the history file can
    be opened and written, and the stream raises an exception of class [Exception] after
    the lines [bs], the turn does not raise; it prints, each with its time
    stamp: the two connection messages, one entry for each line read before
    the error that has text, the report of the error, the note of the retry
    (except after a partial read), and the closing message unless the
    transport was already found closing.  What was received before the error
    is kept, and the note that nothing was received is not printed. *)
Theorem broken_turn_transcript :
  forall (s : state Listener.vars) (sc : conn_script) (bs : list wire) (e : exn)
         (rest : list read_event),
    net en (w_attempts (st_world s)) = Connected sc ->
    cs_incoming sc = (map Line bs ++ ReadError e :: rest)%list ->
    Forall (fun b => wire_empty b = false) bs ->
    isinstance e Exception = true ->
    let r := Listener.iteration en host port history s in
    outcome r = Ok (if isinstance e IncompleteReadError then Normal else Continue) /\
    printed (events r) =
      log_entries en (w_clock (st_world s))
        ([("Подключение к " ++ Listener.endpoint host port ++ "...")%string;
          ("Соединение установлено с " ++ Listener.endpoint host port)%string]
         ++ messages bs
         ++ [report_of (Listener.endpoint host port) e]
         ++ (if isinstance e IncompleteReadError then []
             else ["Попытка переподключения через 5 секунд..."])
         ++ (if cs_lost sc then [] else ["Закрытие соединения..."]))%list.
Proof.
  intros s sc bs e rest Hnet Hin Hne He r. subst r.
  set (c := length (w_conns (st_world s))).
  set (k := w_clock (st_world s)).
  destruct (log_message_entry en history files_open
              ("Подключение к " ++ Listener.endpoint host port ++ "...") s)
    as (s1 & R1 & (V1 & A1 & C1 & _) & K1).
  assert (Hnet1 : net en (w_attempts (st_world s1)) = Connected sc) by (rewrite A1; exact Hnet).
  destruct (open_connection_succeeds en (Some 10) s1 sc Hnet1)
    as (s2 & R2 & V2 & A2 & C2 & _ & _ & K2).
  rewrite C1 in R2, C2. fold c in R2.
  set (s3 := mkState (st_world s2) (Listener.mkVars (Some c) (Some c))).
  destruct (log_message_entry en history files_open
              ("Соединение установлено с " ++ Listener.endpoint host port) s3)
    as (s4 & R4 & (V4 & A4 & C4 & _) & K4).
  assert (Hconn : conn_get (st_world s4) c
                  = mkTransport (cs_incoming sc) (cs_drain sc) (cs_lost sc) false).
  { unfold conn_get. rewrite C4. cbn [s3 st_world]. rewrite C2. apply nth_middle. }
  assert (Hin4 : t_incoming (conn_get (st_world s4) c)
                 = (map Line bs ++ ReadError e :: rest)%list)
    by (rewrite Hconn; exact Hin).
  assert (Hfuel : length bs < S (length (t_incoming (conn_get (st_world s4) c))))
    by (rewrite Hin4, length_app, length_map; simpl; lia).
  destruct (async_for_broken e rest bs _ c 0 s4 Hne Hin4 Hfuel)
    as (s5 & ev5 & R5 & P5 & K5).
  destruct (calm_async_for en history (S (length (t_incoming (conn_get (st_world s4) c))))
              c 0 s4) as [(V5 & _ & F5) _].
  rewrite R5 in V5, F5. unfold final in V5, F5. cbn [fst snd] in V5, F5.
  assert (Htry :
    Listener.try_block en host port history s =
      (Raise e, s5,
       ([EvPrint (strftime_log (now en k) ++ " " ++ "Подключение к "
                  ++ Listener.endpoint host port ++ "...");
         EvConnect (w_attempts (st_world s1)) (Some 10); EvOpened c;
         EvPrint (strftime_log (now en (S k)) ++ " " ++ "Соединение установлено с "
                  ++ Listener.endpoint host port)]
        ++ ev5)%list)).
  { unfold Listener.try_block.
    rewrite (bind_ok _ _ _ _ _ _ R1). cbv beta.
    rewrite (bind_ok _ _ _ _ _ _ R2). cbv beta.
    rewrite (bind_ok _ _ _ _ _ _
               (eq_refl : put_vars (Listener.mkVars (Some c) (Some c)) s2 = (Ok tt, s3, []))).
    cbv beta.
    rewrite (bind_ok _ _ _ _ _ _ R4). cbv beta.
    rewrite (bind_ok _ _ _ _ _ _ (eq_refl : get_world s4 = (Ok (st_world s4), s4, []))).
    cbv beta.
    rewrite (bind_raise _ _ _ _ _ _ R5).
    unfold after. cbn [fst snd app]. unfold s3. cbn [st_world].
    rewrite K2, K1. reflexivity. }
  assert (K5' : w_clock (st_world s5) = S (S k) + length (messages bs)).
  { rewrite K5, K4. cbn [s3 st_world]. rewrite K2, K1. reflexivity. }
  destruct (handler_transcript e s5 He) as (h & s6 & ev6 & Hh & R6 & P6 & K6 & V6 & F6).
  assert (Hopen : transport_open (conn_get (st_world s6) c) = negb (cs_lost sc)).
  { rewrite (flags_open _ _ c F6), (flags_open _ _ c F5), Hconn. reflexivity. }
  assert (Hv6 : st_vars s6 = Listener.mkVars (Some c) (Some c))
    by (rewrite V6, V5, V4; reflexivity).
  assert (Hfin : exists s7,
    Listener.finally_clause en history s6 =
      (Ok tt, s7,
       if cs_lost sc then [EvIsClosing c true]
       else [EvIsClosing c false;
             EvPrint (strftime_log (now en (w_clock (st_world s6))) ++ " "
                      ++ "Закрытие соединения...");
             EvClose c])).
  { unfold Listener.finally_clause.
    rewrite (bind_ok _ _ _ _ _ _ (eq_refl : get_vars s6 = (Ok (st_vars s6), s6, []))).
    cbv beta. rewrite Hv6. cbn [Listener.writer].
    assert (Hc : is_closing c s6 = (Ok (cs_lost sc), s6, [EvIsClosing c (cs_lost sc)])).
    { unfold is_closing, bind, get_world, emit, ret. simpl. rewrite Hopen.
      rewrite Bool.negb_involutive. reflexivity. }
    rewrite (bind_ok _ _ _ _ _ _ Hc). cbv beta.
    destruct (cs_lost sc); cbn [negb].
    - eexists. reflexivity.
    - destruct (log_message_entry en history files_open "Закрытие соединения..." s6)
        as (s7 & R7 & _).
      rewrite (bind_ok _ _ _ _ _ _ R7). cbv beta.
      unfold close, wait_closed, bind, emit, get_world, put_world, ret, after. simpl.
      eexists. reflexivity. }
  destruct Hfin as (s7 & R7).
  unfold Listener.iteration, try_finally, try_except. rewrite Htry, Hh, R6, R7.
  unfold outcome, events. cbn [fst snd]. split; [reflexivity|].
  rewrite !printed_app, P5, P6. cbn [printed app log_entries].
  rewrite !log_entries_app. cbn [log_entries].
  rewrite K4. cbn [s3 st_world]. rewrite K2, K1, K6, K5'. fold k.
  do 2 f_equal. rewrite <- app_assoc. f_equal.
  destruct (isinstance e IncompleteReadError); destruct (cs_lost sc);
    cbn [printed app log_entries length]; repeat f_equal; lia.
Qed.

End BrokenTurn.

(* ================================================================== *)
(** * Registration and the stored token *)
(* ================================================================== *)

Section Enrolment.

Variable en : env.
Variable lib : pylib.
Variable host : string.
Variable port : Z.
Variable hash_file : string.

(** X20.  A registration that the server completes stores the new token: when the
    server sends the greeting, the prompt and an account record that holds a
    token and a nickname, and the credential file can be opened and written,
    [register_account] returns the two values of the record, and the
    credential file then holds the token and nothing else. *)
Theorem registration_persists_token :
  forall (c : nat) (s : state Sender.vars) (g p r typed tok : string) (n : json)
         (d : list (string * json)) (rest : list read_event) (more : list input_event),
    t_incoming (conn_get (st_world s) c)
      = Line (Utf8 g) :: Line (Utf8 p) :: Line (Utf8 r) :: rest ->
    t_drain (conn_get (st_world s) c) = [] ->
    w_stdin (st_world s) = Typed typed :: more ->
    json_loads lib (PyStr.strip r) = Some (JDict d) ->
    dict_get d "account_hash" = Some (JStr tok) ->
    dict_get d "nickname" = Some n ->
    fs_error en (w_opens (st_world s)) = None ->
    fs_error en (S (w_opens (st_world s))) = None ->
    let run := Sender.register_account en lib hash_file c s in
    outcome run = Ok (JStr tok, n) /\
    w_files (st_world (final run)) hash_file = Some tok /\
    (forall f, f <> hash_file ->
               w_files (st_world (final run)) f = w_files (st_world s) f) /\
    t_incoming (conn_get (st_world (final run)) c) = rest /\
    w_stdin (st_world (final run)) = more.
Proof.
  intros c s g p r typed tok n d rest more Hin Hdr Hstdin Hloads Hhash Hnick Hfs Hfw run.
  subst run. unfold Sender.register_account.
  rewrite (bind_ok _ _ _ _ _ _ (eq_refl : print _ s = (Ok tt, s, [_]))). cbv beta.
  destruct (readline_run c s _ _ Hin) as (s1 & R1 & In1 & D1 & _ & _ & O1 & F1 & I1).
  rewrite (bind_ok _ _ _ _ _ _ R1). cbv beta.
  rewrite (bind_ok _ _ _ _ _ _ (eq_refl : Sender.decode (Utf8 g) s1 = (Ok g, s1, []))).
  cbv beta.
  rewrite (bind_ok _ _ _ _ _ _ (eq_refl : print _ s1 = (Ok tt, s1, [_]))). cbv beta.
  rewrite (bind_ok _ _ _ _ _ _ (eq_refl : write c _ s1 = (Ok tt, s1, [_]))). cbv beta.
  rewrite Hdr in D1.
  rewrite (bind_ok _ _ _ _ _ _ (drain_ok c s1 D1)). cbv beta.
  destruct (readline_run c s1 _ _ In1) as (s2 & R2 & In2 & D2 & _ & _ & O2 & F2 & I2).
  rewrite (bind_ok _ _ _ _ _ _ R2). cbv beta.
  rewrite (bind_ok _ _ _ _ _ _ (eq_refl : Sender.decode (Utf8 p) s2 = (Ok p, s2, []))).
  cbv beta.
  rewrite (bind_ok _ _ _ _ _ _ (eq_refl : print _ s2 = (Ok tt, s2, [_]))). cbv beta.
  assert (Hstdin2 : w_stdin (st_world s2) = Typed typed :: more)
    by (rewrite I2, I1; exact Hstdin).
  assert (Hinput : exists s3,
            input "Введите никнейм: " s2 = (Ok typed, s3, [EvInput "Введите никнейм: "]) /\
            w_stdin (st_world s3) = more /\
            w_conns (st_world s3) = w_conns (st_world s2) /\
            w_files (st_world s3) = w_files (st_world s2) /\
            w_opens (st_world s3) = w_opens (st_world s2)).
  { destruct s2 as [w2 v2]. simpl in Hstdin2.
    unfold input, bind, emit, get_world, put_world, ret. simpl. rewrite Hstdin2. simpl.
    eexists. repeat split. }
  destruct Hinput as (s3 & R3 & I3 & C3 & F3 & O3).
  rewrite (bind_ok _ _ _ _ _ _ R3). cbv beta zeta.
  rewrite (bind_ok _ _ _ _ _ _ (eq_refl : write c _ s3 = (Ok tt, s3, [_]))). cbv beta.
  assert (D3 : t_drain (conn_get (st_world s3) c) = [])
    by (unfold conn_get in *; rewrite C3, D2; exact D1).
  rewrite (bind_ok _ _ _ _ _ _ (drain_ok c s3 D3)). cbv beta.
  assert (In3 : t_incoming (conn_get (st_world s3) c) = Line (Utf8 r) :: rest)
    by (unfold conn_get in *; rewrite C3; exact In2).
  destruct (readline_run c s3 _ _ In3) as (s4 & R4 & In4 & _ & _ & _ & O4 & F4 & I4).
  rewrite (bind_ok _ _ _ _ _ _ R4). cbv beta.
  rewrite (bind_ok _ _ _ _ _ _ (eq_refl : Sender.decode (Utf8 r) s4 = (Ok r, s4, []))).
  cbv beta.
  assert (Hl : Sender.loads lib (PyStr.strip r) s4 = (Ok (JDict d), s4, []))
    by (unfold Sender.loads; rewrite Hloads; reflexivity).
  rewrite (bind_ok _ _ _ _ _ _ Hl). cbv beta.
  assert (Hg1 : Sender.getitem (JDict d) "account_hash" s4 = (Ok (JStr tok), s4, []))
    by (unfold Sender.getitem; rewrite Hhash; reflexivity).
  rewrite (bind_ok _ _ _ _ _ _ Hg1). cbv beta.
  assert (Hg2 : Sender.getitem (JDict d) "nickname" s4 = (Ok n, s4, []))
    by (unfold Sender.getitem; rewrite Hnick; reflexivity).
  rewrite (bind_ok _ _ _ _ _ _ Hg2). cbv beta.
  rewrite (bind_ok _ _ _ _ _ _ (eq_refl : print _ s4 = (Ok tt, s4, [_]))). cbv beta.
  rewrite (bind_ok _ _ _ _ _ _ (eq_refl : print _ s4 = (Ok tt, s4, [_]))). cbv beta.
  assert (Hfs4 : fs_error en (w_opens (st_world s4)) = None)
    by (rewrite O4, O3, O2, O1; exact Hfs).
  assert (Hfw4 : fs_error en (S (w_opens (st_world s4))) = None)
    by (rewrite O4, O3, O2, O1; exact Hfw).
  assert (Hsave : exists s5,
            Sender.save_hash en hash_file (JStr tok) s4
              = (Ok tt, s5, [EvPrint ("Hash сохранен в " ++ hash_file)]) /\
            w_files (st_world s5) hash_file = Some tok /\
            (forall f, f <> hash_file ->
                       w_files (st_world s5) f = w_files (st_world s4) f) /\
            w_conns (st_world s5) = w_conns (st_world s4) /\
            w_stdin (st_world s5) = w_stdin (st_world s4)).
  { destruct s4 as [w4 v4]. simpl in Hfs4, Hfw4.
    unfold Sender.save_hash, open_w, f_write, file_attempt, print, try_except, bind,
      get_world, put_world, emit, ret, raise. simpl. rewrite Hfs4.
    destruct tok as [|a tok]; simpl; rewrite ?Hfw4; simpl;
      (eexists; split; [reflexivity|]; simpl; unfold file_put;
       rewrite !String.eqb_refl; split; [reflexivity|]; split; [|split; reflexivity];
       intros f Hf; destruct (String.eqb f hash_file) eqn:E;
       [apply String.eqb_eq in E; contradiction | reflexivity]). }
  destruct Hsave as (s5 & R5 & F5 & G5 & C5 & I5).
  rewrite (bind_ok _ _ _ _ _ _ R5). cbv beta.
  unfold ret, after, outcome, final. cbn [fst snd].
  split; [reflexivity|]. split; [exact F5|]. split.
  - intros f Hf. rewrite (G5 f Hf), F4, F3, F2, F1. reflexivity.
  - split.
    + unfold conn_get in *. rewrite C5. exact In4.
    + rewrite I5, I4. exact I3.
Qed.

(** X21.  The token read from the credential file is the one sent: when the
    file can be opened and read and holds UTF-8 text that is not white space
    only, then after [load_hash] the handshake sends, as its first and only
    line so far, the text of the file (its bytes decoded, every carriage
    return, followed by a line feed or not, read as one line feed) without
    the white space around it, a trailing line end included. *)
Theorem stored_token_is_sent_stripped :
  forall (s : state Sender.vars) (stored g : string) (sc : conn_script)
         (rest : list read_event),
    w_files (st_world s) hash_file = Some stored ->
    fs_error en (w_opens (st_world s)) = None ->
    fs_error en (S (w_opens (st_world s))) = None ->
    PyStr.is_utf8 stored = true ->
    PyStr.truthy (PyStr.strip (PyStr.universal_newlines stored)) = true ->
    net en (w_attempts (st_world s)) = Connected sc ->
    cs_incoming sc = Line (Utf8 g) :: rest ->
    let c := length (w_conns (st_world s)) in
    let loaded := final (Sender.load_hash en hash_file s) in
    exists later,
      events (Sender.connect_and_auth en lib host port hash_file loaded) =
        ([EvPrint ("Подключение к " ++ host ++ ":" ++ PyStr.of_int port ++ "...");
          EvConnect (w_attempts (st_world s)) None; EvOpened c;
          EvPrint "Соединение установлено";
          EvPrint "Авторизация с существующим hash...";
          EvRead c; EvPrint (PyStr.strip g);
          EvWrite c (PyStr.strip (PyStr.universal_newlines stored) ++ PyStr.nl)] ++ later)%list.
Proof.
  intros s stored g sc rest Hfile Hfs Hfr Hu Ht Hnet Hin c loaded.
  assert (Hc : c = length (w_conns (st_world s))) by reflexivity. clearbody c.
  pose proof (proj1 (load_hash_loads en hash_file s stored Hfile Hfs Hfr Hu Ht)) as Hv.
  destruct (quiet_load_hash en hash_file s) as [(_ & Ha & Hf) _].
  fold loaded in Hv, Ha, Hf. clearbody loaded.
  assert (Hlen : length (w_conns (st_world loaded)) = c).
  { rewrite Hc, <- !flags_length, Hf. reflexivity. }
  unfold Sender.connect_and_auth.
  rewrite (bind_ok _ _ _ _ _ _ (eq_refl : print _ loaded = (Ok tt, loaded, [_]))). cbv beta.
  rewrite <- Ha in Hnet.
  destruct (open_connection_succeeds en None loaded sc Hnet)
    as (s1 & R1 & V1 & A1 & C1 & _).
  rewrite Hlen, Ha in R1.
  rewrite (bind_ok _ _ _ _ _ _ R1). cbv beta.
  rewrite (bind_ok _ _ _ _ _ _ (eq_refl : print _ s1 = (Ok tt, s1, [_]))). cbv beta.
  rewrite (bind_ok _ _ _ _ _ _ (eq_refl : get_vars s1 = (Ok (st_vars s1), s1, []))).
  cbv beta. rewrite V1, Hv. cbn [Sender.account_hash json_truthy]. rewrite Ht.
  assert (Hin1 : t_incoming (conn_get (st_world s1) c) = Line (Utf8 g) :: rest).
  { unfold conn_get. rewrite C1, <- Hlen, nth_middle. exact Hin. }
  unfold Sender.login_with_hash.
  rewrite !events_after.
  match goal with
  | |- context [events (bind (bind ?m ?k) ?k2 s1)] =>
      assert (Hlogin : exists later,
                events (bind m k s1) =
                  ([EvPrint "Авторизация с существующим hash...";
                    EvRead c; EvPrint (PyStr.strip g);
                    EvWrite c (PyStr.strip (PyStr.universal_newlines stored) ++ PyStr.nl)] ++ later)%list)
  end.
  { rewrite (bind_ok _ _ _ _ _ _ (eq_refl : print _ s1 = (Ok tt, s1, [_]))). cbv beta.
    destruct (readline_run c s1 _ _ Hin1) as (s2 & R2 & _ & _ & V2 & _).
    rewrite (bind_ok _ _ _ _ _ _ R2). cbv beta.
    rewrite (bind_ok _ _ _ _ _ _ (eq_refl : Sender.decode (Utf8 g) s2 = (Ok g, s2, []))).
    cbv beta.
    rewrite (bind_ok _ _ _ _ _ _ (eq_refl : print _ s2 = (Ok tt, s2, [_]))). cbv beta.
    rewrite (bind_ok _ _ _ _ _ _ (eq_refl : get_vars s2 = (Ok (st_vars s2), s2, []))).
    cbv beta. rewrite V2, V1, Hv. cbn [Sender.account_hash py_str].
    rewrite (bind_ok _ _ _ _ _ _ (eq_refl : write c _ s2 = (Ok tt, s2, [_]))). cbv beta.
    rewrite !events_after. eexists. cbn [app]. reflexivity. }
  destruct Hlogin as (later & Hl).
  rewrite events_bind, Hl. eexists. cbn [app]. reflexivity.
Qed.

End Enrolment.

(* ================================================================== *)
(** * The shape of a log entry *)
(* ================================================================== *)

Lemma substring_all (m : string) : substring 0 (String.length m) m = m.
Proof. induction m as [|a m IH]; simpl; [reflexivity | now rewrite IH]. Qed.

(** X22.  Every log entry has the same shape, so that the message can be read
    back from a line of the history file: a time stamp of 16 characters
    between brackets, with its separators at fixed places, one space, then
    the message as it was given. *)
Theorem log_entry_format :
  forall (en : env) (history m : string) (s : state Listener.vars),
    exists entry,
      first_printed (events (Listener.log_message en history m s)) = Some entry /\
      String.length entry = 17 + String.length m /\
      substring 17 (String.length m) entry = m /\
      substring 0 1 entry = "[" /\
      substring 3 1 entry = "." /\
      substring 6 1 entry = "." /\
      substring 9 1 entry = " " /\
      substring 12 1 entry = ":" /\
      substring 15 2 entry = "] ".
Proof.
  intros en history m s.
  destruct (log_message_run en history m s) as (s' & ev & R & _ & E & _).
  rewrite R, E. unfold events, first_printed. cbn [snd printed hd_error].
  eexists. split; [reflexivity|].
  generalize (now en (w_clock (st_world s))). intros dt.
  with_strategy transparent [strftime_log] (unfold strftime_log, two_digits, digit). cbn [String.append String.length substring].
  rewrite substring_all. repeat split.
  destruct m; reflexivity.
Qed.

(** X23.  A start-up that fails is reported and ends the listener at once: when
    the settings are accepted, the history file is missing and it cannot be
    created, [main] prints its banner and the critical error, attempts no
    connection, and returns normally. *)
Theorem startup_failure_is_reported :
  forall (en : env) (lib : pylib) (n : nat) (cl : cmdline) (s : state Listener.vars)
         (a : args) (msg : string),
    outcome (Listener.parse_arguments lib cl s) = Ok a ->
    w_files (st_world s) (a_file a) = None ->
    fs_error en (w_opens (st_world s)) = Some msg ->
    let r := Listener.main en lib n cl s in
    outcome r = Ok tt /\
    events r =
      [EvPrint "Запуск слушателя чата:";
       EvPrint ("  Хост: " ++ a_host a);
       EvPrint ("  Порт: " ++ PyStr.of_int (a_port a));
       EvPrint ("  Файл истории: " ++ a_file a);
       EvPrint "Нажмите Ctrl+C для завершения";
       EvPrint "==================================================";
       EvPrint ("Критическая ошибка: " ++ msg)] /\
    w_files (st_world (final r)) = w_files (st_world s).
Proof.
  intros en lib n cl s a msg Hparse Hfile Hfs r. subst r.
  unfold Listener.main.
  rewrite (bind_ok _ _ _ _ _ _ (listener_parse_arguments_silent lib cl s a Hparse)).
  cbv beta.
  repeat (rewrite (bind_ok _ _ _ _ _ _ (eq_refl : print _ s = (Ok tt, s, [_]))); cbv beta).
  pose proof (ensure_log_file_run en (a_file a) s) as Hrun.
  rewrite Hfile, Hfs in Hrun. destruct Hrun as (s' & R & F).
  unfold try_except, Listener.minechat_client.
  rewrite (bind_raise _ _ _ _ _ _ R).
  change (isinstance (new_exn OSError msg) KeyboardInterrupt) with false.
  change (isinstance (new_exn OSError msg) Exception) with true.
  unfold print, emit, after, outcome, events, final. cbn [fst snd app e_str new_exn].
  repeat split. exact F.
Qed.

(* ================================================================== *)
(** * The exchange of messages: the end of the input *)
(* ================================================================== *)

(** X24.  The end of the operator's input ends the exchange: [input()] raises
    [EOFError], which the sender reports as a send error before it leaves the
    loop without raising. *)
Theorem end_of_input_is_reported :
  forall (fuel c : nat) (s : state Sender.vars),
    w_stdin (st_world s) = [] ->
    Sender.message_loop (S fuel) c s =
      (Ok tt, s,
       [EvInput "> "; EvPrint "Ошибка отправки сообщения: EOF when reading a line"]).
Proof.
  intros fuel c [w v] Hin. simpl in Hin.
  cbn [Sender.message_loop].
  unfold Sender.message_turn, try_except, input, bind, emit, get_world, raise. simpl.
  rewrite Hin. reflexivity.
Qed.

(** X25.  An interrupt at the prompt ends the exchange quietly: the sender leaves
    the loop without any report and without raising. *)
Theorem interrupt_ends_exchange_quietly :
  forall (fuel c : nat) (e : exn) (rest : list input_event) (s : state Sender.vars),
    w_stdin (st_world s) = InputError e :: rest ->
    isinstance e KeyboardInterrupt = true ->
    let r := Sender.message_loop (S fuel) c s in
    outcome r = Ok tt /\ events r = [EvInput "> "] /\ w_stdin (st_world (final r)) = rest.
Proof.
  intros fuel c e rest [w v] Hin He r. subst r. simpl in Hin.
  cbn [Sender.message_loop].
  unfold Sender.message_turn, try_except, input, bind, emit, get_world, put_world,
    raise, ret, outcome, events, final. simpl.
  rewrite Hin. simpl. rewrite He. simpl. repeat split.
Qed.

(* ================================================================== *)
(** * The handshake with a token that is refused *)
(* ================================================================== *)

Section Rejected.

Variable en : env.
Variable lib : pylib.
Variable host : string.
Variable port : Z.
Variable hash_file : string.

(** X26.  A token that the server answers by a text that is not JSON is given up:
    the sender reports the failed authorisation, closes the transport on
    which it sent the token, and connects again to register. *)
Theorem rejected_token_leads_to_registration :
  forall (s : state Sender.vars) (h g r : string) (sc : conn_script)
         (rest : list read_event),
    Sender.account_hash (st_vars s) = JStr h ->
    PyStr.truthy h = true ->
    net en (w_attempts (st_world s)) = Connected sc ->
    cs_incoming sc = Line (Utf8 g) :: Line (Utf8 r) :: rest ->
    cs_drain sc = [] ->
    json_loads lib (PyStr.strip r) = None ->
    let c := length (w_conns (st_world s)) in
    exists later,
      events (Sender.connect_and_auth en lib host port hash_file s) =
        ([EvPrint ("Подключение к " ++ host ++ ":" ++ PyStr.of_int port ++ "...");
          EvConnect (w_attempts (st_world s)) None; EvOpened c;
          EvPrint "Соединение установлено";
          EvPrint "Авторизация с существующим hash...";
          EvRead c; EvPrint (PyStr.strip g);
          EvWrite c (h ++ PyStr.nl); EvDrain c;
          EvRead c;
          EvPrint "Ошибка авторизации, возможно hash неверный";
          EvClose c;
          EvPrint "Переподключение для регистрации...";
          EvConnect (S (w_attempts (st_world s))) None] ++ later)%list.
Proof.
  intros s h g r sc rest Hh Ht Hnet Hin Hdr Hloads c.
  assert (Hc : c = length (w_conns (st_world s))) by reflexivity.
  clearbody c. unfold Sender.connect_and_auth.
  rewrite (bind_ok _ _ _ _ _ _ (eq_refl : print _ s = (Ok tt, s, [_]))). cbv beta.
  destruct (open_connection_succeeds en None s sc Hnet)
    as (s1 & R1 & V1 & A1 & C1 & _).
  rewrite <- Hc in R1.
  rewrite (bind_ok _ _ _ _ _ _ R1). cbv beta.
  rewrite (bind_ok _ _ _ _ _ _ (eq_refl : print _ s1 = (Ok tt, s1, [_]))). cbv beta.
  rewrite (bind_ok _ _ _ _ _ _ (eq_refl : get_vars s1 = (Ok (st_vars s1), s1, []))).
  cbv beta. rewrite V1, Hh. cbn [json_truthy]. rewrite Ht.
  assert (Hconn : conn_get (st_world s1) c
                  = mkTransport (cs_incoming sc) (cs_drain sc) (cs_lost sc) false).
  { unfold conn_get. rewrite C1, Hc. apply nth_middle. }
  assert (Hin1 : t_incoming (conn_get (st_world s1) c) = Line (Utf8 g) :: Line (Utf8 r) :: rest)
    by (rewrite Hconn; exact Hin).
  assert (Hdr1 : t_drain (conn_get (st_world s1) c) = [])
    by (rewrite Hconn; exact Hdr).
  assert (Hlogin : exists s4,
    Sender.login_with_hash lib c s1 =
      (Ok false, s4,
       [EvPrint "Авторизация с существующим hash...";
        EvRead c; EvPrint (PyStr.strip g);
        EvWrite c (h ++ PyStr.nl); EvDrain c;
        EvRead c; EvPrint "Ошибка авторизации, возможно hash неверный"]) /\
    w_attempts (st_world s4) = w_attempts (st_world s1)).
  { unfold Sender.login_with_hash.
    rewrite (bind_ok _ _ _ _ _ _ (eq_refl : print _ s1 = (Ok tt, s1, [_]))). cbv beta.
    destruct (readline_run c s1 _ _ Hin1) as (s2 & R2 & In2 & D2 & V2 & _).
    rewrite (bind_ok _ _ _ _ _ _ R2). cbv beta.
    rewrite (bind_ok _ _ _ _ _ _ (eq_refl : Sender.decode (Utf8 g) s2 = (Ok g, s2, []))).
    cbv beta.
    rewrite (bind_ok _ _ _ _ _ _ (eq_refl : print _ s2 = (Ok tt, s2, [_]))). cbv beta.
    rewrite (bind_ok _ _ _ _ _ _ (eq_refl : get_vars s2 = (Ok (st_vars s2), s2, []))).
    cbv beta. rewrite V2, V1, Hh. cbn [py_str].
    rewrite (bind_ok _ _ _ _ _ _ (eq_refl : write c _ s2 = (Ok tt, s2, [_]))). cbv beta.
    rewrite Hdr1 in D2.
    rewrite (bind_ok _ _ _ _ _ _ (drain_ok c s2 D2)). cbv beta.
    destruct (readline_run c s2 _ _ In2) as (s3 & R3 & _).
    rewrite (bind_ok _ _ _ _ _ _ R3). cbv beta.
    unfold try_except.
    rewrite (bind_ok _ _ _ _ _ _ (eq_refl : Sender.decode (Utf8 r) s3 = (Ok r, s3, []))).
    cbv beta.
    assert (Hl : Sender.loads lib (PyStr.strip r) s3
                 = (Raise (new_exn JSONDecodeError "Expecting value"), s3, []))
      by (unfold Sender.loads; rewrite Hloads; reflexivity).
    rewrite (bind_raise _ _ _ _ _ _ Hl).
    unfold after at 1.
    change (isinstance (new_exn JSONDecodeError "Expecting value") JSONDecodeError)
      with true.
    unfold print, bind, emit, ret, after. cbn [fst snd app].
    eexists. split; [reflexivity|].
    pose proof (calm_readline c s1) as [(_ & Q1 & _) _].
    pose proof (calm_readline c s2) as [(_ & Q2 & _) _].
    rewrite R2 in Q1. rewrite R3 in Q2. unfold final in Q1, Q2. cbn [fst snd] in Q1, Q2.
    congruence. }
  destruct Hlogin as (s4 & R4 & A4).
  rewrite (bind_ok _ _ _ _ _ _ R4). cbv beta iota.
  rewrite (bind_ok _ _ _ _ _ _ (close_run c s4)). cbv beta.
  match goal with
  | |- context [after [EvClose c] (bind (wait_closed c) ?k ?s5)] => set (s6 := s5)
  end.
  rewrite (bind_ok _ _ _ _ _ _ (eq_refl : wait_closed c s6 = (Ok tt, s6, []))). cbv beta.
  rewrite (bind_ok _ _ _ _ _ _ (eq_refl : print _ s6 = (Ok tt, s6, [_]))). cbv beta.
  assert (Hopen : exists later,
            events ((c2 <- open_connection en None ;;
                     registered <- Sender.register_account en lib hash_file c2 ;;
                     Sender.set_account_hash (fst registered) ;;
                     Sender.set_nickname (snd registered) ;;
                     ret c2) s6)
            = (EvConnect (S (w_attempts (st_world s))) None :: later)%list).
  { assert (A6 : w_attempts (st_world s6) = S (w_attempts (st_world s)))
      by (subst s6; cbn [st_world set_conns w_attempts]; rewrite A4; exact A1).
    rewrite events_bind.
    destruct (net en (w_attempts (st_world s6))) as [sc2|e2] eqn:Hnet2.
    - destruct (open_connection_succeeds en None s6 sc2 Hnet2) as (s7 & R7 & _).
      rewrite R7, A6. unfold events at 1. cbn [snd app]. eexists. reflexivity.
    - destruct (open_connection_fails en None s6 e2 Hnet2) as (s7 & R7 & _).
      rewrite R7, A6. unfold events at 1. cbn [snd app]. eexists. reflexivity. }
  destruct Hopen as (later & Hl).
  rewrite !events_after, Hl. exists later. cbn [app]. reflexivity.
Qed.

End Rejected.

(* ================================================================== *)
(** * The scripts run on concrete worlds *)
(* ================================================================== *)

Transparent strftime_log PyStr.rstrip PyStr.lstrip PyStr.strip PyStr.of_int
  PyStr.utf8_error PyStr.universal_newlines.

(** Finding an element in a list that is written out. *)
Ltac in_list := repeat first [left; reflexivity | right].

(** C2 (at the failing input).  A token is stored, and the server answers it
    by the JSON text [null]: the answer is no account record, yet the sender
    does not turn to the registration.  [login_with_hash] raises [TypeError],
    which [interactive_mode] reports as a connection error; the first
    transport is never closed, no second connection is attempted, and the
    credential file keeps the old token. *)
Example null_reply_is_not_rejected :
  let r := Sender.script Scenario.null_server Basic.lib Scenario.sender_flags
             (Scenario.sender_start Scenario.stored [Typed "Bob"; Typed ""]) in
  outcome r = Ok tt /\
  net_events (events r) = [EvConnect 0 None; EvOpened 0] /\
  open_after [] (events r) = [0] /\
  In "Ошибка подключения: 'NoneType' object is not subscriptable" (printed (events r)) /\
  w_files (st_world (final r)) "account.hash" = Some "tok-old".
Proof. vm_compute. repeat split. in_list. Qed.

(** The sibling case: the server answers the token by a text that is not
    JSON.  The sender closes the first transport, connects again, registers
    on the second transport and stores the new token. *)
Example text_reply_is_rejected :
  let r := Sender.script Scenario.text_server Basic.lib Scenario.sender_flags
             (Scenario.sender_start Scenario.stored [Typed "Bob"; Typed ""]) in
  outcome r = Ok tt /\
  net_events (events r) =
    [EvConnect 0 None; EvOpened 0; EvClose 0;
     EvConnect 1 None; EvOpened 1; EvIsClosing 1 false; EvClose 1] /\
  filter (on_conn 1) (events r) =
    [EvOpened 1;
     EvRead 1; EvWrite 1 PyStr.nl; EvDrain 1;
     EvRead 1; EvWrite 1 ("Bob" ++ PyStr.nl); EvDrain 1;
     EvRead 1; EvRead 1; EvIsClosing 1 false; EvClose 1] /\
  In "Ошибка авторизации, возможно hash неверный" (printed (events r)) /\
  w_files (st_world (final r)) "account.hash" = Some "tok-new".
Proof. vm_compute. repeat split. in_list. Qed.

(** C1 (counterexample).  The server accepts every connection and closes it
    at once: each turn ends by a clean end of the stream, and the second
    connection attempt follows the first without any delay. *)
Lemma retry_after_clean_closure_is_immediate :
  let r := Listener.reconnect_loop Scenario.closing_at_once "chat.example" 5000
             "chat.txt" 2 Scenario.listener_start in
  recovers (exit_of (net Scenario.closing_at_once 0)) = true /\
  outcome r = Ok tt /\
  pace (events r) = [EvConnect 0 (Some 10); EvConnect 1 (Some 10)] /\
  delayed_retries (pace (events r)) = false.
Proof. vm_compute. repeat split. Qed.

(** C4 (counterexample).  A line made of one space is not empty, and the
    listener appends no entry for it: nothing is printed and the history
    file is as it was. *)
Lemma blank_line_appends_nothing :
  let s := Scenario.streaming [Scenario.line " "] in
  let r := Listener.async_for Scenario.refusing "chat.txt" 2 0 0 s in
  PyStr.truthy " " = true /\
  outcome r = Ok 0 /\
  printed (events r) = [] /\
  content (st_world (final r)) "chat.txt" = content (st_world s) "chat.txt".
Proof. vm_compute. repeat split. Qed.

(** C6 (counterexample).  The operator types one space: the line is not
    empty, and the sender sends nothing and leaves the loop. *)
Lemma blank_input_ends_the_session :
  let s := Scenario.chatting [Scenario.line "Message send."] [Typed " "; Typed "next"] in
  let r := Sender.message_turn 0 s in
  PyStr.truthy " " = true /\
  outcome r = Ok Break /\
  events r = [EvInput "> "].
Proof. vm_compute. repeat split. Qed.

Lemma fresh_none_open (files : string -> option string) (stdin : list input_event) :
  none_open (Scenario.fresh files stdin).
Proof. intros [|c]; reflexivity. Qed.

(** C1 (witness): three refused connections in a row. *)
Lemma listener_retries_forever_witness :
  let r := Listener.reconnect_loop Scenario.refusing "chat.example" 5000 "chat.txt" 3
             Scenario.listener_start in
  outcome r = Ok tt /\
  pace (events r) =
    [EvConnect 0 (Some 10); EvSleep 5; EvConnect 1 (Some 10); EvSleep 5;
     EvConnect 2 (Some 10); EvSleep 5] /\
  w_attempts (st_world (final r)) = 3.
Proof.
  apply (listener_retries_forever Scenario.refusing "chat.example" 5000 "chat.txt" 3
           Scenario.listener_start).
  intros i _. reflexivity.
Defined.

(** C3 (witness): a listener that reads two streams, and a sender whose
    handshake returns the second transport, after a registration: when the
    session ends no transport is open. *)
Lemma one_transport_at_a_time_witness :
  let ss := Scenario.sender_start Scenario.no_files [Typed "Bob"; Typed ""] in
  let rl := Listener.minechat_client Scenario.registering_server 2 "chat.example" 5050
              "chat.txt" Scenario.listener_start in
  let rs := Sender.interactive_mode Scenario.registering_server Basic.lib
              "chat.example" 5050 "account.hash" ss in
  (scoped [] (events rl) = true /\ open_after [] (events rl) = []) /\
  scoped [] (events rs) = true /\
  outcome (Sender.connect_and_auth Scenario.registering_server Basic.lib
             "chat.example" 5050 "account.hash" ss) = Ok 1 /\
  open_after [] (events rs) = [].
Proof.
  intros ss rl rs.
  destruct (one_transport_at_a_time Scenario.registering_server Basic.lib "chat.example"
              5050 "chat.txt" "account.hash" 2 Scenario.listener_start ss
              (fresh_none_open _ _) (fresh_none_open _ _) eq_refl)
    as [Hl [Hs Hclosed]].
  assert (Hreturned :
    outcome (Sender.connect_and_auth Scenario.registering_server Basic.lib
               "chat.example" 5050 "account.hash" ss) = Ok 1)
    by (vm_compute; reflexivity).
  split; [exact Hl|]. split; [exact Hs|]. split; [exact Hreturned|].
  exact (Hclosed 1 Hreturned).
Defined.

(** C4 (witness): the three lines hello, empty, world give two entries. *)
Lemma sink_one_entry_per_message_witness :
  let s := Scenario.streaming (map Line Scenario.hello_world) in
  let r := Listener.async_for Scenario.refusing "chat.txt" 4 0 0 s in
  outcome r = Ok 2 /\
  printed (events r) = ["[07.03.26 09:05] hello"; "[07.03.26 09:05] world"] /\
  content (st_world (final r)) "chat.txt"
    = ("[07.03.26 09:05] hello" ++ PyStr.nl ++ "[07.03.26 09:05] world" ++ PyStr.nl)%string.
Proof.
  apply (sink_one_entry_per_message Scenario.refusing "chat.txt" Scenario.hello_world 0
           (Scenario.streaming (map Line Scenario.hello_world))).
  - intros k. reflexivity.
  - repeat constructor.
  - reflexivity.
Defined.

(** C5 (witness): the server closes the first connection at once. *)
Lemma clean_closure_without_data_witness :
  let r := Listener.iteration Scenario.closing_at_once "chat.example" 5000 "chat.txt"
             Scenario.listener_start in
  outcome r = Ok Normal /\
  In (EvPrint "[07.03.26 09:05] Соединение закрыто сервером без отправки данных")
     (events r) /\
  (forall n,
     outcome (Listener.reconnect_loop Scenario.closing_at_once "chat.example" 5000
                "chat.txt" (S n) Scenario.listener_start)
     = outcome (Listener.reconnect_loop Scenario.closing_at_once "chat.example" 5000
                  "chat.txt" n (final r))) /\
  In (EvConnect 1 (Some 10))
     (events (Listener.reconnect_loop Scenario.closing_at_once "chat.example" 5000
                "chat.txt" 2 Scenario.listener_start)).
Proof.
  apply (clean_closure_without_data Scenario.closing_at_once "chat.example" 5000
           "chat.txt" Scenario.listener_start (mkScript [] [] false)).
  - reflexivity.
  - reflexivity.
Defined.

(** C6 (witness): two messages, then a blank line. *)
Lemma one_acknowledgement_per_message_witness :
  let s := Scenario.chatting [Scenario.line "Message send."; Scenario.line "Message send."]
             [Typed "hi there "; Typed "bye"; Typed "  "] in
  let r := Sender.message_loop 3 0 s in
  outcome r = Ok tt /\
  events r =
    [EvInput "> "; EvWrite 0 ("hi there" ++ PyStr.nl); EvDrain 0; EvRead 0;
     EvPrint "Message send.";
     EvInput "> "; EvWrite 0 ("bye" ++ PyStr.nl); EvDrain 0; EvRead 0;
     EvPrint "Message send.";
     EvInput "> "] /\
  w_stdin (st_world (final r)) = [] /\
  t_incoming (conn_get (st_world (final r)) 0) = [].
Proof.
  apply (one_acknowledgement_per_message
           ["hi there "; "bye"]
           [("Message send." ++ PyStr.nl)%string; ("Message send." ++ PyStr.nl)%string]
           "  " [] [] 3 0
           (Scenario.chatting [Scenario.line "Message send."; Scenario.line "Message send."]
              [Typed "hi there "; Typed "bye"; Typed "  "])).
  - reflexivity.
  - repeat constructor.
  - reflexivity.
  - reflexivity.
  - reflexivity.
  - reflexivity.
  - simpl. lia.
Defined.

(** C7 (witness): no flag and no variable at all. *)
Lemma missing_configuration_is_fatal_witness :
  (exists e,
     outcome (Listener.main Scenario.refusing Basic.lib 1 Scenario.no_settings
                Scenario.listener_start) = Raise e /\
     (e_class e = SystemExit \/ e_class e = ValueError)) /\
  (exists e,
     outcome (Sender.script Scenario.refusing Basic.lib Scenario.no_settings
                (Scenario.sender_start Scenario.no_files [])) = Raise e /\
     e_class e = SystemExit).
Proof.
  destruct (missing_configuration_is_fatal Scenario.refusing Basic.lib 1
              Scenario.no_settings Scenario.listener_start
              (Scenario.sender_start Scenario.no_files []) eq_refl)
    as (Hl & Hs & _).
  split.
  - apply Hl. left. split; reflexivity.
  - apply Hs. left. split; reflexivity.
Defined.

(** C8 (witness): the history file is opened for the entry of the first
    line and the write fails.  The failure is reported, the loop goes on with
    the second line, whose entry is appended, and ends with the count of the
    two messages. *)
Lemma write_failure_keeps_stream_witness :
  let s := Scenario.streaming [Scenario.line "hello"; Scenario.line "world"] in
  let r := Listener.async_for Worlds.full_on_write "chat.txt" 3 0 0 s in
  fs_error Worlds.full_on_write (w_opens (st_world s)) = None /\
  (exists s1,
     r = after [EvRead 0;
                EvPrint "[07.03.26 09:05] hello";
                EvPrint "Ошибка записи в файл: [Errno 28] No space left on device"]
               (Listener.async_for Worlds.full_on_write "chat.txt" 2 0 1 s1) /\
     t_incoming (conn_get (st_world s1) 0) = [Scenario.line "world"] /\
     st_vars s1 = Listener.mkVars (Some 0) (Some 0)) /\
  outcome r = Ok 2 /\
  content (st_world (final r)) "chat.txt" = ("[07.03.26 09:05] world" ++ PyStr.nl)%string.
Proof.
  intros s r.
  split; [reflexivity|]. split; [|split; vm_compute; reflexivity].
  destruct (write_failure_keeps_stream Worlds.full_on_write "chat.txt"
              (Utf8 ("hello" ++ PyStr.nl)) [Scenario.line "world"] 2 0 0 s
              "[Errno 28] No space left on device"
              eq_refl eq_refl eq_refl eq_refl)
    as (s1 & Hrun & Hrest & _ & _ & Hvars).
  exists s1. split; [exact Hrun|]. split; [exact Hrest | exact Hvars].
Defined.

(** C10 (witness): no credential, and a server that registers. *)
Lemma registration_on_second_connection_witness :
  let r := Sender.connect_and_auth Scenario.registering_server Basic.lib
             "chat.example" 5050 "account.hash"
             (Scenario.sender_start Scenario.no_files [Typed "Bob"; Typed ""]) in
  filter (on_conn 0) (events r) = [EvOpened 0; EvClose 0] /\
  net_events (events r) =
    [EvConnect 0 None; EvOpened 0; EvClose 0; EvConnect 1 None; EvOpened 1] /\
  filter (on_conn 1) (events r) =
    [EvOpened 1;
     EvRead 1; EvWrite 1 PyStr.nl; EvDrain 1;
     EvRead 1; EvWrite 1 ("Bob" ++ PyStr.nl); EvDrain 1;
     EvRead 1].
Proof.
  destruct (registration_on_second_connection Scenario.registering_server Basic.lib
              "chat.example" 5050 "account.hash"
              (Scenario.sender_start Scenario.no_files [Typed "Bob"; Typed ""])
              Scenario.registrar eq_refl eq_refl) as [H1 H2].
  split; [exact H1|].
  exact (H2 Scenario.registrar _ _ "Bob" _ _ [Typed ""] eq_refl eq_refl eq_refl eq_refl).
Defined.

(** C9 (witness): the credential file appears during the handshake, so the
    handshake returned the transport of the registration. *)
Lemma credential_written_by_registration_only_witness :
  let s := Scenario.sender_start Scenario.no_files [Typed "Bob"; Typed ""] in
  let handshake := Sender.connect_and_auth Scenario.registering_server Basic.lib
                     "chat.example" 5050 "account.hash" s in
  w_files (st_world (final handshake)) "account.hash" = Some "tok-new" /\
  outcome handshake = Ok 1.
Proof.
  split; [reflexivity|].
  destruct (credential_written_by_registration_only Scenario.registering_server
              Basic.lib "chat.example" 5050 "account.hash"
              (Scenario.sender_start Scenario.no_files [Typed "Bob"; Typed ""]))
    as (_ & _ & H & _).
  apply H. intros E.
  apply (f_equal (fun f => f "account.hash")) in E. vm_compute in E. discriminate E.
Defined.

(** X1 (witness): two refused connections. *)
Lemma history_mirrors_console_witness :
  let r := Listener.minechat_client Scenario.refusing 2 "chat.example" 5000 "chat.txt"
             Scenario.listener_start in
  content (st_world (final r)) "chat.txt"
    = (content (st_world Scenario.listener_start) "chat.txt"
       ++ file_lines (printed (events r)))%string /\
  forall p, p <> "chat.txt" ->
            w_files (st_world (final r)) p = w_files (st_world Scenario.listener_start) p.
Proof.
  apply (history_mirrors_console Scenario.refusing 2 "chat.example" 5000 "chat.txt"
           Scenario.listener_start).
  intros k. reflexivity.
Defined.

(** X7 (witness): a token with a carriage return inside, saved in an empty
    directory: the file holds the token as it is, and the token loaded has a
    line feed in the place of the carriage return. *)
Lemma saved_hash_is_loaded_witness :
  let saved := final (Sender.save_hash Scenario.refusing "account.hash"
                        (JStr Worlds.split_token)
                        (Scenario.sender_start Scenario.no_files [])) in
  let r := Sender.load_hash Scenario.refusing "account.hash" saved in
  (w_files (st_world saved) "account.hash" = Some Worlds.split_token /\
   outcome r = Ok true /\
   Sender.account_hash (st_vars (final r))
     = JStr (PyStr.strip (PyStr.universal_newlines Worlds.split_token))) /\
  PyStr.strip (PyStr.universal_newlines Worlds.split_token)
    = ("tok" ++ PyStr.nl ++ "new")%string.
Proof.
  split; [|vm_compute; reflexivity].
  apply (saved_hash_is_loaded Scenario.refusing "account.hash" Worlds.split_token
           (Scenario.sender_start Scenario.no_files [])); vm_compute; reflexivity.
Defined.

(** X10 (witness): the server answers the token by the JSON text [null]. *)
Lemma failed_handshake_closes_nothing_witness :
  let h := Sender.connect_and_auth Scenario.null_server Basic.lib "chat.example" 5050
             "account.hash" Worlds.loaded in
  let r := Sender.interactive_mode Scenario.null_server Basic.lib "chat.example" 5050
             "account.hash" Worlds.loaded in
  outcome r = Ok tt /\
  events r = (events h ++ [EvPrint "Ошибка подключения: 'NoneType' object is not subscriptable";
                           EvPrint "Соединение закрыто"])%list /\
  final r = final h.
Proof.
  apply (failed_handshake_closes_nothing Scenario.null_server Basic.lib "chat.example" 5050
           "account.hash" Worlds.loaded
           (new_exn TypeError "'NoneType' object is not subscriptable")); vm_compute; reflexivity.
Defined.

(** X11 (witness): two lines of input, and more turns than needed. *)
Lemma message_loop_ends_witness :
  let s := Scenario.chatting [Scenario.line "Message send."] [Typed "hi"; Typed ""] in
  Sender.message_loop 7 0 s = Sender.message_loop 3 0 s.
Proof.
  apply (message_loop_ends 7 0
           (Scenario.chatting [Scenario.line "Message send."] [Typed "hi"; Typed ""])).
  simpl. lia.
Defined.

(** X12 (witness): the server has closed the stream. *)
Lemma missing_acknowledgement_is_blank_witness :
  exists s',
    Sender.message_turn 0 (Scenario.chatting [] [Typed "hi"]) =
      (Ok Normal, s',
       [EvInput "> "; EvWrite 0 (PyStr.strip "hi" ++ PyStr.nl); EvDrain 0; EvRead 0;
        EvPrint ""]) /\
    w_stdin (st_world s') = [].
Proof.
  apply (missing_acknowledgement_is_blank 0 "hi" [] (Scenario.chatting [] [Typed "hi"]));
    reflexivity.
Defined.

(** X13 (witness): the connection is reset at the first [drain()]. *)
Lemma send_failure_ends_exchange_witness :
  let r := Sender.message_loop 3 0 Worlds.failing_drain in
  outcome r = Ok tt /\
  events r =
    [EvInput "> "; EvWrite 0 (PyStr.strip "hi" ++ PyStr.nl); EvDrain 0;
     EvPrint "Ошибка отправки сообщения: Connection lost"] /\
  w_stdin (st_world (final r)) = [Typed "more"].
Proof.
  apply (send_failure_ends_exchange 2 0 "hi" [Typed "more"]
           (new_exn ConnectionResetError "Connection lost") [] Worlds.failing_drain);
    reflexivity.
Defined.

(** X24 (witness): no input at all. *)
Lemma end_of_input_is_reported_witness :
  Sender.message_loop 1 0 (Scenario.chatting [] []) =
    (Ok tt, Scenario.chatting [] [],
     [EvInput "> "; EvPrint "Ошибка отправки сообщения: EOF when reading a line"]).
Proof. apply (end_of_input_is_reported 0 0 (Scenario.chatting [] [])). vm_compute. reflexivity. Defined.

(** X25 (witness): an interrupt at the first prompt. *)
Lemma interrupt_ends_exchange_quietly_witness :
  let r := Sender.message_loop 2 0
             (Scenario.chatting [] [InputError (new_exn KeyboardInterrupt ""); Typed "hi"]) in
  outcome r = Ok tt /\ events r = [EvInput "> "] /\
  w_stdin (st_world (final r)) = [Typed "hi"].
Proof.
  apply (interrupt_ends_exchange_quietly 1 0 (new_exn KeyboardInterrupt "") [Typed "hi"]
           (Scenario.chatting [] [InputError (new_exn KeyboardInterrupt ""); Typed "hi"]));
    reflexivity.
Defined.

(** X14 (witness): the server knows the stored token. *)
Lemma login_on_first_connection_witness :
  let run := Sender.connect_and_auth Worlds.accepting_server Basic.lib "chat.example"
               5050 "account.hash" Worlds.loaded in
  outcome run = Ok 0 /\
  st_vars (final run) = Sender.mkVars (JStr "tok-old") (JStr "Bob") None.
Proof.
  destruct (login_on_first_connection Worlds.accepting_server Basic.lib "chat.example"
              5050 "account.hash" Worlds.loaded "tok-old"
              ("Hello %username%! Enter your personal hash or leave it empty." ++ PyStr.nl)
              (record_text "Bob" "tok-old" ++ PyStr.nl) Worlds.accepting
              [Scenario.line "Welcome to chat! Post your message below."]
              [("nickname", JStr "Bob"); ("account_hash", JStr "tok-old")] (JStr "Bob")
              ltac:(vm_compute; reflexivity) ltac:(vm_compute; reflexivity) ltac:(vm_compute; reflexivity) ltac:(vm_compute; reflexivity) ltac:(vm_compute; reflexivity) ltac:(vm_compute; reflexivity) ltac:(vm_compute; reflexivity)) as (A & _ & B & _).
  split; [exact A | exact B].
Defined.

(** X15 (witness): the history file cannot be created. *)
Lemma only_startup_failure_ends_listener_witness :
  w_files (st_world Scenario.listener_start) "chat.txt" = None /\
  fs_error Scenario.disk_full (w_opens (st_world Scenario.listener_start))
    = Some "No space left on device" /\
  e_class (new_exn OSError "No space left on device") = OSError /\
  events (Listener.minechat_client Scenario.disk_full 1 "chat.example" 5000 "chat.txt"
            Scenario.listener_start) = [] /\
  w_files (st_world (final (Listener.minechat_client Scenario.disk_full 1 "chat.example"
                              5000 "chat.txt" Scenario.listener_start)))
    = w_files (st_world Scenario.listener_start).
Proof.
  apply (only_startup_failure_ends_listener Scenario.disk_full 1 "chat.example" 5000
           "chat.txt" Scenario.listener_start (new_exn OSError "No space left on device"));
    reflexivity.
Defined.

(** X23 (witness): the history file cannot be created. *)
Lemma startup_failure_is_reported_witness :
  let r := Listener.main Scenario.disk_full Basic.lib 1 Worlds.listener_flags
             Scenario.listener_start in
  outcome r = Ok tt /\
  In (EvPrint "Критическая ошибка: No space left on device") (events r).
Proof.
  destruct (startup_failure_is_reported Scenario.disk_full Basic.lib 1
              Worlds.listener_flags Scenario.listener_start
              (mkArgs "chat.example" 5000 "chat.txt") "No space left on device"
              ltac:(vm_compute; reflexivity) ltac:(vm_compute; reflexivity) ltac:(vm_compute; reflexivity)) as (A & B & _).
  split; [exact A|]. rewrite B. simpl. in_list.
Defined.

(** X18 (witness): the port variable is [abc] and the flag is 5000. *)
Lemma malformed_port_variable_is_fatal_witness :
  outcome (Sender.script Scenario.refusing Basic.lib Worlds.bad_port_variable
             (Scenario.sender_start Scenario.no_files []))
  = Raise (new_exn SystemExit "1").
Proof.
  exact (proj1 (proj2 (malformed_port_variable_is_fatal Scenario.refusing Basic.lib 1
                         Worlds.bad_port_variable Scenario.listener_start
                         (Scenario.sender_start Scenario.no_files []) ltac:(vm_compute; reflexivity)))).
Defined.

(** X19 (witness): hello, an empty line, world. *)
Lemma clean_turn_transcript_witness :
  let r := Listener.iteration Worlds.greeting_server "chat.example" 5000 "chat.txt"
             Scenario.listener_start in
  outcome r = Ok Normal /\
  printed (events r) =
    ["[07.03.26 09:05] Подключение к chat.example:5000...";
     "[07.03.26 09:05] Соединение установлено с chat.example:5000";
     "[07.03.26 09:05] hello";
     "[07.03.26 09:05] world";
     "[07.03.26 09:05] Закрытие соединения..."].
Proof.
  apply (clean_turn_transcript Worlds.greeting_server "chat.example" 5000 "chat.txt"
           (fun k => eq_refl) Scenario.listener_start
           (mkScript (map Line Scenario.hello_world) [] false) Scenario.hello_world).
  - vm_compute. reflexivity.
  - vm_compute. reflexivity.
  - repeat constructor.
Defined.

(** X20 (witness): the server registers Bob. *)
Lemma registration_persists_token_witness :
  let run := Sender.register_account Scenario.refusing Basic.lib "account.hash" 0
               Worlds.registering in
  outcome run = Ok (JStr "tok-new", JStr "Bob") /\
  w_files (st_world (final run)) "account.hash" = Some "tok-new".
Proof.
  destruct (registration_persists_token Scenario.refusing Basic.lib "account.hash" 0
              Worlds.registering
              ("Hello %username%! Enter your personal hash or leave it empty." ++ PyStr.nl)
              ("Enter preferred nickname below:" ++ PyStr.nl)
              (record_text "Bob" "tok-new" ++ PyStr.nl) "Bob" "tok-new" (JStr "Bob")
              [("nickname", JStr "Bob"); ("account_hash", JStr "tok-new")]
              [Scenario.line "Welcome to chat! Post your message below.";
               Scenario.line "Message send. Write more."] []
              ltac:(vm_compute; reflexivity) ltac:(vm_compute; reflexivity)
              ltac:(vm_compute; reflexivity) ltac:(vm_compute; reflexivity)
              ltac:(vm_compute; reflexivity) ltac:(vm_compute; reflexivity)
              ltac:(vm_compute; reflexivity) ltac:(vm_compute; reflexivity))
    as (A & B & _).
  split; [exact A | exact B].
Defined.

(** X21 (witness): a stored token with a carriage return inside, whatever
    the server answers to it: what is sent is the token with a line feed in
    its place. *)
Lemma stored_token_is_sent_stripped_witness :
  let loaded := final (Sender.load_hash Scenario.text_server "account.hash"
                         (Scenario.sender_start Worlds.stored_split [])) in
  (exists later,
     events (Sender.connect_and_auth Scenario.text_server Basic.lib "chat.example" 5050
               "account.hash" loaded) =
       ([EvPrint ("Подключение к " ++ "chat.example" ++ ":" ++ PyStr.of_int 5050 ++ "...");
         EvConnect 0 None; EvOpened 0;
         EvPrint "Соединение установлено";
         EvPrint "Авторизация с существующим hash...";
         EvRead 0;
         EvPrint (PyStr.strip ("Hello %username%! Enter your personal hash or leave it empty."
                               ++ PyStr.nl));
         EvWrite 0 (PyStr.strip (PyStr.universal_newlines Worlds.split_token) ++ PyStr.nl)]
        ++ later)%list) /\
  (PyStr.strip (PyStr.universal_newlines Worlds.split_token) ++ PyStr.nl
   = "tok" ++ PyStr.nl ++ "new" ++ PyStr.nl)%string.
Proof.
  split; [|vm_compute; reflexivity].
  apply (stored_token_is_sent_stripped Scenario.text_server Basic.lib "chat.example" 5050
           "account.hash" (Scenario.sender_start Worlds.stored_split [])
           Worlds.split_token
           ("Hello %username%! Enter your personal hash or leave it empty." ++ PyStr.nl)
           Scenario.text_reply [Scenario.line "Unknown token"]); vm_compute; reflexivity.
Defined.

(** X26 (witness): the server answers the token by a text that is not JSON. *)
Lemma rejected_token_leads_to_registration_witness :
  exists later,
    events (Sender.connect_and_auth Scenario.text_server Basic.lib "chat.example" 5050
              "account.hash" Worlds.loaded) =
      ([EvPrint ("Подключение к " ++ "chat.example" ++ ":" ++ PyStr.of_int 5050 ++ "...");
        EvConnect 0 None; EvOpened 0;
        EvPrint "Соединение установлено";
        EvPrint "Авторизация с существующим hash...";
        EvRead 0;
        EvPrint (PyStr.strip ("Hello %username%! Enter your personal hash or leave it empty."
                              ++ PyStr.nl));
        EvWrite 0 ("tok-old" ++ PyStr.nl); EvDrain 0;
        EvRead 0;
        EvPrint "Ошибка авторизации, возможно hash неверный";
        EvClose 0;
        EvPrint "Переподключение для регистрации...";
        EvConnect 1 None] ++ later)%list.
Proof.
  apply (rejected_token_leads_to_registration Scenario.text_server Basic.lib "chat.example"
           5050 "account.hash" Worlds.loaded "tok-old"
           ("Hello %username%! Enter your personal hash or leave it empty." ++ PyStr.nl)
           ("Unknown token" ++ PyStr.nl) Scenario.text_reply []); vm_compute; reflexivity.
Defined.

(** X27 (witness): hello, then the connection is reset. *)
Lemma broken_turn_transcript_witness :
  let r := Listener.iteration Worlds.breaking_server "chat.example" 5000 "chat.txt"
             Scenario.listener_start in
  outcome r = Ok Continue /\
  printed (events r) =
    ["[07.03.26 09:05] Подключение к chat.example:5000...";
     "[07.03.26 09:05] Соединение установлено с chat.example:5000";
     "[07.03.26 09:05] hello";
     "[07.03.26 09:05] Ошибка подключения: Connection lost";
     "[07.03.26 09:05] Попытка переподключения через 5 секунд..."].
Proof.
  apply (broken_turn_transcript Worlds.breaking_server "chat.example" 5000 "chat.txt"
           (fun k => eq_refl) Scenario.listener_start
           (mkScript [Scenario.line "hello";
                      ReadError (new_exn ConnectionResetError "Connection lost")] [] true)
           [Utf8 ("hello" ++ PyStr.nl)]
           (new_exn ConnectionResetError "Connection lost") []).
  - vm_compute. reflexivity.
  - vm_compute. reflexivity.
  - repeat constructor.
  - vm_compute. reflexivity.
Defined.
